(** * Multi-Doc-Chat: ingestion, index manager and conversational chain

    A shallow embedding of the Python sources

      - multi_doc_chat/utils/file_io.py
      - multi_doc_chat/utils/document_ops.py
      - multi_doc_chat/model/models.py
      - multi_doc_chat/src/document_ingestion/data_ingestion.py
      - multi_doc_chat/src/document_chat/retrieval.py

    Python values are modelled by a small value type, strings by
    [string] (one [ascii] per character, i.e. the code points 0..255),
    dicts by [gmap], exceptions by an error monad over an explicit world
    state (log, disk, random source). *)

From Stdlib Require Import ZArith QArith Ascii String List Lia.
From stdpp Require Import gmap strings list fin_maps pretty.

Close Scope Q_scope.
Open Scope string_scope.

(** ** Python values *)

Module Py.

(** The values that occur in chunk metadata and as pipeline results:
    [None], [bool], [int], [str]. *)
Inductive PyVal :=
| VNone
| VBool (b : bool)
| VInt (z : Z)
| VStr (s : string).

(** [bool(v)] *)
Definition truthy (v : PyVal) : bool :=
  match v with
  | VNone => false
  | VBool b => b
  | VInt z => negb (z =? 0)%Z
  | VStr s => negb (String.eqb s "")
  end.

(** [a or b] *)
Definition py_or (a b : PyVal) : PyVal := if truthy a then a else b.

(** [v is None] *)
Definition is_none (v : PyVal) : bool :=
  match v with VNone => true | _ => false end.

(** [str(v)], which is also what an f-string field [{v}] renders. *)
Definition py_str (v : PyVal) : string :=
  match v with
  | VNone => "None"
  | VBool true => "True"
  | VBool false => "False"
  | VInt z => pretty z
  | VStr s => s
  end.

(** [d.get(k)] on a [Dict[str, Any]]: [None] when the key is missing. *)
Definition dict_get (d : gmap string PyVal) (k : string) : PyVal :=
  default VNone (d !! k).

(** [s.encode("utf-8")] for code points below 256: one byte below 128,
    two bytes otherwise. *)
Definition utf8_char (c : ascii) : list Z :=
  let n := Z.of_N (N_of_ascii c) in
  if (n <? 128)%Z then [n]
  else [Z.lor 192 (Z.shiftr n 6); Z.lor 128 (Z.land n 63)].

Fixpoint encode_utf8 (s : string) : list Z :=
  match s with
  | EmptyString => []
  | String c r => utf8_char c ++ encode_utf8 r
  end.

End Py.

(** ** hashlib.sha256 (FIPS 180-4) on bytes, words as [Z] modulo 2^32 *)

Module Sha256.

Open Scope Z_scope.

Definition w32 (x : Z) : Z := x mod 2 ^ 32.
Definition add32 (x y : Z) : Z := w32 (x + y).
Definition rotr (n x : Z) : Z := Z.lor (Z.shiftr x n) (w32 (Z.shiftl x (32 - n))).
Definition not32 (x : Z) : Z := Z.lxor x (2 ^ 32 - 1).

Definition Ch (x y z : Z) := Z.lxor (Z.land x y) (Z.land (not32 x) z).
Definition Maj (x y z : Z) := Z.lxor (Z.lxor (Z.land x y) (Z.land x z)) (Z.land y z).
Definition bsig0 x := Z.lxor (Z.lxor (rotr 2 x) (rotr 13 x)) (rotr 22 x).
Definition bsig1 x := Z.lxor (Z.lxor (rotr 6 x) (rotr 11 x)) (rotr 25 x).
Definition ssig0 x := Z.lxor (Z.lxor (rotr 7 x) (rotr 18 x)) (Z.shiftr x 3).
Definition ssig1 x := Z.lxor (Z.lxor (rotr 17 x) (rotr 19 x)) (Z.shiftr x 10).

(** The first 64 primes. *)
Definition primes : list Z :=
  [2; 3; 5; 7; 11; 13; 17; 19; 23; 29; 31; 37; 41; 43; 47; 53; 59; 61; 67; 71; 73; 79;
   83; 89; 97; 101; 103; 107; 109; 113; 127; 131; 137; 139; 149; 151; 157; 163; 167;
   173; 179; 181; 191; 193; 197; 199; 211; 223; 227; 229; 233; 239; 241; 251; 257; 263;
   269; 271; 277; 281; 283; 293; 307; 311].

(** The integer cube root of [n], for [n] below 2^108, one bit at a time. *)
Definition cbrt (n : Z) : Z :=
  fold_left (fun r i => let c := r + 2 ^ Z.of_nat i in if c * c * c <=? n then c else r)
            (rev (seq 0 36)) 0.

(** The round constants: the first 32 bits of the fractional part of the
    cube root of each prime. *)
Definition K : list Z :=
  Eval vm_compute in map (fun p => w32 (cbrt (p * 2 ^ 96))) primes.

(** The initial hash value: the same for the square roots of the first 8 primes. *)
Definition H0 : list Z :=
  Eval vm_compute in map (fun p => w32 (Z.sqrt (p * 2 ^ 64))) (firstn 8 primes).

(** Padding: a 1 bit, zeros up to 56 mod 64 bytes, the bit length on 8 bytes. *)
Definition be_bytes (n : nat) (x : Z) : list Z :=
  map (fun i => Z.land (Z.shiftr x (8 * Z.of_nat i)) 255) (rev (seq 0 n)).

Definition pad (msg : list Z) : list Z :=
  let len := Z.of_nat (length msg) in
  let zeros := Z.to_nat ((55 - len) mod 64) in
  msg ++ [128] ++ repeat 0 zeros ++ be_bytes 8 (8 * len).

Fixpoint words_of (fuel : nat) (bs : list Z) : list Z :=
  match fuel, bs with
  | S f, b0 :: b1 :: b2 :: b3 :: r =>
      (((b0 * 256 + b1) * 256 + b2) * 256 + b3) :: words_of f r
  | _, _ => []
  end.

(** Message schedule: [sched] holds W_{t-1}, W_{t-2}, ... most recent first. *)
Fixpoint extend (n : nat) (sched : list Z) : list Z :=
  match n with
  | O => sched
  | S n' =>
      let w := add32 (add32 (ssig1 (nth 1 sched 0)) (nth 6 sched 0))
                     (add32 (ssig0 (nth 14 sched 0)) (nth 15 sched 0)) in
      extend n' (w :: sched)
  end.

Definition schedule (block : list Z) : list Z := rev (extend 48 (rev block)).

Record regs := Regs { ra : Z; rb : Z; rc : Z; rd : Z; re : Z; rf : Z; rg : Z; rh : Z }.

Definition round (r : regs) (kw : Z * Z) : regs :=
  let t1 := add32 (add32 (add32 (rh r) (bsig1 (re r)))
                         (add32 (Ch (re r) (rf r) (rg r)) (fst kw))) (snd kw) in
  let t2 := add32 (bsig0 (ra r)) (Maj (ra r) (rb r) (rc r)) in
  Regs (add32 t1 t2) (ra r) (rb r) (rc r) (add32 (rd r) t1) (re r) (rf r) (rg r).

Definition regs_of (h : list Z) : regs :=
  Regs (nth 0 h 0) (nth 1 h 0) (nth 2 h 0) (nth 3 h 0)
       (nth 4 h 0) (nth 5 h 0) (nth 6 h 0) (nth 7 h 0).

Definition list_of (r : regs) : list Z :=
  [ra r; rb r; rc r; rd r; re r; rf r; rg r; rh r].

Definition compress (h : list Z) (block : list Z) : list Z :=
  let r := fold_left round (combine K (schedule block)) (regs_of h) in
  map (fun p => add32 (fst p) (snd p)) (combine h (list_of r)).

Fixpoint blocks (fuel : nat) (ws : list Z) (h : list Z) : list Z :=
  match fuel with
  | O => h
  | S f =>
      match ws with
      | [] => h
      | _ => blocks f (skipn 16 ws) (compress h (firstn 16 ws))
      end
  end.

Definition digest_words (msg : list Z) : list Z :=
  let p := pad msg in
  let ws := words_of (length p) p in
  blocks (length ws) ws H0.

Definition digest (msg : list Z) : list Z :=
  flat_map (be_bytes 4) (digest_words msg).

Definition hex_digit (n : Z) : ascii :=
  if n <? 10 then ascii_of_N (Z.to_N (48 + n)) else ascii_of_N (Z.to_N (87 + n)).

Fixpoint hex_of_bytes (bs : list Z) : string :=
  match bs with
  | [] => EmptyString
  | b :: r => String (hex_digit (Z.shiftr b 4)) (String (hex_digit (Z.land b 15)) (hex_of_bytes r))
  end.

(** [hashlib.sha256(data).hexdigest()] *)
Definition hexdigest (msg : list Z) : string := hex_of_bytes (digest msg).

End Sha256.


(** ** Exceptions, results and the state-and-error monad *)

Module Exc.

(** The exceptions the modelled code raises or meets. [ProjectException]
    is the application's wrapper, from [multi_doc_chat.exception], which is
    not among the sources: it is taken to be a subclass of [Exception]
    that can always be constructed; its first constructor argument is
    either a message or the exception it wraps. *)
Inductive Exn :=
| TypeError (msg : string)
| AttributeError (msg : string)
| KeyError (key : string)
| ValueError (msg : string)
| RuntimeError (msg : string)
| FileNotFoundError (msg : string)
| ValidationError (msg : string)
| LibraryError (msg : string)
| ProjectException (arg : Cause)
with Cause :=
| Msg (s : string)
| Wrapped (e : Exn).

Inductive Res (A : Type) :=
| Ok (a : A)
| Err (e : Exn).
Arguments Ok {A} a.
Arguments Err {A} e.

(** A computation over a state [S]: the state is returned on failure too,
    as the mutations made before a [raise] stay visible in Python. *)
Definition M (S A : Type) : Type := S -> Res A * S.

Definition ret {S A} (a : A) : M S A := fun s => (Ok a, s).
Definition raise {S A} (e : Exn) : M S A := fun s => (Err e, s).
Definition bind {S A B} (c : M S A) (k : A -> M S B) : M S B :=
  fun s => match c s with
           | (Ok a, s') => k a s'
           | (Err e, s') => (Err e, s')
           end.
Definition get {S} : M S S := fun s => (Ok s, s).
Definition put {S} (s : S) : M S unit := fun _ => (Ok tt, s).
Definition modify {S} (f : S -> S) : M S unit := fun s => (Ok tt, f s).
Definition lift_res {S A} (r : Res A) : M S A := fun s => (r, s).

(** [try: body  except Exception as e: handler e] *)
Definition try_except {S A} (body : M S A) (handler : Exn -> M S A) : M S A :=
  fun s => match body s with
           | (Ok a, s') => (Ok a, s')
           | (Err e, s') => handler e s'
           end.

(** Run a computation on the second component of a pair state. *)
Definition on_snd {S1 S2 A} (c : M S2 A) : M (S1 * S2) A :=
  fun s => let '(r, s2) := c (snd s) in (r, (fst s, s2)).

End Exc.

Export Exc.

Declare Scope py_scope.
Delimit Scope py_scope with py.
Notation "x <- c ;; k" := (bind c (fun x => k))
  (at level 100, c at next level, right associativity) : py_scope.
Notation "c ;; k" := (bind c (fun _ => k))
  (at level 100, right associativity) : py_scope.
Open Scope py_scope.

(** ** The world outside: log, disk, random source *)

Module Sys.

(** One call of a method of the [log] object: the method used, the
    rendered text, and the exception interpolated into it, if any. *)
Record LogRecord := LogRec {
  level : string;
  text : string;
  about : option Exn }.

Record World := MkWorld {
  logs : list LogRecord;            (* oldest first *)
  files : gmap string (list Z);     (* path -> bytes *)
  dirs : gset string;
  uuids : nat -> string;            (* what the successive uuid4().hex calls give *)
  uuid_next : nat }.

Definition set_logs (f : list LogRecord -> list LogRecord) (w : World) : World :=
  MkWorld (f (logs w)) (files w) (dirs w) (uuids w) (uuid_next w).
Definition set_files (f : gmap string (list Z) -> gmap string (list Z)) (w : World) : World :=
  MkWorld (logs w) (f (files w)) (dirs w) (uuids w) (uuid_next w).
Definition set_dirs (f : gset string -> gset string) (w : World) : World :=
  MkWorld (logs w) (files w) (f (dirs w)) (uuids w) (uuid_next w).

(** The [log] object imported from [multi_doc_chat.logger], which is not
    among the sources: [log_has m] tells whether it has a method [m], and
    [log_kwargs] whether its methods accept keyword arguments. *)
Class Logger := {
  log_has : string -> bool;
  log_kwargs : bool }.

(** Python's [logging] module: the level functions; a keyword argument
    they do not know is a [TypeError] once the line is emitted. *)
Definition stdlib_logging : Logger :=
  {| log_has := fun m =>
       bool_decide (m ∈ ["debug"; "info"; "warning"; "warn"; "error";
                          "exception"; "critical"; "fatal"; "log"]);
     log_kwargs := false |}.

Section Calls.
Context {L : Logger}.

(** [log.<method>(text)] *)
Definition log_call (method text : string) (e : option Exn) : M World unit :=
  if log_has method
  then modify (set_logs (fun l => (l ++ [LogRec method text e])%list))
  else raise (AttributeError method).

(** [log.<method>(text, key=value)] *)
Definition log_call_kw (method text key : string) : M World unit :=
  if log_has method
  then if log_kwargs
       then modify (set_logs (fun l => (l ++ [LogRec method text None])%list))
       else raise (TypeError ("unexpected keyword argument " +:+ key))
  else raise (AttributeError method).

End Calls.

Arguments log_call : simpl never.
Arguments log_call_kw : simpl never.

(** [uuid.uuid4().hex] *)
Definition uuid4_hex : M World string :=
  fun w => (Ok (uuids w (uuid_next w)),
            MkWorld (logs w) (files w) (dirs w) (uuids w) (S (uuid_next w))).

(** [p.mkdir(parents=True, exist_ok=True)], for a path that is not a
    regular file and has none among its ancestors, so that the call
    succeeds; of the directories it makes, [p] itself is recorded. *)
Definition mkdir (p : string) : M World unit := modify (set_dirs (fun d => {[p]} ∪ d)).

(** [p.exists()] *)
Definition path_exists (w : World) (p : string) : bool :=
  bool_decide (is_Some (files w !! p)) || bool_decide (p ∈ dirs w).

(** [os.path.isdir(p)] *)
Definition isdir (w : World) (p : string) : bool := bool_decide (p ∈ dirs w).

(** [open(p, "wb")] followed by one [write(data)]. *)
Definition open_wb (p : string) : M World unit := modify (set_files (fun f => <[p := []]> f)).
Definition write (p : string) (data : list Z) : M World unit :=
  modify (set_files (fun f => <[p := data]> f)).

End Sys.

Export Sys.

(** ** pathlib, str and re helpers (POSIX paths, CPython up to 3.12) *)

Module PathLib.

(** [s.rfind(c)] *)
Fixpoint rfind (c : ascii) (s : string) : option nat :=
  match s with
  | EmptyString => None
  | String a r =>
      match rfind c r with
      | Some i => Some (S i)
      | None => if Ascii.eqb a c then Some 0 else None
      end
  end.

(** Split at every ["/"]. *)
Fixpoint split_slash (s : string) (cur : string) : list string :=
  match s with
  | EmptyString => [cur]
  | String a r =>
      if Ascii.eqb a "/" then cur :: split_slash r "" else split_slash r (cur +:+ String a "")
  end.

(** [Path(p).name]: the last component, empty and ["."] components dropped. *)
Definition name (p : string) : string :=
  List.last (List.filter (fun c => negb (String.eqb c "" || String.eqb c ".")) (split_slash p "")) "".

(** Position of the dot that starts the suffix, if there is one. *)
Definition suffix_dot (n : string) : option nat :=
  match rfind "." n with
  | Some i => if (0 <? i)%nat && (i <? String.length n - 1)%nat then Some i else None
  | None => None
  end.

(** [Path(p).suffix] *)
Definition suffix (p : string) : string :=
  let n := name p in
  match suffix_dot n with
  | Some i => substring i (String.length n - i) n
  | None => ""
  end.

(** [Path(p).stem] *)
Definition stem (p : string) : string :=
  let n := name p in
  match suffix_dot n with
  | Some i => substring 0 i n
  | None => n
  end.

(** [base / child], for a base in the form [str(path)] gives and a child
    that is one plain component (not empty, not ["."], without a slash),
    as the file names the code builds are. *)
Definition join (base child : string) : string := base +:+ "/" +:+ child.

Definition between (lo hi : N) (c : ascii) : bool :=
  let n := N_of_ascii c in (lo <=? n)%N && (n <=? hi)%N.

(** [c.lower()] on the code points 0..255. *)
Definition lower_char (c : ascii) : ascii :=
  if between 65 90 c || (between 192 222 c && negb (N_of_ascii c =? 215)%N)
  then ascii_of_N (N_of_ascii c + 32)
  else c.

Fixpoint map_string (f : ascii -> ascii) (s : string) : string :=
  match s with
  | EmptyString => EmptyString
  | String a r => String (f a) (map_string f r)
  end.

(** [s.lower()] *)
Definition lower (s : string) : string := map_string lower_char s.

(** The character class [[a-zA-Z0-9_\-]]. *)
Definition safe_char (c : ascii) : bool :=
  between 97 122 c || between 65 90 c || between 48 57 c
  || Ascii.eqb c "_" || Ascii.eqb c "-".

(** [re.sub(r'[^a-zA-Z0-9_\-]', '_', s)] *)
Definition sanitize (s : string) : string :=
  map_string (fun c => if safe_char c then c else "_"%char) s.

End PathLib.

(** ** multi_doc_chat/utils/file_io.py *)

Module FileIO.

Definition SUPPORTED_EXTENSIONS : list string :=
  [".pdf"; ".docx"; ".txt"; ".pptx"; ".md"; ".csv"; ".xlsx"; ".xls";
   ".db"; ".sqlite"; ".sqlite3"].

(** What a read hands back: [bytes], or a [memoryview] over them. *)
Inductive Data :=
| Bytes (b : list Z)
| MemoryView (b : list Z).

(** [data.tobytes()] for a memoryview, [data] itself otherwise. *)
Definition tobytes (d : Data) : list Z :=
  match d with Bytes b => b | MemoryView b => b end.

(** An uploaded file object, by the attributes the code looks at; [None]
    stands for an attribute the object does not have. *)
Record Uploaded := MkUploaded {
  uf_filename : option string;      (* uf.filename *)
  uf_name : option string;          (* uf.name *)
  uf_file_read : option (list Z);   (* uf.file.read() *)
  uf_read : option Data;            (* uf.read() *)
  uf_getbuffer : option Data }.     (* uf.getbuffer() *)

(** [getattr(uf, "filename", getattr(uf, "name", "file"))] *)
Definition upload_name (uf : Uploaded) : string :=
  match uf_filename uf with
  | Some n => n
  | None => default "file" (uf_name uf)
  end.

(** [uuid.uuid4().hex[:6]] *)
Definition hex6 (h : string) : string := substring 0 6 h.

(** The name a file is saved under, given the random hex string. *)
Definition saved_name (name h : string) : string :=
  let ext := PathLib.lower (PathLib.suffix name) in
  let safe_name := PathLib.lower (PathLib.sanitize (PathLib.stem name)) in
  safe_name +:+ "_" +:+ hex6 h +:+ ext.

Section WithLogger.
Context {L : Logger}.

(** The body of the [with open(out, "wb") as f] block. *)
Definition write_upload (uf : Uploaded) (out : string) : M World unit :=
  match uf_file_read uf with
  | Some b => write out b
  | None =>
      match uf_read uf with
      | Some d => write out (tobytes d)
      | None =>
          match uf_getbuffer uf with
          | Some d => write out (tobytes d)
          | None => raise (ValueError "Unsupported uploaded file object; no readable interface")
          end
      end
  end.

(** The [for uf in uploaded_files] loop; [saved] is the local list. *)
Fixpoint save_loop (target_dir : string) (ufs : list Uploaded) (saved : list string)
  : M World (list string) :=
  match ufs with
  | [] => ret saved
  | uf :: rest =>
      let name := upload_name uf in
      let ext := PathLib.lower (PathLib.suffix name) in
      if negb (bool_decide (ext ∈ SUPPORTED_EXTENSIONS)) then
        log_call "warrning" ("Unsupported file skipped " +:+ name) None ;;
        save_loop target_dir rest saved
      else
        h <- uuid4_hex ;;
        let out := PathLib.join target_dir (saved_name name h) in
        open_wb out ;;
        write_upload uf out ;;
        let saved := (saved ++ [out])%list in
        log_call "info"
          ("File saved for ingestion, uploaded=" +:+ name +:+ ", saved_as=" +:+ out) None ;;
        save_loop target_dir rest saved
  end.

(** [save_uploaded_files(uploaded_files, target_dir)]. The function has no
    [return] statement: falling off its end gives [None]. *)
Definition save_uploaded_files (uploaded_files : list Uploaded) (target_dir : string)
  : M World (option (list string)) :=
  try_except
    (mkdir target_dir ;;
     saved <- save_loop target_dir uploaded_files [] ;;
     ret None)
    (fun e =>
       log_call "error" "" None ;;
       raise (ProjectException (Wrapped e))).

End WithLogger.

End FileIO.

(** ** multi_doc_chat/model/models.py *)

Module Models.

(** [ChatAnswer(answer=s)]: a [str] field with [min_length=1] and
    [max_length=4096]; the lengths count characters. *)
Definition ChatAnswer (s : string) : Res string :=
  if (String.length s <? 1)%nat then
    Err (ValidationError "String should have at least 1 character")
  else if (4096 <? String.length s)%nat then
    Err (ValidationError "String should have at most 4096 characters")
  else Ok s.

End Models.

(** ** LangChain documents, the FAISS vector store and the model loader *)

Module Lib.

(** [langchain_core.documents.Document] *)
Record Document := Doc {
  page_content : string;
  metadata : gmap string Py.PyVal }.

(** Numbers passed on as search parameters ([k], [fetch_k], [lambda_mult]). *)
Inductive Num :=
| NInt (z : Z)
| NFloat (q : Q).

(** A retriever handle: the store it searches and its configuration. *)
Record Retriever (Store : Type) := MkRetriever {
  store : Store;
  search_type : string;
  search_kwargs : gmap string Num }.
Arguments MkRetriever {Store} _ _ _.
Arguments store {Store} _.
Arguments search_type {Store} _.
Arguments search_kwargs {Store} _.

(** The input of a chain: [{"input": ..., "chat_history": ...}]. *)
Record Payload := MkPayload {
  input : string;
  chat_history : list string }.

(** The third-party collaborators: the FAISS store of
    [langchain_community], the embedding and chat models behind
    [ModelLoader], the text splitter and file loaders, [json], and the
    composition of runnables. Each call may fail. *)
Class External := {
  VS : Type;                        (* a FAISS vector store *)
  Emb : Type;                       (* an embeddings client *)
  LLM : Type;                       (* a chat model *)
  ModelLoader : Type;
  (* FAISS.from_texts(texts=, embedding=, metadatas=) *)
  from_texts : list string -> Emb -> list (gmap string Py.PyVal) -> Res VS;
  (* vs.add_documents(docs): the store after the call *)
  vs_add_documents : VS -> list Document -> Res VS;
  (* the contents save_local gives index.faiss and index.pkl *)
  dump : VS -> list Z * list Z;
  (* the store load_local rebuilds from these two contents *)
  load : list Z -> list Z -> Emb -> Res VS;
  (* vs._as_retriever(search_type=, search_kwargs=) *)
  private_as_retriever : VS -> string -> gmap string Num -> Res (Retriever VS);
  (* json.loads / json.dumps on the ledger file; None: not valid JSON *)
  json_loads : list Z -> option (gmap string (gmap string bool));
  json_dumps : gmap string (gmap string bool) -> list Z;
  (* ModelLoader(), .load_embeddings(), .load_llm() *)
  new_model_loader : Res ModelLoader;
  load_embeddings : ModelLoader -> Res Emb;
  load_llm : ModelLoader -> Res LLM;
  (* RecursiveCharacterTextSplitter(chunk_size, chunk_overlap).split_documents(docs) *)
  split_documents : nat -> nat -> option (list Document) -> Res (list Document);
  (* PyPDFLoader / Docx2txtLoader / TextLoader (str(p)).load(), by extension *)
  loader_load : string -> string -> Res (list Document);
  (* the LCEL pipeline assembled over an LLM and a retriever *)
  compose_chain : LLM -> Retriever VS -> Res (Payload -> Res Py.PyVal) }.

Section Faiss.
Context {X : External}.

(** [vs.save_local(folder)]: creates the folder, writes the two
    artifacts; the two writes are taken to succeed. *)
Definition save_local (vs : VS) (folder : string) : M World unit :=
  mkdir folder ;;
  write (PathLib.join folder "index.faiss") (fst (dump vs)) ;;
  write (PathLib.join folder "index.pkl") (snd (dump vs)).

(** [FAISS.load_local(folder, embeddings, index_name=...)] *)
Definition load_local (folder : string) (emb : Emb) (index_name : string) : M World VS :=
  w <- get ;;
  match files w !! PathLib.join folder (index_name +:+ ".faiss"),
        files w !! PathLib.join folder (index_name +:+ ".pkl") with
  | Some a, Some b => lift_res (load a b emb)
  | _, _ => raise (LibraryError "could not open index file")
  end.

(** [vs.as_retriever(search_type=, search_kwargs=)] *)
Definition as_retriever (vs : VS) (search_type : string) (search_kwargs : gmap string Num)
  : Retriever VS :=
  MkRetriever vs search_type search_kwargs.

End Faiss.

End Lib.

Export Lib.

(** ** multi_doc_chat/utils/document_ops.py *)

Module DocumentOps.
Section WithEnv.
Context {L : Logger} {X : External}.

(** The [for p in paths] loop; [docs] is the local list. *)
Fixpoint load_loop (paths : list string) (docs : list Document) : M World (list Document) :=
  match paths with
  | [] => ret docs
  | p :: rest =>
      let ext := PathLib.lower (PathLib.suffix p) in
      if String.eqb ext ".pdf" || String.eqb ext ".docx" || String.eqb ext ".txt" then
        loaded <- lift_res (loader_load ext p) ;;
        load_loop rest (docs ++ loaded)%list
      else
        log_call "warning" ("Unsupported extension skipped " +:+ p) None ;;
        load_loop rest docs
  end.

(** [load_documents(paths)]: iterating [None] is a [TypeError]; there is
    no [return] statement, so the documents read are not handed back. *)
Definition load_documents (paths : option (list string)) : M World (option (list Document)) :=
  try_except
    (match paths with
     | None => raise (TypeError "'NoneType' object is not iterable")
     | Some ps =>
         docs <- load_loop ps [] ;;
         log_call "info" (pretty (length docs) +:+ " Documents loaded") None
     end)
    (fun e =>
       log_call "error" "Failed loading documents " (Some e) ;;
       raise (ProjectException (Wrapped e))) ;;
  ret None.

End WithEnv.
End DocumentOps.

(** ** multi_doc_chat/src/document_ingestion/data_ingestion.py *)

Module DataIngestion.
Import Py.

Section WithEnv.
Context {L : Logger} {X : External}.

(** *** class FaissManager *)

(** The attributes of a manager. [_meta] is the ledger document
    [{"rows": {fingerprint: true, ...}}]; [vs] is [None] until an index
    is loaded or created. *)
Record FaissManager := MkFaissManager {
  index_dir : string;
  meta_path : string;
  _meta : gmap string (gmap string bool);
  medel_loader : ModelLoader;
  emb : Emb;
  vs : option VS }.

Definition set_vs (v : option VS) (m : FaissManager) : FaissManager :=
  MkFaissManager (index_dir m) (meta_path m) (_meta m) (medel_loader m) (emb m) v.
Definition set_meta (d : gmap string (gmap string bool)) (m : FaissManager) : FaissManager :=
  MkFaissManager (index_dir m) (meta_path m) d (medel_loader m) (emb m) (vs m).

(** The methods run on a manager and the world. *)
Definition self : M (FaissManager * World) FaissManager :=
  fun s => (Ok (fst s), s).
Definition update_self (f : FaissManager -> FaissManager) : M (FaissManager * World) unit :=
  modify (fun s => (f (fst s), snd s)).

(** The ledger a fresh manager starts from: [{"rows": {}}]. *)
Definition empty_meta : gmap string (gmap string bool) := {[ "rows" := ∅ ]}.

(** Lines 134-138: the ledger read back from [ingested_meta.json]. *)
Definition read_meta (w : World) (meta_path : string) : gmap string (gmap string bool) :=
  match files w !! meta_path with
  | Some content =>
      match json_loads content with
      | Some d => if bool_decide (d = ∅) then empty_meta else d
      | None => empty_meta
      end
  | None => empty_meta
  end.

(** [FaissManager(index_dir, model_loader)]. Line 140 stores the loader
    as [medel_loader]; line 141 reads [self.model_loader], an attribute
    no manager has. *)
Definition __init__ (index_dir : string) (model_loader : option ModelLoader)
  : M World FaissManager :=
  mkdir index_dir ;;
  let meta_path := PathLib.join index_dir "ingested_meta.json" in
  w <- get ;;
  let meta := read_meta w meta_path in
  ml <- match model_loader with
        | Some ml => ret ml
        | None => lift_res new_model_loader
        end ;;
  holder <- raise (AttributeError "model_loader") ;;
  e <- lift_res (load_embeddings holder) ;;
  ret (MkFaissManager index_dir meta_path meta ml e None).

(** [self._exists()] *)
Definition _exists (m : FaissManager) (w : World) : bool :=
  path_exists w (PathLib.join (index_dir m) "index.faiss")
  && path_exists w (PathLib.join (index_dir m) "index.pkl").

(** [FaissManager._fingerprint(text, md)] *)
Definition _fingerprint (text : string) (md : gmap string PyVal) : string :=
  let src := py_or (dict_get md "source") (dict_get md "file_path") in
  let rid := dict_get md "raw_id" in
  if negb (is_none src) then
    py_str src +:+ "::" +:+ (if is_none rid then "" else py_str rid)
  else
    Sha256.hexdigest (encode_utf8 text).

(** [self._save_meta()] *)
Definition _save_meta : M (FaissManager * World) unit :=
  m <- self ;;
  on_snd (write (meta_path m) (json_dumps (_meta m))).

(** [x in None] *)
Definition in_None {S} : M S bool :=
  raise (TypeError "argument of type 'NoneType' is not iterable").

(** [List[Document] = []]: an item assignment on a typing alias. *)
Definition assign_to_alias {S} : M S unit :=
  raise (TypeError "'_GenericAlias' object does not support item assignment").

(** The [for d in docs] loop of [add_documents]; [new_docs] is the local list. *)
Fixpoint add_loop (docs new_docs : list Document) : M (FaissManager * World) (list Document) :=
  match docs with
  | [] => ret new_docs
  | d :: rest =>
      let key := _fingerprint (page_content d) (metadata d) in
      m <- self ;;
      match _meta m !! "raws" with
      | None => raise (KeyError "raws")
      | Some ledger =>
          if bool_decide (is_Some (ledger !! key)) then add_loop rest new_docs
          else
            update_self (set_meta (<["raws" := <[key := true]> ledger]> (_meta m))) ;;
            add_loop rest (new_docs ++ [d])%list
      end
  end.

(** [self.add_documents(docs)] *)
Definition add_documents (docs : list Document) : M (FaissManager * World) nat :=
  unloaded <- in_None ;;
  (if (unloaded : bool)
   then raise (RuntimeError "Call load_or_create() before add_documents_idempotent().")
   else ret tt) ;;
  assign_to_alias ;;
  new_docs <- add_loop docs [] ;;
  (match new_docs with
   | [] => ret tt
   | _ =>
       m <- self ;;
       match vs m with
       | None => raise (AttributeError "add_documents")
       | Some v =>
           v' <- lift_res (vs_add_documents v new_docs) ;;
           update_self (set_vs (Some v')) ;;
           on_snd (save_local v' (index_dir m)) ;;
           _save_meta
       end
   end) ;;
  ret (length new_docs).

(** [not texts] for an optional list. *)
Definition no_texts (texts : option (list string)) : bool :=
  match texts with
  | None | Some [] => true
  | Some (_ :: _) => false
  end.

(** [self.load_or_create(texts, metadatas)] *)
Definition load_or_create (texts : option (list string))
    (metadatas : option (list (gmap string PyVal))) : M (FaissManager * World) VS :=
  m <- self ;;
  w <- on_snd get ;;
  if _exists m w then
    v <- on_snd (load_local (index_dir m) (emb m) "index") ;;
    update_self (set_vs (Some v)) ;;
    ret v
  else if no_texts texts then
    raise (ProjectException (Msg "No existing FAISS index and no data to create one"))
  else
    v <- lift_res (from_texts (default [] texts) (emb m) (default [] metadatas)) ;;
    update_self (set_vs (Some v)) ;;
    on_snd (save_local v (index_dir m)) ;;
    ret v.


(** *** class ChatIngestor *)

Record ChatIngestor := MkChatIngestor {
  model_loader : ModelLoader;
  user_session : bool;
  session_id : string;
  temp_dir : string;
  faiss_dir : string }.

(** Run a method on an object held in a local variable. *)
Definition with_obj {O A} (o : O) (c : M (O * World) A) : M World (A * O) :=
  fun w => match c (o, w) with
           | (Ok a, (o', w')) => (Ok (a, o'), w')
           | (Err e, (_, w')) => (Err e, w')
           end.

(** [self._split(docs, chunk_size, chunk_overlap)] *)
Definition _split (docs : option (list Document)) (chunk_size chunk_overlap : nat)
  : M World (list Document) :=
  chunks <- lift_res (split_documents chunk_size chunk_overlap docs) ;;
  log_call "info"
    ("Documents split, chunks=" +:+ pretty (length chunks) +:+ ", chunk_size="
     +:+ pretty chunk_size +:+ ", overlap=" +:+ pretty chunk_overlap) None ;;
  ret chunks.

(** Lines 106-111: the search parameters [build_retriver] hands on. *)
Definition retriver_search_kwargs (k : Num) (search_type : string) (fetch_k lambda_mult : Num)
  : gmap string Num :=
  let search_kwargs : gmap string Num := {[ "k" := k ]} in
  if String.eqb search_type "mmr"
  then <["lambda_mult" := lambda_mult]> (<["fetch_k" := fetch_k]> search_kwargs)
  else search_kwargs.

(** [self.build_retriver(uploaded_file, chunk_size=, chunk_overlap=, k=,
    search_type=, fetch_k=, lambda_mult=)]. [_split] is called without the
    two sizes, so it runs on its defaults. *)
Definition build_retriver (ci : ChatIngestor) (uploaded_file : list FileIO.Uploaded)
    (chunk_size chunk_overlap : nat) (k : Num) (search_type : string)
    (fetch_k lambda_mult : Num) : M World (Retriever VS) :=
  try_except
    (paths <- FileIO.save_uploaded_files uploaded_file (temp_dir ci) ;;
     docs <- DocumentOps.load_documents paths ;;
     chunks <- _split docs 1000 200 ;;
     fm <- __init__ (faiss_dir ci) (Some (model_loader ci)) ;;
     let texts := map page_content chunks in
     let metas := map metadata chunks in
     r <- try_except
            (with_obj fm (load_or_create (Some texts) (Some metas)))
            (fun _ => with_obj fm (load_or_create (Some texts) (Some metas))) ;;
     added <- with_obj (snd r) (add_documents chunks) ;;
     log_call "info" ("FAISS index updated " +:+ faiss_dir ci) None ;;
     let search_kwargs := retriver_search_kwargs k search_type fetch_k lambda_mult in
     (if String.eqb search_type "mmr" then log_call "info" "Using MMR search" None else ret tt) ;;
     lift_res (private_as_retriever (fst r) search_type search_kwargs))
    (fun e =>
       log_call "error" "Faild to build retriver " (Some e) ;;
       raise (ProjectException (Wrapped e))).

End WithEnv.
End DataIngestion.

(** ** multi_doc_chat/src/document_chat/retrieval.py *)

Module Retrieval.
Import Py.

Section WithEnv.
Context {L : Logger} {X : External}.

(** The attributes of a [ConversationalRAG]; the two prompts are fixed
    and live inside [compose_chain]. *)
Record ConversationalRAG := MkRAG {
  session_id : option string;
  llm : LLM;
  retriever : option (Retriever VS);
  chain : option (Payload -> Res PyVal) }.

Definition set_retriever (r : option (Retriever VS)) (o : ConversationalRAG) :=
  MkRAG (session_id o) (llm o) r (chain o).
Definition set_chain (c : option (Payload -> Res PyVal)) (o : ConversationalRAG) :=
  MkRAG (session_id o) (llm o) (retriever o) c.

Definition self : M (ConversationalRAG * World) ConversationalRAG :=
  fun s => (Ok (fst s), s).
Definition update_self (f : ConversationalRAG -> ConversationalRAG)
  : M (ConversationalRAG * World) unit :=
  modify (fun s => (f (fst s), snd s)).

(** [{self.session_id}] in an f-string. *)
Definition show_session (sid : option string) : string := default "None" sid.

(** [self._load_llm()]. A chat model object is truthy, so the test
    [if not llm] between the two calls never fires. *)
Definition _load_llm (sid : option string) : M World LLM :=
  try_except
    (ml <- lift_res new_model_loader ;;
     llm <- lift_res (load_llm ml) ;;
     log_call_kw "info" "LLM loaded successfully" "session_id" ;;
     ret llm)
    (fun e =>
       log_call "error" "Failed to load LLM " (Some e) ;;
       raise (ProjectException (Msg "LLM loading error in ConversationalRAG"))).

(** [self._build_lcel_chain()] *)
Definition _build_lcel_chain : M (ConversationalRAG * World) unit :=
  try_except
    (o <- self ;;
     match retriever o with
     | None => raise (ProjectException (Msg "No retriever set before building chain"))
     | Some r =>
         c <- lift_res (compose_chain (llm o) r) ;;
         update_self (set_chain (Some c)) ;;
         on_snd (log_call "info"
                   ("LCEL graph built successfully, session_id=" +:+ show_session (session_id o))
                   None)
     end)
    (fun e =>
       on_snd (log_call "error"
                 "Failed to build LCEL chain, error={e}, session_id={self.session_id}" None) ;;
       raise (ProjectException (Msg "Failed to build LCEL chain"))).

(** [ConversationalRAG(session_id, retriever)] *)
Definition __init__ (sid : option string) (r : option (Retriever VS))
  : M World ConversationalRAG :=
  try_except
    (l <- _load_llm sid ;;
     let o := MkRAG sid l r None in
     o <- (if bool_decide (is_Some r)
           then fun w => match _build_lcel_chain (o, w) with
                         | (Ok _, (o', w')) => (Ok o', w')
                         | (Err e, (_, w')) => (Err e, w')
                         end
           else ret o) ;;
     log_call "info" ("ConversationalRAG initialized " +:+ show_session sid) None ;;
     ret o)
    (fun e =>
       log_call "error" "Failed to initialize ConversationalRAG " (Some e) ;;
       raise (ProjectException (Wrapped e))).

(** [d == s] for a dict [d] and a str [s]: never equal. *)
Definition dict_eq_str (d : gmap string Num) (s : string) : bool := false.

(** Lines 82-86: the search parameters [load_retriever_from_faiss] hands on. *)
Definition loaded_search_kwargs (k : Num) (fetch_k lambda_mult : Num)
    (search_kwargs : option (gmap string Num)) : gmap string Num :=
  match search_kwargs with
  | Some kw => kw
  | None =>
      let search_kwargs : gmap string Num := {[ "k" := k ]} in
      if dict_eq_str search_kwargs "mmr"
      then <["lambda_mult" := lambda_mult]> (<["fetch_k" := fetch_k]> search_kwargs)
      else search_kwargs
  end.

(** [self.load_retriever_from_faiss(index_path, k, index_name, search_type,
    fetch_k, lambda_mult, search_kwargs)]. The fields interpolated into
    the final log line are left out of the recorded text. *)
Definition load_retriever_from_faiss (index_path : string) (k : Num) (index_name : string)
    (search_type : string) (fetch_k lambda_mult : Num)
    (search_kwargs : option (gmap string Num))
  : M (ConversationalRAG * World) (Retriever VS) :=
  try_except
    (w <- on_snd get ;;
     (if negb (isdir w index_path)
      then raise (FileNotFoundError ("FAISS index directory not found: " +:+ index_path))
      else ret tt) ;;
     ml <- lift_res new_model_loader ;;
     embeddings <- lift_res (load_embeddings ml) ;;
     vectorstore <- on_snd (load_local index_path embeddings index_name) ;;
     let search_kwargs := loaded_search_kwargs k fetch_k lambda_mult search_kwargs in
     let r := as_retriever vectorstore search_type search_kwargs in
     update_self (set_retriever (Some r)) ;;
     _build_lcel_chain ;;
     on_snd (log_call "info" "FAISS retriever loaded successfully" None) ;;
     ret r)
    (fun e =>
       on_snd (log_call "error" "Failed to load retriever from FAISS " (Some e)) ;;
       raise (ProjectException (Wrapped e))).

(** [try: body  except ValidationError as ve: handler ve] *)
Definition try_except_validation {S A} (body : M S A) (handler : Exn -> M S A) : M S A :=
  fun s => match body s with
           | (Err (ValidationError m), s') => handler (ValidationError m) s'
           | r => r
           end.

Definition fallback_answer : string := "No answer generated.".

(** [self.invoke(user_input, chat_history)]. The text of the last log
    line is cut to its first words. *)
Definition invoke (user_input : string) (history : option (list string))
  : M (ConversationalRAG * World) string :=
  try_except
    (o <- self ;;
     match chain o with
     | None =>
         raise (ProjectException
                  (Msg "RAG chain not initialized. Call load_retriever_from_faiss() before invoke()."))
     | Some run =>
         let history := default [] history in
         let payload := MkPayload user_input history in
         answer <- lift_res (run payload) ;;
         if negb (truthy answer) then
           on_snd (log_call "warning"
                     ("No answer generated, user_input=" +:+ user_input +:+ ", session_id="
                      +:+ show_session (session_id o)) None) ;;
           ret fallback_answer
         else
           answer <- try_except_validation
                       (lift_res (Models.ChatAnswer (py_str answer)))
                       (fun ve =>
                          on_snd (log_call "error" "Invalid chat answer " (Some ve)) ;;
                          raise (ProjectException (Wrapped ve))) ;;
           on_snd (log_call "info" "Chain invoked successfully" None) ;;
           ret answer
     end)
    (fun e =>
       on_snd (log_call "error" "Failed to invoke ConversationalRAG " (Some e)) ;;
       raise (ProjectException (Msg "Invocation error in ConversationalRAG"))).

End WithEnv.
End Retrieval.

(** ** A small concrete environment

    A store that keeps the texts only, serialised as NUL-terminated UTF-8;
    loaders, splitter and models that always answer; a chain that echoes
    its input. It instantiates the collaborators wherever a statement is
    run on concrete values. *)

Module Toy.
Import Py.

Fixpoint split_nul (bs : list Z) (cur : string) : list string :=
  match bs with
  | [] => []
  | b :: r =>
      if (b =? 0)%Z then cur :: split_nul r ""
      else split_nul r (cur +:+ String (ascii_of_N (Z.to_N b)) "")
  end.

Definition toy_dump (v : list string) : list Z * list Z :=
  ([Z.of_nat (length v)], flat_map (fun t => encode_utf8 t ++ [0%Z])%list v).

Definition echo (p : Payload) : Res PyVal := Ok (VStr (input p)).

(** A store is the list of its texts. As the FAISS wrapper does,
    [from_texts] refuses a list of metadatas that has not one entry per
    text. *)
Definition external : External :=
  {| VS := list string;
     Emb := unit;
     LLM := unit;
     ModelLoader := unit;
     from_texts := fun texts _ metadatas =>
       if (length metadatas =? length texts)%nat then Ok texts
       else Err (ValueError "texts and metadatas must be the same length");
     vs_add_documents := fun v docs => Ok (v ++ map page_content docs)%list;
     dump := toy_dump;
     load := fun _ b _ => Ok (split_nul b "");
     private_as_retriever := fun v st kw => Ok (MkRetriever v st kw);
     json_loads := fun _ => None;
     json_dumps := fun _ => [];
     new_model_loader := Ok tt;
     load_embeddings := fun _ => Ok tt;
     load_llm := fun _ => Ok tt;
     split_documents := fun _ _ docs =>
       match docs with
       | Some d => Ok d
       | None => Err (TypeError "'NoneType' object is not iterable")
       end;
     loader_load := fun _ p => Ok [Doc p {[ "source" := VStr p ]}];
     compose_chain := fun _ _ => Ok echo |}.

(** An empty disk, an empty log, and a fixed sequence of uuid4 values. *)
Definition world0 : World :=
  MkWorld [] ∅ ∅ (fun n => pretty n +:+ "f2a9c07d5e1b4c6a8d3e9f0a1b2c3d4") 0.

(** A chain that answers with a fixed value. *)
Definition const_chain (v : PyVal) (p : Payload) : Res PyVal := Ok v.

(** A string of [n] letters. *)
Fixpoint letters (n : nat) : string :=
  match n with
  | O => EmptyString
  | S n' => String "a" (letters n')
  end.

(** A manager over the directory of session [s1], nothing loaded yet. *)
Definition manager0 : @DataIngestion.FaissManager external :=
  DataIngestion.MkFaissManager (X := external)
    "faiss_index/s1" "faiss_index/s1/ingested_meta.json"
    DataIngestion.empty_meta tt tt None.

(** The same manager holding an index over one chunk. *)
Definition sky_index : @VS external := ["The sky is blue."].

Definition manager_loaded : @DataIngestion.FaissManager external :=
  DataIngestion.set_vs (X := external) (Some sky_index) manager0.

(** The disk once an index over one chunk has been saved there. *)
Definition world_indexed : World :=
  snd (save_local (X := external) ["The sky is blue."] "faiss_index/s1" world0).

Definition sky_doc : Document :=
  Doc "The sky is blue." {[ "source" := VStr "data/s1/doc_0f2a9c.txt" ]}.

(** A chat instance with no retriever, and one whose chain answers [v]. *)
Definition rag_unbound : @Retrieval.ConversationalRAG external :=
  Retrieval.MkRAG (X := external) (Some "s1") tt None None.

Definition rag_answering (v : PyVal) : @Retrieval.ConversationalRAG external :=
  Retrieval.MkRAG (X := external) (Some "s1") tt
    (Some (MkRetriever ["The sky is blue."] "similarity" {[ "k" := NInt 5 ]}))
    (Some (const_chain v)).

(** Uploads: a text file, a PDF, a file the allow-list does not know, and
    an object with a name but nothing to read from. *)
Definition txt_upload : FileIO.Uploaded :=
  FileIO.MkUploaded (Some "My Doc.TXT") None None
    (Some (FileIO.Bytes (encode_utf8 "The sky is blue."))) None.

Definition pdf_upload : FileIO.Uploaded :=
  FileIO.MkUploaded None (Some "paper.pdf") (Some [37; 80; 68; 70]%Z) None None.

Definition exe_upload : FileIO.Uploaded :=
  FileIO.MkUploaded (Some "notes.exe") None None (Some (FileIO.Bytes [77; 90]%Z)) None.

Definition mute_upload : FileIO.Uploaded :=
  FileIO.MkUploaded None (Some "sample.txt") None None None.

End Toy.

(** ** Vocabulary of the specification *)

Module Spec.
Import Py.

(** The text a [raw_id] contributes to a fingerprint: nothing when the
    key is missing or holds [None]. *)
Definition raw_id_text (md : gmap string PyVal) : string :=
  match md !! "raw_id" with
  | None | Some VNone => ""
  | Some r => py_str r
  end.

(** A logger with the three methods the code relies on. *)
Definition usual_logger (L : Logger) : Prop :=
  log_has "info" = true /\ log_has "warning" = true /\ log_has "error" = true.

(** The error [invoke] hands its caller, and the one it raises inside
    when no chain is assembled. *)
Definition generic_invoke_error : Exn :=
  ProjectException (Msg "Invocation error in ConversationalRAG").

Definition unbound_error : Exn :=
  ProjectException
    (Msg "RAG chain not initialized. Call load_retriever_from_faiss() before invoke().").

(** The validation error of [ChatAnswer] for an answer that is too long. *)
Definition too_long_error : Exn :=
  ValidationError "String should have at most 4096 characters".

(** The world with one more line in its log. *)
Definition logged (r : LogRecord) (w : World) : World :=
  set_logs (fun l => (l ++ [r])%list) w.

(** An upload whose extension is on the allow-list, and one that offers
    one of the three ways of reading it. *)
Definition supported (uf : FileIO.Uploaded) : bool :=
  bool_decide (PathLib.lower (PathLib.suffix (FileIO.upload_name uf))
               ∈ FileIO.SUPPORTED_EXTENSIONS).

Definition readable (uf : FileIO.Uploaded) : bool :=
  match FileIO.uf_file_read uf, FileIO.uf_read uf, FileIO.uf_getbuffer uf with
  | None, None, None => false
  | _, _, _ => true
  end.

End Spec.

(** ** Further code of the same files *)

(** *** document_ops.py: class FastAPIFileAdapter *)

Module Adapter.

(** A FastAPI [UploadFile]: its [filename] and the bytes behind [file]. *)
Record UploadFile := MkUploadFile {
  up_filename : option string;
  up_content : list Z }.

(** [uf.filename or "file"] *)
Definition adapter_name (uf : UploadFile) : string :=
  match up_filename uf with
  | Some n => if String.eqb n "" then "file" else n
  | None => "file"
  end.

(** [FastAPIFileAdapter(uf)]: an object with the attribute [name] and the
    method [getbuffer], which rewinds the file and reads all of it. *)
Definition FastAPIFileAdapter (uf : UploadFile) : FileIO.Uploaded :=
  FileIO.MkUploaded None (Some (adapter_name uf)) None None
    (Some (FileIO.Bytes (up_content uf))).

End Adapter.

(** *** retrieval.py: ConversationalRAG._format_docs *)

Module Format.

(** What a retriever hands over: documents, or objects without a
    [page_content], of which only [str(d)] is used. *)
Inductive DocLike :=
| IsDoc (d : Document)
| Other (shown : string).

(** [getattr(d, "page_content", str(d))] *)
Definition shown_text (d : DocLike) : string :=
  match d with
  | IsDoc d => page_content d
  | Other s => s
  end.

(** [sep.join(parts)] *)
Fixpoint str_join (sep : string) (parts : list string) : string :=
  match parts with
  | [] => ""
  | [x] => x
  | x :: rest => x +:+ sep +:+ str_join sep rest
  end.

(** The separator ["\n\n"]. *)
Definition blank_line : string := String "010" (String "010" "").

(** [ConversationalRAG._format_docs(docs)] *)
Definition _format_docs (docs : list DocLike) : string :=
  str_join blank_line (map shown_text docs).

End Format.

(** *** multi_doc_chat/utils/model_loader.py *)

Module ModelLoaderPy.
Import Py.

(** What [json.loads] makes of a string: a failure, an object, or another
    JSON value. *)
Inductive Json :=
| JInvalid
| JOther
| JObject (d : gmap string PyVal).

(** The YAML configuration, in the layout the code reads:
    [config["llm"][provider_key][...]] and
    [config["embedding_model"]["model_name"]]; [None] is a missing key. *)
Record Config := MkConfig {
  cfg_llm : option (gmap string (gmap string PyVal));
  cfg_embedding_model : option (gmap string PyVal) }.

(** The collaborators of this file: [json], [dotenv] (the variables of the
    [.env] file, which do not replace those already set), [load_config]
    (not among the sources) and the two Mistral clients. In
    [ChatMistralAI] the two optional arguments are the configured
    [temperature] and [max_output_tokens]; [None] stands for the defaults
    [0.2] and [2048]. *)
Class Platform := {
  json_loads : string -> Json;
  dotenv : gmap string string;
  load_config : Res Config;
  Embeddings : Type;
  Chat : Type;
  MistralAIEmbeddings : PyVal -> PyVal -> Res Embeddings;
  ChatMistralAI : PyVal -> PyVal -> option PyVal -> option PyVal -> Res Chat }.

(** [bool(s)] for an optional string, as [os.getenv] returns it. *)
Definition set_and_nonempty (o : option string) : bool :=
  match o with
  | Some s => negb (String.eqb s "")
  | None => false
  end.

(** [repr] of a list of plain strings. *)
Definition repr_list (l : list string) : string :=
  "[" +:+ Format.str_join ", " (map (fun k => "'" +:+ k +:+ "'") l) +:+ "]".

Definition REQUIRED_KEYS : list string := ["MISTRAL_API_KEY"].

Section WithEnv.
Context {L : Logger} {P : Platform}.

(** The process: its environment variables and the world. *)
Definition getenv (k : string) : M (gmap string string * World) (option string) :=
  fun s => (Ok (fst s !! k), s).

(** [load_dotenv()] *)
Definition load_dotenv : M (gmap string string * World) unit :=
  modify (fun s => (fst s ∪ dotenv, snd s)).

(** *** class ApiKeyManage *)

(** Lines 20-28: the keys read from a JSON value of [MISTRAL_API_KEY]. *)
Definition keys_from_json (raw : option string)
  : M (gmap string string * World) (gmap string PyVal) :=
  if set_and_nonempty raw then
    match json_loads (default "" raw) with
    | JObject parsed =>
        try_except
          (on_snd (log_call "info" "Loaede API KEYS from ECS secret." None) ;; ret parsed)
          (fun _ =>
             on_snd (log_call "warning" "Failed to parse API KEYS as JSON" None) ;;
             ret parsed)
    | _ =>
        on_snd (log_call "warning" "Failed to parse API KEYS as JSON" None) ;;
        ret ∅
    end
  else ret ∅.

(** Lines 31-36: the [for key in self.REQUIRED_KEYS] loop. *)
Fixpoint keys_from_env (keys : list string) (api_keys : gmap string PyVal)
  : M (gmap string string * World) (gmap string PyVal) :=
  match keys with
  | [] => ret api_keys
  | key :: rest =>
      if negb (truthy (dict_get api_keys key)) then
        env_val <- getenv key ;;
        if set_and_nonempty env_val then
          on_snd (log_call "info" ("Loaded " +:+ key +:+ " from individual env var") None) ;;
          keys_from_env rest (<[key := VStr (default "" env_val)]> api_keys)
        else keys_from_env rest api_keys
      else keys_from_env rest api_keys
  end.

(** [ApiKeyManage()]: the [api_keys] of the new object. *)
Definition ApiKeyManage : M (gmap string string * World) (gmap string PyVal) :=
  raw <- getenv "MISTRAL_API_KEY" ;;
  api_keys <- keys_from_json raw ;;
  api_keys <- keys_from_env REQUIRED_KEYS api_keys ;;
  let missing := List.filter (fun k => negb (truthy (dict_get api_keys k))) REQUIRED_KEYS in
  match missing with
  | [] =>
      on_snd (log_call "info" "API keys loaded" None) ;;
      ret api_keys
  | _ =>
      on_snd (log_call "error" ("missing required API keys " +:+ repr_list missing) None) ;;
      raise (ProjectException (Msg ("Missing  " +:+ repr_list missing +:+ " API KEY")))
  end.

(** [self.get(key)] *)
Definition api_key_get (api_keys : gmap string PyVal) (key : string) : Res PyVal :=
  let val := dict_get api_keys key in
  if negb (truthy val) then Err (KeyError ("API key for " +:+ key +:+ " is missing."))
  else Ok val.

(** *** class ModelLoader *)

Record ModelLoader := MkModelLoader {
  api_key_mgt : gmap string PyVal;
  config : Config }.

(** [ModelLoader()] *)
Definition __init__ : M (gmap string string * World) ModelLoader :=
  mode <- getenv "ENV" ;;
  (if negb (String.eqb (PathLib.lower (default "local" mode)) "production") then
     load_dotenv ;;
     on_snd (log_call "info" "Running in LOCAL mode: .env loaded." None)
   else on_snd (log_call "info" "Running in PRODUCION mode." None)) ;;
  keys <- ApiKeyManage ;;
  cfg <- lift_res load_config ;;
  on_snd (log_call "info" "YAML config loaded" None) ;;
  ret (MkModelLoader keys cfg).

(** [self.load_llm()] *)
Definition load_llm (self : ModelLoader) : M (gmap string string * World) Chat :=
  match cfg_llm (config self) with
  | None => raise (KeyError "llm")
  | Some llm_block =>
      provider_env <- getenv "LLM_PROVIDER" ;;
      let provider_key := default "mistral" provider_env in
      match llm_block !! provider_key with
      | None =>
          on_snd (log_call "error" "LLM provider not found in config" None) ;;
          raise (ValueError ("LLM provider '" +:+ provider_key +:+ "' not found in config"))
      | Some llm_config =>
          let provider := dict_get llm_config "provider" in
          let model_name := dict_get llm_config "model_name" in
          let temperature := llm_config !! "temperature" in
          let max_tokens := llm_config !! "max_output_tokens" in
          on_snd (log_call "info" "Loading LLM" None) ;;
          match provider with
          | VStr "mistral" =>
              key <- lift_res (api_key_get (api_key_mgt self) "MISTRAL_API_KEY") ;;
              lift_res (ChatMistralAI model_name key temperature max_tokens)
          | _ =>
              on_snd (log_call "error" "Unsupported LLM provider" None) ;;
              raise (ValueError ("Unsupported LLM provider: " +:+ py_str provider))
          end
      end
  end.

(** [self.load_embeddings()]. The handler builds a [ProjectException] and
    drops it: the method then ends without a value. *)
Definition load_embeddings (self : ModelLoader)
  : M (gmap string string * World) (option Embeddings) :=
  try_except
    (emb_cfg <- match cfg_embedding_model (config self) with
                | None => raise (KeyError "embedding_model")
                | Some d => ret d
                end ;;
     model_name <- match (emb_cfg : gmap string PyVal) !! "model_name" with
                   | None => raise (KeyError "model_name")
                   | Some v => ret v
                   end ;;
     on_snd (log_call "info" "Loading embedding model" None) ;;
     key <- lift_res (api_key_get (api_key_mgt self) "MISTRAL_API_KEY") ;;
     e <- lift_res (MistralAIEmbeddings model_name key) ;;
     ret (Some e))
    (fun _ =>
       on_snd (log_call "error" "Error loading embedding model" None) ;;
       ret None).

End WithEnv.
End ModelLoaderPy.

(** *** data_ingestion.py: generate_sesstion_id, ChatIngestor.__init__,
    ChatIngestor._resolve_dir *)

Module IngestorInit.

(** [generate_sesstion_id()], given what
    [datetime.now().strftime("%Y%m%d_%H%M%S")] yields. *)
Definition generate_sesstion_id (timestamp : string) : M World string :=
  h <- uuid4_hex ;;
  ret ("session_" +:+ timestamp +:+ "_" +:+ substring 0 8 h).

(** [self._resolve_dir(base)] *)
Definition _resolve_dir (user_session : bool) (session_id base : string) : M World string :=
  if user_session then
    let d := PathLib.join base session_id in
    mkdir d ;;
    ret d
  else ret base.

(** The attributes [ChatIngestor.__init__] sets; paths are held as the
    strings [str(path)] gives. *)
Record ChatIngestorObj := MkObj {
  model_loader : ModelLoaderPy.ModelLoader;
  user_session : bool;
  session_id : string;
  temp_base : string;
  fasiss_base : string;
  temp_dir : string;
  faiss_dir : string }.

Section WithEnv.
Context {L : Logger} {P : ModelLoaderPy.Platform}.

(** [ChatIngestor(temp_base, faiss_base, use_session_dirs, session_id)],
    run on the process (environment variables and world): [ModelLoader()]
    is the constructor of model_loader.py, with its log lines and its
    reading of [.env]. [timestamp] is the current time as
    [generate_sesstion_id] formats it. *)
Definition __init__ (timestamp : string) (temp_base faiss_base : string)
    (use_session_dirs : bool) (session_id : option string)
  : M (gmap string string * World) ChatIngestorObj :=
  try_except
    (ml <- ModelLoaderPy.__init__ ;;
     sid <- match session_id with
            | Some s =>
                if String.eqb s "" then on_snd (generate_sesstion_id timestamp) else ret s
            | None => on_snd (generate_sesstion_id timestamp)
            end ;;
     on_snd (mkdir temp_base) ;;
     on_snd (mkdir faiss_base) ;;
     temp_dir <- on_snd (_resolve_dir use_session_dirs sid temp_base) ;;
     faiss_dir <- on_snd (_resolve_dir use_session_dirs sid faiss_base) ;;
     on_snd (log_call "info" "ChatIngestor initialized" None) ;;
     ret (MkObj ml use_session_dirs sid temp_base faiss_base temp_dir faiss_dir))
    (fun e =>
       on_snd (log_call "error" "Failed to initialize ChatIngestor " (Some e)) ;;
       raise (ProjectException (Wrapped e))).

End WithEnv.
End IngestorInit.

(** *** Vocabulary for the further properties *)

Module Vocab.

(** Every character of [s] passes [p]. *)
Fixpoint all_chars (p : ascii -> bool) (s : string) : bool :=
  match s with
  | EmptyString => true
  | String c r => p c && all_chars p r
  end.

(** A lowercase hexadecimal digit. *)
Definition is_hex_char (c : ascii) : bool :=
  PathLib.between 48 57 c || PathLib.between 97 102 c.

(** A character a saved file name may hold before its suffix. *)
Definition is_name_char (c : ascii) : bool :=
  PathLib.between 97 122 c || PathLib.between 48 57 c
  || Ascii.eqb c "_" || Ascii.eqb c "-".

Definition not_slash (c : ascii) : bool := negb (Ascii.eqb c "/").

(** The fingerprint of a chunk. *)
Definition fp (d : Document) : string :=
  DataIngestion._fingerprint (page_content d) (metadata d).

(** The entry a fingerprint is keyed on: [source] when truthy, else
    [file_path]; [None] when there is neither. *)
Definition key_value (md : gmap string Py.PyVal) : Py.PyVal :=
  Py.py_or (Py.dict_get md "source") (Py.dict_get md "file_path").

(** Two states of a manager that differ in the ledger at most. *)
Definition same_but_meta {X : External} (m m' : DataIngestion.FaissManager) : Prop :=
  DataIngestion.index_dir m' = DataIngestion.index_dir m
  /\ DataIngestion.meta_path m' = DataIngestion.meta_path m
  /\ DataIngestion.medel_loader m' = DataIngestion.medel_loader m
  /\ DataIngestion.emb m' = DataIngestion.emb m
  /\ DataIngestion.vs m' = DataIngestion.vs m.

(** The second world still has every file and directory of the first. *)
Definition keeps_files (w w' : World) : Prop :=
  (forall p, is_Some (files w !! p) -> is_Some (files w' !! p))
  /\ dirs w ⊆ dirs w'.

(** The bytes an upload gives when read: through [file.read], else
    [read], else [getbuffer]. *)
Definition upload_bytes (uf : FileIO.Uploaded) : list Z :=
  match FileIO.uf_file_read uf, FileIO.uf_read uf, FileIO.uf_getbuffer uf with
  | Some b, _, _ => b
  | None, Some d, _ => FileIO.tobytes d
  | None, None, Some d => FileIO.tobytes d
  | None, None, None => []
  end.

(** The paths a batch is saved under when the [n]-th uuid is the next one. *)
Fixpoint expected_paths (dir : string) (uu : nat -> string) (n : nat)
    (ufs : list FileIO.Uploaded) : list string :=
  match ufs with
  | [] => []
  | uf :: rest =>
      PathLib.join dir (FileIO.saved_name (FileIO.upload_name uf) (uu n))
      :: expected_paths dir uu (S n) rest
  end.

(** A disk after the given files have been written, in order. *)
Definition written (disk : gmap string (list Z)) (l : list (string * list Z))
  : gmap string (list Z) :=
  foldl (fun f pd => <[fst pd := snd pd]> f) disk l.

(** A path [load_documents] has a loader for. *)
Definition loadable (p : string) : bool :=
  let ext := PathLib.lower (PathLib.suffix p) in
  String.eqb ext ".pdf" || String.eqb ext ".docx" || String.eqb ext ".txt".

(** The warning [load_documents] logs for a path it skips. *)
Definition skipped (p : string) : LogRecord :=
  LogRec "warning" ("Unsupported extension skipped " +:+ p) None.

(** The second world is the first with more log lines at most. *)
Definition only_logs (w w' : World) : Prop :=
  files w' = files w /\ dirs w' = dirs w /\ uuids w' = uuids w
  /\ uuid_next w' = uuid_next w /\ exists l, logs w' = (logs w ++ l)%list.

(** A computation on a process that leaves the environment variables as
    they were, whether it returns or raises. *)
Definition keeps_env {A} (c : M (gmap string string * World) A) : Prop :=
  forall s, fst (snd (c s)) = fst s.

(** A computation on a process that changes nothing of the world but
    the log, to which it appends, whether it returns or raises. *)
Definition logs_only {A} (c : M (gmap string string * World) A) : Prop :=
  forall s, only_logs (snd s) (snd (snd (c s))).

(** A path component [pathlib] keeps as it is: not empty, not ["."], and
    without a slash. *)
Definition plain_name (s : string) : bool :=
  negb (String.eqb s "") && negb (String.eqb s ".") && all_chars not_slash s.

(** A relative POSIX path in the form [str(Path(p))] has: plain
    components, separated by single slashes. On such a base and a plain
    name, [PathLib.join] is the [/] of [pathlib]. *)
Definition normal_path (p : string) : bool :=
  forallb plain_name (PathLib.split_slash p "").

(** [ModelLoader()] runs in production mode. *)
Definition production (env : gmap string string) : bool :=
  String.eqb (PathLib.lower (default "local" (env !! "ENV"))) "production".

End Vocab.

(** *** Further concrete objects *)

Module Cases.
Import Py Toy.

(** A logger whose methods take keyword arguments, as [structlog]'s do. *)
Definition keyword_logging : Logger :=
  {| log_has := fun m => bool_decide (m ∈ ["debug"; "info"; "warning"; "error"]);
     log_kwargs := true |}.

(** A configuration with two entries under [llm]. *)
Definition config0 : ModelLoaderPy.Config :=
  ModelLoaderPy.MkConfig
    (Some {[ "mistral" := {[ "provider" := VStr "mistral";
                             "model_name" := VStr "mistral-small-latest";
                             "temperature" := VInt 0 ]};
             "groq" := {[ "provider" := VStr "groq";
                          "model_name" := VStr "llama3-8b" ]} ]})
    (Some {[ "model_name" := VStr "mistral-embed" ]}).

(** A platform whose JSON parser knows the empty object and one number,
    whose [.env] file holds a key, and whose clients are the names of
    their models. *)
Definition platform : ModelLoaderPy.Platform :=
  {| ModelLoaderPy.json_loads := fun s =>
       if String.eqb s "{}" then ModelLoaderPy.JObject ∅
       else if String.eqb s "7" then ModelLoaderPy.JOther
       else ModelLoaderPy.JInvalid;
     ModelLoaderPy.dotenv := {[ "MISTRAL_API_KEY" := "sk-from-dotenv" ]};
     ModelLoaderPy.load_config := Ok config0;
     ModelLoaderPy.Embeddings := string;
     ModelLoaderPy.Chat := string;
     ModelLoaderPy.MistralAIEmbeddings := fun model _ => Ok (py_str model);
     ModelLoaderPy.ChatMistralAI := fun model _ _ _ => Ok (py_str model) |}.

(** Environments: with a bare key, and for production without one. *)
Definition env_key : gmap string string := {[ "MISTRAL_API_KEY" := "sk-plain" ]}.
Definition env_production : gmap string string := {[ "ENV" := "Production" ]}.
Definition env_groq : gmap string string := {[ "LLM_PROVIDER" := "groq" ]}.
Definition env_other : gmap string string := {[ "LLM_PROVIDER" := "openai" ]}.

(** A loader holding that key and that configuration. *)
Definition loader0 : @ModelLoaderPy.ModelLoader :=
  ModelLoaderPy.MkModelLoader {[ "MISTRAL_API_KEY" := VStr "sk-plain" ]} config0.

(** A disk where the two artifact paths of session [s1] are directories,
    not files. *)
Definition world_no_files : World :=
  set_dirs (fun _ => {[ "faiss_index/s1/index.faiss"; "faiss_index/s1/index.pkl" ]}) world0.

(** A manager whose ledger has the key [add_documents] reads. *)
Definition manager_raws : @DataIngestion.FaissManager external :=
  DataIngestion.set_meta (X := external) {[ "raws" := ∅ ]} manager0.

(** Two pages of one file, and two rows of one table. *)
Definition page1 : Document := Doc "page one" {[ "source" := VStr "report.pdf" ]}.
Definition page2 : Document := Doc "page two" {[ "source" := VStr "report.pdf" ]}.
Definition row1 : gmap string PyVal := {[ "source" := VStr "t.csv"; "raw_id" := VInt 1 ]}.
Definition row2 : gmap string PyVal := {[ "source" := VStr "t.csv"; "raw_id" := VInt 2 ]}.

(** FastAPI uploads: with a name, and without. *)
Definition named_upload : Adapter.UploadFile :=
  Adapter.MkUploadFile (Some "notes.txt") [104; 105]%Z.
Definition nameless_upload : Adapter.UploadFile :=
  Adapter.MkUploadFile None [104; 105]%Z.

(** What the loaders of [Toy.external] give for a path. *)
Definition one_doc (p : string) : list Document := [Doc p {[ "source" := VStr p ]}].

End Cases.

(** * Properties *)
Example sha_constants :
  nth 0 Sha256.K 0%Z = 0x428a2f98%Z /\ nth 63 Sha256.K 0%Z = 0xc67178f2%Z
  /\ nth 0 Sha256.H0 0%Z = 0x6a09e667%Z /\ nth 7 Sha256.H0 0%Z = 0x5be0cd19%Z.
Proof. repeat split. Qed.

Example sha_abc : Sha256.hexdigest (Py.encode_utf8 "abc")
  = "ba7816bf8f01cfea414140de5dae2223b00361a396177a9cb410ff61f20015ad".
Proof. vm_compute. reflexivity. Qed.

Example sha_empty : Sha256.hexdigest []
  = "e3b0c44298fc1c149afbf4c8996fb92427ae41e4649b934ca495991b7852b855".
Proof. vm_compute. reflexivity. Qed.

Example sha_two_blocks :
  Sha256.hexdigest (Py.encode_utf8 "abcdbcdecdefdefgefghfghighijhijkijkljklmklmnlmnomnopnopq")
  = "248d6a61d20638b8e5c026930c3e6039a33ce45964ff2167f6ecedd419db06c1".
Proof. vm_compute. reflexivity. Qed.

(** ** Running computations *)

Section MonadFacts.
Context {S A B : Type}.

Lemma bind_ok_inv (c : M S A) (k : A -> M S B) (s s' : S) (b : B) :
  bind c k s = (Ok b, s') ->
  exists a s1, c s = (Ok a, s1) /\ k a s1 = (Ok b, s').
Proof.
  unfold bind. destruct (c s) as [[a|e] s1]; [eauto | discriminate].
Qed.

Lemma bind_fails_l (c : M S A) (k : A -> M S B) :
  (forall s, exists e s', c s = (Err e, s')) ->
  forall s, exists e s', bind c k s = (Err e, s').
Proof.
  intros Hc s. destruct (Hc s) as (e & s' & H). unfold bind. rewrite H. eauto.
Qed.

Lemma bind_fails_r (c : M S A) (k : A -> M S B) :
  (forall a s, exists e s', k a s = (Err e, s')) ->
  forall s, exists e s', bind c k s = (Err e, s').
Proof.
  intros Hk s. unfold bind. destruct (c s) as [[a|e] s1]; [apply Hk | eauto].
Qed.

Lemma raise_fails (e : Exn) : forall s : S, exists e' s', raise (A := A) e s = (Err e', s').
Proof. intros s. unfold raise. eauto. Qed.

End MonadFacts.

Lemma try_except_ok_inv {S A} (body : M S A) (handler : Exn -> M S A) (s s' : S) (a : A) :
  (forall e s0, exists e' s1, handler e s0 = (Err e', s1)) ->
  try_except body handler s = (Ok a, s') -> body s = (Ok a, s').
Proof.
  intros Hh. unfold try_except. destruct (body s) as [[a0|e] s1]; [easy |].
  destruct (Hh e s1) as (e' & s2 & H). rewrite H. discriminate.
Qed.

Lemma try_except_err {S A} (body : M S A) (handler : Exn -> M S A) (s : S) :
  (forall e s0, exists e' s1, handler e s0 = (Err e', s1)) ->
  (forall a s', body s <> (Ok a, s')) ->
  exists e s', try_except body handler s = (Err e, s').
Proof.
  intros Hh Hb. unfold try_except. destruct (body s) as [[a0|e] s1] eqn:E.
  - now destruct (Hb a0 s1).
  - apply Hh.
Qed.

(** The handlers of the code: one log call, then a [raise]. *)
Lemma log_then_raise {A} (c : M World unit) (e : Exn) (w : World) :
  exists e' w', bind c (fun _ => raise (A := A) e) w = (Err e', w').
Proof. apply bind_fails_r. intros _ s. apply raise_fails. Qed.

Lemma log_then_raise_snd {O A} (c : M World unit) (e : Exn) (s : O * World) :
  exists e' s', bind (on_snd c) (fun _ => raise (A := A) e) s = (Err e', s').
Proof. apply bind_fails_r. intros _ s0. apply raise_fails. Qed.

(** ** Strings *)

Lemma append_length (a b : string) :
  String.length (a +:+ b) = String.length a + String.length b.
Proof. induction a as [|c a IH]; simpl; [reflexivity | now rewrite IH]. Qed.

Lemma append_inv_tail (s1 s2 t : string) : s1 +:+ t = s2 +:+ t -> s1 = s2.
Proof.
  revert s2. induction s1 as [|c s1 IH]; intros [|c' s2] H; simpl in H.
  - reflexivity.
  - apply (f_equal String.length) in H. cbn in H. rewrite !append_length in H. cbn in H. lia.
  - apply (f_equal String.length) in H. cbn in H. rewrite !append_length in H. cbn in H. lia.
  - injection H as -> H. f_equal. now apply IH.
Qed.

(** ** FaissManager._fingerprint *)

Section Fingerprint.
Import Py DataIngestion Spec.

Lemma raw_id_text_eq (md : gmap string PyVal) :
  (if is_none (dict_get md "raw_id") then "" else py_str (dict_get md "raw_id"))
  = raw_id_text md.
Proof.
  unfold raw_id_text, dict_get. destruct (md !! "raw_id") as [[]|]; reflexivity.
Qed.

(** The value the fingerprint is keyed on: [source] when truthy, else [file_path]. *)
Lemma fingerprint_keyed (text : string) (md : gmap string PyVal) (v : PyVal) :
  py_or (dict_get md "source") (dict_get md "file_path") = v ->
  v <> VNone ->
  _fingerprint text md = py_str v +:+ "::" +:+ raw_id_text md.
Proof.
  intros Hsrc Hv. unfold _fingerprint. rewrite Hsrc, raw_id_text_eq.
  destruct v; simpl; congruence.
Qed.

Lemma fingerprint_hashed (text : string) (md : gmap string PyVal) :
  py_or (dict_get md "source") (dict_get md "file_path") = VNone ->
  _fingerprint text md = Sha256.hexdigest (encode_utf8 text).
Proof. intros Hsrc. unfold _fingerprint. now rewrite Hsrc. Qed.

Lemma truthy_not_none (v : PyVal) : truthy v = true -> v <> VNone.
Proof. destruct v; simpl; congruence. Qed.

(** The test of [src/test/test_data_ingestion.py]: the fixture's chunk. *)
Example fingerprint_fake_doc :
  _fingerprint "Hello World" {[ "source" := VStr "fake.txt" ]} = "fake.txt::".
Proof. reflexivity. Qed.

Example fingerprint_row :
  _fingerprint "Hello World" (<[ "raw_id" := VInt 12 ]> {[ "source" := VStr "t.csv" ]})
  = "t.csv::12".
Proof. vm_compute. reflexivity. Qed.

Example fingerprint_no_source :
  _fingerprint "Hello World" ∅
  = "a591a6d40bf420404a011733cfb7b190d62c65bf0bcda32b57b277d9ad9f146e".
Proof. vm_compute. reflexivity. Qed.

(** C4, as amended: the fingerprint is [str(src) + "::" + raw_id], with
    [src] the [source] entry when that is truthy (for a string: non-empty)
    and the [file_path] entry otherwise, whenever that [src] is not [None];
    it is the SHA-256 hex digest of the UTF-8 text when [source] is missing
    or falsy and [file_path] is missing or [None]. It depends on the three
    entries only, and two chunks whose [source] entries are different
    non-empty strings and whose [raw_id] entries are equal get different
    fingerprints, whatever their text. *)
Theorem fingerprint_spec (text : string) (md : gmap string PyVal) :
  (forall v, md !! "source" = Some v -> truthy v = true ->
     _fingerprint text md = py_str v +:+ "::" +:+ raw_id_text md)
  /\ (forall v, truthy (dict_get md "source") = false ->
        md !! "file_path" = Some v -> v <> VNone ->
        _fingerprint text md = py_str v +:+ "::" +:+ raw_id_text md)
  /\ (truthy (dict_get md "source") = false -> dict_get md "file_path" = VNone ->
        _fingerprint text md = Sha256.hexdigest (encode_utf8 text))
  /\ (forall md' : gmap string PyVal,
        md' !! "source" = md !! "source" -> md' !! "file_path" = md !! "file_path" ->
        md' !! "raw_id" = md !! "raw_id" ->
        _fingerprint text md' = _fingerprint text md)
  /\ (forall (text' : string) (md' : gmap string PyVal) (s s' : string),
        md !! "source" = Some (VStr s) -> md' !! "source" = Some (VStr s') ->
        s <> "" -> s' <> "" -> s <> s' -> md !! "raw_id" = md' !! "raw_id" ->
        _fingerprint text md <> _fingerprint text' md').
Proof.
  repeat split.
  - intros v Hv Ht. apply fingerprint_keyed; [| now apply truthy_not_none].
    unfold py_or, dict_get. rewrite Hv. simpl. now rewrite Ht.
  - intros v Hs Hv Hn. apply fingerprint_keyed; [| exact Hn].
    unfold py_or. rewrite Hs. unfold dict_get. now rewrite Hv.
  - intros Hs Hf. apply fingerprint_hashed. unfold py_or. now rewrite Hs.
  - intros md' H1 H2 H3. unfold _fingerprint, dict_get. now rewrite H1, H2, H3.
  - intros text' md' s s' Hs Hs' Hne Hne' Hdiff Hrid Heq.
    assert (Ht : forall x : string, x <> "" -> truthy (VStr x) = true).
    { intros x Hx. simpl. destruct (String.eqb_spec x ""); simpl; congruence. }
    rewrite (fingerprint_keyed text md (VStr s)) in Heq.
    2: { unfold py_or, dict_get. rewrite Hs. simpl default. now rewrite (Ht s Hne). }
    2: discriminate.
    rewrite (fingerprint_keyed text' md' (VStr s')) in Heq.
    2: { unfold py_or, dict_get. rewrite Hs'. simpl default. now rewrite (Ht s' Hne'). }
    2: discriminate.
    assert (Hr : raw_id_text md = raw_id_text md') by (unfold raw_id_text; now rewrite Hrid).
    rewrite Hr in Heq. simpl py_str in Heq.
    apply Hdiff.
    apply (append_inv_tail s s' ("::" +:+ raw_id_text md')).
    exact Heq.
Qed.

End Fingerprint.

Section FingerprintExamples.
Import Py DataIngestion Spec.

Lemma fingerprint_spec_witness :
  _fingerprint "Hello World" {[ "source" := VStr "fake.txt" ]} = "fake.txt::"
  /\ _fingerprint "Hello World" {[ "file_path" := VStr "x.pdf" ]} = "x.pdf::"
  /\ _fingerprint "Hello World" ∅ = Sha256.hexdigest (encode_utf8 "Hello World")
  /\ _fingerprint "Hello World" (<[ "page" := VInt 3 ]> {[ "source" := VStr "fake.txt" ]})
     = _fingerprint "Hello World" {[ "source" := VStr "fake.txt" ]}
  /\ _fingerprint "Hello World" {[ "source" := VStr "fake.txt" ]}
     <> _fingerprint "Hello World" {[ "source" := VStr "other.txt" ]}.
Proof.
  destruct (fingerprint_spec "Hello World" {[ "source" := VStr "fake.txt" ]})
    as (Hsrc & _ & _ & Hdet & Hinj).
  destruct (fingerprint_spec "Hello World" {[ "file_path" := VStr "x.pdf" ]})
    as (_ & Hpath & _).
  destruct (fingerprint_spec "Hello World" ∅) as (_ & _ & Hhash & _).
  split; [| split; [| split; [| split]]].
  - rewrite (Hsrc (VStr "fake.txt")); reflexivity.
  - rewrite (Hpath (VStr "x.pdf")); [reflexivity | reflexivity | reflexivity | discriminate].
  - apply Hhash; reflexivity.
  - apply Hdet; reflexivity.
  - apply (Hinj "Hello World" {[ "source" := VStr "other.txt" ]} "fake.txt" "other.txt");
      [reflexivity | reflexivity | discriminate | discriminate | discriminate | reflexivity].
Defined.

(** C4 as stated fails: a chunk that carries an empty [source] is keyed on
    the hash of its text, not on [source + "::" + raw_id]; and two chunks
    with one text whose [source] values differ can share a fingerprint. *)
Lemma fingerprint_empty_source :
  (({[ "source" := VStr "" ]} : gmap string PyVal) !! "source" = Some (VStr "")
   /\ _fingerprint "Hello World" {[ "source" := VStr "" ]} <> "" +:+ "::" +:+ ""
   /\ _fingerprint "Hello World" {[ "source" := VStr "" ]}
      = Sha256.hexdigest (encode_utf8 "Hello World"))
  /\ (dict_get (<[ "file_path" := VStr "x" ]> {[ "source" := VStr "" ]}) "source"
      <> dict_get (<[ "file_path" := VStr "x" ]> {[ "source" := VStr "x" ]}) "source"
      /\ _fingerprint "Hello World" (<[ "file_path" := VStr "x" ]> {[ "source" := VStr "" ]})
         = _fingerprint "Hello World" (<[ "file_path" := VStr "x" ]> {[ "source" := VStr "x" ]})).
Proof.
  repeat split; try (vm_compute; congruence).
Qed.

End FingerprintExamples.

(** ** FaissManager: construction, add_documents, load_or_create *)

Lemma join_inj (d a b : string) : PathLib.join d a = PathLib.join d b -> a = b.
Proof.
  unfold PathLib.join. intros H.
  apply (String.app_inj d) in H. now apply (String.app_inj "/") in H.
Qed.

Section FaissManagerFacts.
Import Py DataIngestion.
Context {L : Logger} {X : External}.

(** No manager comes out of the constructor: line 141 reads an attribute
    that line 140 stored under another name. *)
Lemma FaissManager_init_raises (dir : string) (ml : option ModelLoader) (w : World) :
  exists e w', __init__ dir ml w = (Err e, w').
Proof.
  unfold __init__, bind, mkdir, modify, get, raise, ret, lift_res. simpl.
  destruct ml as [ml|]; [eauto |].
  destruct new_model_loader; eauto.
Qed.

(** [add_documents] stops at line 171, before it looks at its argument. *)
Lemma add_documents_raises (docs : list Document) (m : FaissManager) (w : World) :
  add_documents docs (m, w)
  = (Err (TypeError "argument of type 'NoneType' is not iterable"), (m, w)).
Proof. reflexivity. Qed.

(** C1, on the code: with an index loaded, [add_documents] raises a
    [TypeError] whatever the chunks are; it returns no count and leaves
    the manager, the ledger and the disk as they were. *)
Theorem add_documents_loaded_raises (docs : list Document) (m : FaissManager)
    (w : World) (v : VS) :
  vs m = Some v ->
  add_documents docs (m, w)
  = (Err (TypeError "argument of type 'NoneType' is not iterable"), (m, w))
  /\ forall n : nat, fst (add_documents docs (m, w)) <> Ok n.
Proof.
  intros _. rewrite add_documents_raises. split; [reflexivity | discriminate].
Qed.

(** C2, on the code: before any [load_or_create], [add_documents] fails
    and changes nothing, but with the [TypeError] of line 171 and not with
    the [RuntimeError] that names [load_or_create]. *)
Theorem add_documents_unloaded_raises (docs : list Document) (m : FaissManager) (w : World) :
  vs m = None ->
  add_documents docs (m, w)
  = (Err (TypeError "argument of type 'NoneType' is not iterable"), (m, w))
  /\ fst (add_documents docs (m, w))
     <> Err (RuntimeError "Call load_or_create() before add_documents_idempotent().").
Proof.
  intros _. rewrite add_documents_raises. split; [reflexivity | discriminate].
Qed.

Lemma exists_of_files (m : FaissManager) (w : World) (a b : list Z) :
  files w !! PathLib.join (index_dir m) "index.faiss" = Some a ->
  files w !! PathLib.join (index_dir m) "index.pkl" = Some b ->
  _exists m w = true.
Proof.
  intros Ha Hb. unfold _exists, path_exists. rewrite Ha, Hb.
  rewrite !bool_decide_eq_true_2 by eauto. reflexivity.
Qed.

Lemma load_local_index (dir : string) (e : Emb) (w : World) (a b : list Z) :
  files w !! PathLib.join dir "index.faiss" = Some a ->
  files w !! PathLib.join dir "index.pkl" = Some b ->
  load_local dir e "index" w = (load a b e, w).
Proof.
  intros Ha Hb. unfold load_local, bind, get, lift_res.
  change ("index" +:+ ".faiss") with "index.faiss".
  change ("index" +:+ ".pkl") with "index.pkl".
  now rewrite Ha, Hb.
Qed.

(** What [save_local] leaves on disk. *)
Lemma save_local_files (v : VS) (dir : string) (w : World) :
  fst (save_local v dir w) = Ok tt
  /\ files (snd (save_local v dir w)) !! PathLib.join dir "index.faiss" = Some (fst (dump v))
  /\ files (snd (save_local v dir w)) !! PathLib.join dir "index.pkl" = Some (snd (dump v))
  /\ logs (snd (save_local v dir w)) = logs w.
Proof.
  unfold save_local, bind, mkdir, write, modify. simpl. repeat split.
  - rewrite lookup_insert_ne, lookup_insert_eq; [reflexivity |].
    intros H. apply join_inj in H. discriminate.
  - now rewrite lookup_insert_eq.
Qed.


End FaissManagerFacts.

(** ** ChatAnswer *)

Section ChatAnswerFacts.
Import Models.

Lemma ChatAnswer_accepts (s : string) :
  1 <= String.length s <= 4096 -> ChatAnswer s = Ok s.
Proof.
  intros [Hlo Hhi]. unfold ChatAnswer.
  destruct (Nat.ltb_spec (String.length s) 1); [lia |].
  destruct (Nat.ltb_spec 4096 (String.length s)); [lia | reflexivity].
Qed.

Lemma ChatAnswer_rejects_long (s : string) :
  4096 < String.length s ->
  ChatAnswer s = Err (ValidationError "String should have at most 4096 characters").
Proof.
  intros Hlen. unfold ChatAnswer.
  destruct (Nat.ltb_spec (String.length s) 1); [lia |].
  destruct (Nat.ltb_spec 4096 (String.length s)); [reflexivity | lia].
Qed.

Lemma ChatAnswer_rejects_empty :
  ChatAnswer "" = Err (ValidationError "String should have at least 1 character").
Proof. reflexivity. Qed.

(** It never shortens what it accepts. *)
Lemma ChatAnswer_unchanged (s a : string) : ChatAnswer s = Ok a -> a = s.
Proof.
  unfold ChatAnswer.
  destruct (String.length s <? 1)%nat; [discriminate |].
  destruct (4096 <? String.length s)%nat; [discriminate |].
  now intros [= ->].
Qed.

End ChatAnswerFacts.

(** ** ConversationalRAG.invoke *)

Section InvokeFacts.
Import Py Retrieval Spec.
Context {L : Logger} {X : External}.

Lemma log_call_ok (method text : string) (e : option Exn) (w : World) :
  log_has method = true ->
  log_call method text e w = (Ok tt, logged (LogRec method text e) w).
Proof. intros H. unfold log_call. now rewrite H. Qed.

Lemma str_truthy (s : string) : truthy (VStr s) = negb (String.eqb s "").
Proof. reflexivity. Qed.

Lemma empty_length (s : string) : String.length s = 0 -> s = "".
Proof. destruct s; simpl; [reflexivity | discriminate]. Qed.

Lemma nonempty_truthy (s : string) : 1 <= String.length s -> truthy (VStr s) = true.
Proof. destruct s; simpl; [lia | reflexivity]. Qed.

(** What [invoke] does once the chain has answered with a falsy value. *)
Lemma invoke_falsy (o : ConversationalRAG) (w : World) (u : string)
    (h : option (list string)) (run : Payload -> Res PyVal) (v : PyVal) :
  chain o = Some run ->
  run (MkPayload u (default [] h)) = Ok v ->
  truthy v = false ->
  log_has "warning" = true ->
  invoke u h (o, w)
  = (Ok fallback_answer,
     (o, logged (LogRec "warning"
                   ("No answer generated, user_input=" +:+ u +:+ ", session_id="
                    +:+ show_session (session_id o)) None) w)).
Proof.
  intros Hc Hrun Hv Hlog.
  unfold invoke, try_except, bind, self, lift_res, on_snd, ret. simpl.
  rewrite Hc. simpl. rewrite Hrun, Hv. simpl.
  rewrite log_call_ok by exact Hlog. reflexivity.
Qed.

(** What [invoke] does once the chain has answered with a truthy value. *)
Lemma invoke_truthy (o : ConversationalRAG) (w : World) (u : string)
    (h : option (list string)) (run : Payload -> Res PyVal) (v : PyVal) :
  chain o = Some run ->
  run (MkPayload u (default [] h)) = Ok v ->
  truthy v = true ->
  log_has "info" = true -> log_has "error" = true ->
  fst (invoke u h (o, w))
  = match Models.ChatAnswer (py_str v) with
    | Ok a => Ok a
    | Err _ => Err generic_invoke_error
    end
  /\ fst (snd (invoke u h (o, w))) = o.
Proof.
  intros Hc Hrun Hv Hinfo Herr.
  unfold invoke, try_except, try_except_validation, bind, self, lift_res, on_snd, ret, raise.
  simpl. rewrite Hc. simpl. rewrite Hrun, Hv. simpl.
  unfold Models.ChatAnswer.
  destruct (String.length (py_str v) <? 1)%nat; simpl.
  - rewrite log_call_ok by assumption. simpl.
    rewrite log_call_ok by assumption. split; reflexivity.
  - destruct (4096 <? String.length (py_str v))%nat; simpl.
    + rewrite log_call_ok by assumption. simpl.
      rewrite log_call_ok by assumption. split; reflexivity.
    + rewrite log_call_ok by assumption. split; reflexivity.
Qed.

(** Whatever the logger, an answer that comes back from [invoke] for a
    truthy chain result is that result as a string, whole. *)
Lemma invoke_never_truncates (o : ConversationalRAG) (w : World) (u : string)
    (h : option (list string)) (run : Payload -> Res PyVal) (v : PyVal) (a : string) :
  chain o = Some run ->
  run (MkPayload u (default [] h)) = Ok v ->
  truthy v = true ->
  fst (invoke u h (o, w)) = Ok a ->
  a = py_str v /\ 1 <= String.length a <= 4096.
Proof.
  intros Hc Hrun Hv H.
  destruct (invoke u h (o, w)) as [r s'] eqn:Hinv. simpl in H. subst r.
  apply try_except_ok_inv in Hinv; [| intros; apply log_then_raise_snd].
  apply bind_ok_inv in Hinv as (o0 & s1 & Hself & Hinv).
  unfold self in Hself. injection Hself as <- <-. simpl in Hinv.
  rewrite Hc in Hinv.
  apply bind_ok_inv in Hinv as (v0 & s2 & Hr & Hinv).
  unfold lift_res in Hr. rewrite Hrun in Hr. injection Hr as <- <-.
  rewrite Hv in Hinv. simpl in Hinv.
  apply bind_ok_inv in Hinv as (a0 & s3 & Hval & Hinv).
  apply bind_ok_inv in Hinv as (u0 & s4 & _ & Hret).
  unfold ret in Hret. injection Hret as -> _.
  unfold try_except_validation, lift_res in Hval.
  destruct (Models.ChatAnswer (py_str v)) as [a1|e] eqn:Hca.
  - injection Hval as -> _. split; [now apply ChatAnswer_unchanged |].
    apply ChatAnswer_unchanged in Hca as Heq. subst a.
    unfold Models.ChatAnswer in Hca.
    destruct (Nat.ltb_spec (String.length (py_str v)) 1); [discriminate |].
    destruct (Nat.ltb_spec 4096 (String.length (py_str v))); [discriminate | lia].
  - destruct e; try discriminate.
    unfold bind, raise in Hval.
    destruct (on_snd _ (o, w)) as [[[]|e1] s5]; discriminate.
Qed.

(** C5, as amended: on an instance whose chain is not assembled, [invoke]
    produces no answer; it raises the state error that tells the caller to
    call [load_retriever_from_faiss] first, logs it, and hands the caller
    the generic "Invocation error in ConversationalRAG" in its place. The
    instance is unchanged and only the error line is added to the log. *)
Theorem invoke_unbound (o : ConversationalRAG) (w : World) (u : string)
    (h : option (list string)) :
  chain o = None ->
  log_has "error" = true ->
  invoke u h (o, w)
  = (Err generic_invoke_error,
     (o, logged (LogRec "error" "Failed to invoke ConversationalRAG " (Some unbound_error)) w)).
Proof.
  intros Hc Herr.
  unfold invoke, try_except, bind, self, raise, on_snd. simpl.
  rewrite Hc. simpl. rewrite log_call_ok by exact Herr. reflexivity.
Qed.

(** C7: when the chain answers with an empty or otherwise falsy value,
    [invoke] returns the literal "No answer generated." and adds one
    warning to the log; it raises nothing and leaves the instance as it
    was. *)
Theorem invoke_empty_fallback (o : ConversationalRAG) (w : World) (u : string)
    (h : option (list string)) (run : Payload -> Res PyVal) (v : PyVal) :
  chain o = Some run ->
  run (MkPayload u (default [] h)) = Ok v ->
  truthy v = false ->
  log_has "warning" = true ->
  fst (invoke u h (o, w)) = Ok "No answer generated."
  /\ fst (snd (invoke u h (o, w))) = o
  /\ exists line,
       logs (snd (snd (invoke u h (o, w)))) = (logs w ++ [LogRec "warning" line None])%list.
Proof.
  intros Hc Hrun Hv Hlog.
  rewrite (invoke_falsy o w u h run v Hc Hrun Hv Hlog). simpl.
  repeat split. eexists. reflexivity.
Qed.

(** C6, as amended: an empty answer is not rejected but replaced by the
    fallback; an answer of 1 to 4096 characters is returned unchanged; an
    answer of more than 4096 characters is not truncated: [invoke] fails,
    with the same generic error as for every other failure, after two
    error lines in the log, the first with the validation error and the
    second with the [ProjectException] that wraps it; the instance is
    unchanged. *)
Theorem invoke_validates (o : ConversationalRAG) (w : World) (u : string)
    (h : option (list string)) (run : Payload -> Res PyVal) (s : string) :
  chain o = Some run ->
  run (MkPayload u (default [] h)) = Ok (VStr s) ->
  usual_logger L ->
  (String.length s = 0 -> fst (invoke u h (o, w)) = Ok fallback_answer)
  /\ (1 <= String.length s <= 4096 -> fst (invoke u h (o, w)) = Ok s)
  /\ (4096 < String.length s ->
      invoke u h (o, w)
      = (Err generic_invoke_error,
         (o, logged (LogRec "error" "Failed to invoke ConversationalRAG "
                       (Some (ProjectException (Wrapped too_long_error))))
               (logged (LogRec "error" "Invalid chat answer " (Some too_long_error)) w)))).
Proof.
  intros Hc Hrun (Hinfo & Hwarn & Herr).
  split; [| split].
  - intros Hlen. apply empty_length in Hlen. subst s.
    now rewrite (invoke_falsy o w u h run (VStr "") Hc Hrun eq_refl Hwarn).
  - intros Hlen.
    destruct (invoke_truthy o w u h run (VStr s) Hc Hrun) as [Hres _];
      [apply nonempty_truthy; lia | assumption | assumption |].
    rewrite Hres. simpl py_str. now rewrite ChatAnswer_accepts.
  - intros Hlen.
    assert (Hv : truthy (VStr s) = true) by (apply nonempty_truthy; lia).
    unfold invoke, try_except, try_except_validation, bind, self, lift_res, on_snd, ret,
      raise.
    simpl. rewrite Hc. simpl. rewrite Hrun, Hv. simpl.
    rewrite (ChatAnswer_rejects_long s Hlen). simpl.
    rewrite log_call_ok by assumption. simpl.
    rewrite log_call_ok by assumption. reflexivity.
Qed.

End InvokeFacts.

(** ** ConversationalRAG: construction and load_retriever_from_faiss *)

Section RetrieverFacts.
Import Py Retrieval Spec.
Context {L : Logger} {X : External}.

Lemma build_lcel_chain_keeps_retriever (o o' : ConversationalRAG) (w w' : World) (u : unit) :
  _build_lcel_chain (o, w) = (Ok u, (o', w')) ->
  retriever o' = retriever o /\ session_id o' = session_id o.
Proof.
  intros H. apply try_except_ok_inv in H; [| intros; apply log_then_raise_snd].
  unfold bind, self, raise, lift_res, update_self, modify, on_snd in H. simpl in H.
  destruct (retriever o) as [r|] eqn:Hr; [| discriminate].
  destruct (compose_chain (llm o) r) as [c|e]; [| discriminate].
  simpl in H.
  destruct (log_call _ _ _ w) as [[[]|e] w1]; [| discriminate].
  injection H as _ <- _. simpl. auto.
Qed.

(** An instance built without a retriever has no chain. *)
Lemma init_without_retriever (sid : option string) (w w' : World) (o : ConversationalRAG) :
  Retrieval.__init__ sid None w = (Ok o, w') -> chain o = None /\ retriever o = None.
Proof.
  intros H. apply try_except_ok_inv in H; [| intros; apply log_then_raise].
  apply bind_ok_inv in H as (l & w1 & _ & H).
  apply bind_ok_inv in H as (o1 & w2 & Ho & H).
  apply bind_ok_inv in H as (u & w3 & _ & H).
  unfold ret in H, Ho. simpl in Ho.
  injection Ho as <- _. injection H as <- _. auto.
Qed.

(** A call of [load_retriever_from_faiss] that fails leaves the chain as
    it was, so an instance stays unbound until a call succeeds. *)
Lemma load_retriever_failure_keeps_chain (index_path index_name search_type : string)
    (k fetch_k lambda_mult : Num) (kw : option (gmap string Num))
    (o o' : ConversationalRAG) (w w' : World) (e : Exn) :
  log_has "info" = true ->
  load_retriever_from_faiss index_path k index_name search_type fetch_k lambda_mult kw (o, w)
  = (Err e, (o', w')) ->
  chain o' = chain o.
Proof.
  intros Hinfo H.
  unfold load_retriever_from_faiss, _build_lcel_chain, load_local in H.
  unfold try_except, bind, self, raise, ret, lift_res, update_self, modify, on_snd, get in H.
  simpl in H.
  repeat match type of H with
         | context [log_call "info" ?t ?x ?w0] =>
             rewrite (log_call_ok "info" t x w0 Hinfo) in H; simpl in H
         | context [match ?x with _ => _ end] =>
             lazymatch x with
             | context [match _ with _ => _ end] => fail
             | _ => destruct x eqn:?; simpl in H
             end
         end;
    try discriminate;
    apply (f_equal (fun r => chain (fst (snd r)))) in H; simpl in H; congruence.
Qed.

(** The parameters built when none are passed: [k] alone, whatever the
    search type. *)
Lemma loaded_search_kwargs_default (k fetch_k lambda_mult : Num) :
  loaded_search_kwargs k fetch_k lambda_mult None = {[ "k" := k ]}.
Proof. reflexivity. Qed.

Lemma retriver_search_kwargs_mmr (k fetch_k lambda_mult : Num) :
  DataIngestion.retriver_search_kwargs k "mmr" fetch_k lambda_mult !! "fetch_k" = Some fetch_k
  /\ DataIngestion.retriver_search_kwargs k "mmr" fetch_k lambda_mult !! "lambda_mult" = Some lambda_mult
  /\ DataIngestion.retriver_search_kwargs k "mmr" fetch_k lambda_mult !! "k" = Some k.
Proof.
  unfold DataIngestion.retriver_search_kwargs. simpl. repeat split.
Qed.

(** C9, on the code: a retriever that [load_retriever_from_faiss] builds
    without custom parameters has the requested search type and
    [{"k": k}] as its only search parameter. With the search type "mmr" it
    therefore lacks [fetch_k] and [lambda_mult], which [build_retriver]
    adds for the same arguments. *)
Theorem load_retriever_search_kwargs (index_path index_name search_type : string)
    (k fetch_k lambda_mult : Num) (o o' : ConversationalRAG) (w w' : World)
    (r : Retriever VS) :
  load_retriever_from_faiss index_path k index_name search_type fetch_k lambda_mult None (o, w)
  = (Ok r, (o', w')) ->
  Lib.search_type r = search_type
  /\ search_kwargs r = {[ "k" := k ]}
  /\ search_kwargs r !! "fetch_k" = None
  /\ search_kwargs r !! "lambda_mult" = None
  /\ retriever o' = Some r
  /\ DataIngestion.retriver_search_kwargs k "mmr" fetch_k lambda_mult !! "fetch_k" = Some fetch_k.
Proof.
  intros H. apply try_except_ok_inv in H; [| intros; apply log_then_raise_snd].
  apply bind_ok_inv in H as (w0 & s1 & Hget & H).
  apply bind_ok_inv in H as (u1 & s2 & Hdir & H).
  apply bind_ok_inv in H as (ml & s3 & Hml & H).
  apply bind_ok_inv in H as (e & s4 & Hemb & H).
  apply bind_ok_inv in H as (store & s5 & Hload & H).
  apply bind_ok_inv in H as (u2 & s6 & Hset & H).
  apply bind_ok_inv in H as (u3 & s7 & Hbuild & H).
  apply bind_ok_inv in H as (u4 & s8 & Hlog & H).
  unfold ret in H. injection H as <- ->.
  repeat split; try reflexivity.
  - unfold update_self, modify in Hset. injection Hset as _ <-.
    destruct s7 as [o7 w7].
    apply build_lcel_chain_keeps_retriever in Hbuild as [Hr _].
    unfold on_snd in Hlog. simpl in Hlog.
    destruct (log_call _ _ _ w7) as [r7 w8]. injection Hlog as _ <- _.
    exact Hr.
Qed.

End RetrieverFacts.

(** ** save_uploaded_files *)

Section SaveFacts.
Import FileIO Spec.
Context {L : Logger}.

Lemma log_call_missing (method text : string) (e : option Exn) (w : World) :
  log_has method = false ->
  log_call method text e w = (Err (AttributeError method), w).
Proof. intros H. unfold log_call. now rewrite H. Qed.

Lemma save_handler_fails (e : Exn) (w : World) :
  exists e' w',
    bind (log_call "error" "" None)
         (fun _ => raise (A := option (list string)) (ProjectException (Wrapped e))) w
    = (Err e', w').
Proof. apply log_then_raise. Qed.

(** Whatever comes back from [save_uploaded_files] is [None]. *)
Lemma save_returns_only_None (ufs : list Uploaded) (dir : string) (w w' : World)
    (v : option (list string)) :
  save_uploaded_files ufs dir w = (Ok v, w') -> v = None.
Proof.
  intros H. apply try_except_ok_inv in H; [| intros; apply save_handler_fails].
  apply bind_ok_inv in H as (u & w1 & _ & H).
  apply bind_ok_inv in H as (saved & w2 & _ & H).
  unfold ret in H. now injection H as <- _.
Qed.

(** The loop stops with an [AttributeError] at the first file whose
    extension is not on the list, when the logger has no [warrning]. *)
Lemma save_loop_unsupported (dir : string) (ufs : list Uploaded) :
  log_has "warrning" = false ->
  Exists (fun uf => supported uf = false) ufs ->
  forall saved w, exists e w', save_loop dir ufs saved w = (Err e, w').
Proof.
  intros Hlog. induction ufs as [|uf rest IH]; intros Hex saved w.
  - inversion Hex.
  - simpl. destruct (supported uf) eqn:Hs.
    + unfold supported in Hs. rewrite Hs. simpl.
      assert (Hrest : Exists (fun uf => supported uf = false) rest).
      { inversion Hex as [? ? Hh | ? ? Ht]; subst; [| exact Ht].
        unfold supported in Hh. congruence. }
      unfold bind.
      destruct (uuid4_hex w) as [[h|e] w1]; [| eauto].
      destruct (open_wb _ w1) as [[[]|e] w2]; [| eauto].
      destruct (write_upload uf _ w2) as [[[]|e] w3]; [| eauto].
      destruct (log_call "info" _ None w3) as [[[]|e] w4]; [| eauto].
      apply IH, Hrest.
    + unfold supported in Hs. rewrite Hs. simpl.
      unfold bind. rewrite log_call_missing by exact Hlog. eauto.
Qed.

(** C8, on the code: with a logger that has no method [warrning], a batch
    that holds a file of an unsupported extension makes the whole save
    fail; when that file comes first, the failure is the wrapped
    [AttributeError] and none of the other files is written. *)
Theorem save_fails_on_unsupported (dir : string) (ufs : list Uploaded) (w : World) :
  log_has "warrning" = false ->
  Exists (fun uf => supported uf = false) ufs ->
  (exists e w', save_uploaded_files ufs dir w = (Err e, w'))
  /\ (forall uf rest, ufs = uf :: rest -> supported uf = false -> log_has "error" = true ->
      fst (save_uploaded_files ufs dir w)
      = Err (ProjectException (Wrapped (AttributeError "warrning")))
      /\ files (snd (save_uploaded_files ufs dir w)) = files w).
Proof.
  intros Hlog Hex. split.
  - apply try_except_err; [intros; apply save_handler_fails |].
    intros a s' H.
    apply bind_ok_inv in H as (u & w1 & _ & H).
    apply bind_ok_inv in H as (saved & w2 & Hloop & _).
    destruct (save_loop_unsupported dir ufs Hlog Hex [] w1) as (e & w3 & Hfail).
    congruence.
  - intros uf rest -> Hs Herr.
    unfold save_uploaded_files, try_except, bind, mkdir, modify. simpl.
    unfold supported in Hs. rewrite Hs. simpl.
    unfold bind. rewrite log_call_missing by exact Hlog.
    unfold log_call. rewrite Herr. simpl. split; reflexivity.
Qed.

(** What one round of the loop does with a supported, readable file. *)
Lemma write_upload_ok (uf : Uploaded) (out : string) (w : World) :
  readable uf = true ->
  exists data, write_upload uf out w = (Ok tt, set_files (fun f => <[out := data]> f) w).
Proof.
  unfold readable, write_upload, write, modify.
  destruct (uf_file_read uf), (uf_read uf), (uf_getbuffer uf); intros Hr;
    try discriminate; eauto.
Qed.

Lemma save_loop_ok (dir : string) (ufs : list Uploaded) :
  log_has "info" = true ->
  Forall (fun uf => supported uf = true /\ readable uf = true) ufs ->
  forall saved w,
    Forall (fun p => is_Some (files w !! p)) saved ->
    exists saved' w',
      save_loop dir ufs saved w = (Ok saved', w')
      /\ length saved' = length saved + length ufs
      /\ Forall (fun p => is_Some (files w' !! p)) saved'
      /\ dirs w' = dirs w.
Proof.
  intros Hlog. induction ufs as [|uf rest IH]; intros Hall saved w Hsaved.
  - exists saved, w. simpl. unfold ret. repeat split; [lia | assumption].
  - inversion Hall as [|? ? [Hs Hr] Hrest]; subst.
    simpl. unfold supported in Hs. rewrite Hs. simpl.
    unfold bind at 1. unfold uuid4_hex at 1.
    unfold bind at 1. unfold open_wb at 1, modify at 1.
    unfold bind at 1.
    match goal with
    | |- context [write_upload uf ?out ?w1] =>
        destruct (write_upload_ok uf out w1 Hr) as (data & Hw); rewrite Hw
    end.
    unfold bind at 1. rewrite log_call_ok by exact Hlog.
    match goal with
    | |- context [save_loop dir rest ?sv ?w4] =>
        destruct (IH Hrest sv w4) as (saved' & w' & Hloop & Hlen & Hfiles & Hdirs)
    end.
    + apply Forall_app. split.
      * eapply Forall_impl; [exact Hsaved |].
        intros p [x Hx]. simpl.
        destruct (decide (PathLib.join dir
                   (saved_name (upload_name uf) (uuids w (uuid_next w))) = p)) as [<-|Hne].
        -- rewrite lookup_insert_eq. eauto.
        -- rewrite !lookup_insert_ne by exact Hne. eauto.
      * constructor; [| constructor]. simpl. rewrite lookup_insert_eq. eauto.
    + exists saved', w'. rewrite Hloop. repeat split; try assumption.
      rewrite Hlen, length_app. simpl. lia.
Qed.

(** C10, as amended: [save_uploaded_files] never hands the list of saved
    paths back. Whenever it returns, it returns [None]; and it does return
    [None] on every batch of supported, readable files, after writing one
    file per upload under [target_dir]. *)
Theorem save_returns_None (ufs : list Uploaded) (dir : string) (w : World) :
  (forall v w', save_uploaded_files ufs dir w = (Ok v, w') -> v = None)
  /\ (log_has "info" = true ->
      Forall (fun uf => supported uf = true /\ readable uf = true) ufs ->
      exists saved w',
        save_uploaded_files ufs dir w = (Ok None, w')
        /\ save_loop dir ufs [] (set_dirs (fun d => {[dir]} ∪ d) w) = (Ok saved, w')
        /\ length saved = length ufs
        /\ Forall (fun p => is_Some (files w' !! p)) saved).
Proof.
  split.
  - intros v w'. apply save_returns_only_None.
  - intros Hlog Hall.
    destruct (save_loop_ok dir ufs Hlog Hall [] (set_dirs (fun d => {[dir]} ∪ d) w))
      as (saved & w' & Hloop & Hlen & Hfiles & _); [constructor |].
    exists saved, w'. repeat split; try assumption.
    unfold save_uploaded_files, try_except, bind, mkdir, modify, ret.
    now rewrite Hloop.
Qed.

End SaveFacts.

Section IngestorFacts.
Import DataIngestion.
Context {L : Logger} {X : External}.

(** [load_documents] cannot iterate the [None] it is given. *)
Lemma load_documents_None (w : World) :
  exists e w', DocumentOps.load_documents None w = (Err e, w').
Proof.
  unfold DocumentOps.load_documents. apply bind_fails_l.
  intros s. apply try_except_err; [intros; apply log_then_raise |].
  intros a s'. unfold raise. discriminate.
Qed.

(** No batch gets through [build_retriver]: what [save_uploaded_files]
    returns is [None], and [load_documents] fails on it. *)
Lemma build_retriver_raises (ci : ChatIngestor) (ufs : list FileIO.Uploaded)
    (chunk_size chunk_overlap : nat) (k : Num) (search_type : string)
    (fetch_k lambda_mult : Num) (w : World) :
  exists e w',
    build_retriver ci ufs chunk_size chunk_overlap k search_type fetch_k lambda_mult w
    = (Err e, w').
Proof.
  apply try_except_err; [intros; apply log_then_raise |].
  intros a s' H.
  apply bind_ok_inv in H as (paths & w1 & Hsave & H).
  apply save_returns_only_None in Hsave. subst paths.
  apply bind_ok_inv in H as (docs & w2 & Hload & _).
  destruct (load_documents_None w1) as (e & w3 & Hfail). congruence.
Qed.

End IngestorFacts.

(** * The statements on concrete runs *)

Section Concrete.
Import Py Spec Toy.
Local Existing Instance Toy.external.
Local Existing Instance stdlib_logging.

(** Python's [logging] has [info], [warning] and [error], and no [warrning]. *)
Lemma stdlib_logging_usual : usual_logger stdlib_logging.
Proof. repeat split. Qed.

Lemma stdlib_logging_no_warrning : log_has "warrning" = false.
Proof. reflexivity. Qed.

(** *** FaissManager *)

Lemma add_documents_loaded_raises_witness :
  DataIngestion.vs manager_loaded = Some sky_index
  /\ DataIngestion.add_documents [sky_doc]
       (manager_loaded, world_indexed)
     = (Err (TypeError "argument of type 'NoneType' is not iterable"),
        (manager_loaded, world_indexed)).
Proof.
  split; [reflexivity |].
  apply (add_documents_loaded_raises [sky_doc]
           manager_loaded
           world_indexed sky_index).
  reflexivity.
Defined.

Lemma add_documents_unloaded_raises_witness :
  DataIngestion.vs manager0 = None
  /\ fst (DataIngestion.add_documents [sky_doc] (manager0, world0))
     <> Err (RuntimeError "Call load_or_create() before add_documents_idempotent().").
Proof.
  split; [reflexivity |].
  apply (add_documents_unloaded_raises [sky_doc] manager0 world0).
  reflexivity.
Defined.


(** *** ConversationalRAG.invoke *)

Lemma invoke_unbound_witness :
  Retrieval.chain rag_unbound = None
  /\ fst (Retrieval.invoke "What color is the sky?" None (rag_unbound, world0))
     = Err generic_invoke_error.
Proof.
  split; [reflexivity |].
  rewrite (invoke_unbound rag_unbound world0 "What color is the sky?" None);
    reflexivity.
Defined.

(** C5 as stated fails: the error that reaches the caller of an unbound
    instance is not the one that names [load_retriever_from_faiss]. *)
Lemma invoke_unbound_hides_directive :
  Retrieval.chain rag_unbound = None
  /\ Retrieval.retriever rag_unbound = None
  /\ fst (Retrieval.invoke "What color is the sky?" None (rag_unbound, world0))
     <> Err unbound_error
  /\ fst (Retrieval.invoke "What color is the sky?" None (rag_unbound, world0))
     = Err (ProjectException (Msg "Invocation error in ConversationalRAG")).
Proof.
  repeat split; [vm_compute; discriminate].
Qed.

Lemma invoke_empty_fallback_witness :
  truthy (VStr "") = false
  /\ fst (Retrieval.invoke "What color is the sky?" None (rag_answering (VStr ""), world0))
     = Ok "No answer generated."
  /\ fst (Retrieval.invoke "What color is the sky?" (Some ["hi"])
            (rag_answering VNone, world0))
     = Ok "No answer generated.".
Proof.
  split; [reflexivity | split].
  - apply (invoke_empty_fallback (rag_answering (VStr "")) world0
             "What color is the sky?" None (const_chain (VStr "")) (VStr ""));
      reflexivity.
  - apply (invoke_empty_fallback (rag_answering VNone) world0
             "What color is the sky?" (Some ["hi"]) (const_chain VNone) VNone);
      reflexivity.
Defined.

Lemma invoke_validates_witness :
  fst (Retrieval.invoke "What color is the sky?" None (rag_answering (VStr ""), world0))
  = Ok Retrieval.fallback_answer
  /\ fst (Retrieval.invoke "What color is the sky?" None
            (rag_answering (VStr "The sky is blue."), world0))
     = Ok "The sky is blue."
  /\ fst (Retrieval.invoke "What color is the sky?" None
            (rag_answering (VStr (letters 4097)), world0))
     = Err generic_invoke_error
  /\ logs (snd (snd (Retrieval.invoke "What color is the sky?" None
                       (rag_answering (VStr (letters 4097)), world0))))
     = [LogRec "error" "Invalid chat answer " (Some too_long_error);
        LogRec "error" "Failed to invoke ConversationalRAG "
          (Some (ProjectException (Wrapped too_long_error)))].
Proof.
  split; [| split].
  - apply (invoke_validates (rag_answering (VStr "")) world0 "What color is the sky?" None
             (const_chain (VStr "")) "");
      [reflexivity | reflexivity | exact stdlib_logging_usual | reflexivity].
  - apply (invoke_validates (rag_answering (VStr "The sky is blue.")) world0
             "What color is the sky?" None (const_chain (VStr "The sky is blue."))
             "The sky is blue.");
      [reflexivity | reflexivity | exact stdlib_logging_usual | simpl; lia].
  - destruct (invoke_validates (rag_answering (VStr (letters 4097))) world0
                "What color is the sky?" None (const_chain (VStr (letters 4097)))
                (letters 4097)) as (_ & _ & Hlong);
      [reflexivity | reflexivity | exact stdlib_logging_usual |].
    rewrite Hlong; [split; reflexivity | vm_compute; lia].
Defined.

(** C6 as stated fails: an answer of length 0 is not rejected, [invoke]
    returns the fallback for it; and the error for an answer that is too
    long is the very error of an unbound instance. *)
Lemma invoke_empty_answer_not_rejected :
  String.length "" = 0
  /\ const_chain (VStr "") (MkPayload "What color is the sky?" []) = Ok (VStr "")
  /\ fst (Retrieval.invoke "What color is the sky?" None (rag_answering (VStr ""), world0))
     = Ok "No answer generated."
  /\ (forall e, fst (Retrieval.invoke "What color is the sky?" None
                       (rag_answering (VStr ""), world0)) <> Err e)
  /\ fst (Retrieval.invoke "What color is the sky?" None
            (rag_answering (VStr (letters 4097)), world0))
     = fst (Retrieval.invoke "What color is the sky?" None (rag_unbound, world0)).
Proof.
  repeat split; try (vm_compute; reflexivity).
  intros e. vm_compute. discriminate.
Qed.

(** *** save_uploaded_files *)

Example saved_name_example :
  FileIO.saved_name "My Doc.TXT" "3f2a9c00000000000000000000000000" = "my_doc_3f2a9c.txt".
Proof. reflexivity. Qed.

Lemma save_fails_on_unsupported_witness :
  supported exe_upload = false
  /\ fst (FileIO.save_uploaded_files [exe_upload; txt_upload] "data/s1" world0)
     = Err (ProjectException (Wrapped (AttributeError "warrning")))
  /\ files (snd (FileIO.save_uploaded_files [exe_upload; txt_upload] "data/s1" world0))
     = files world0
  /\ exists e w',
       FileIO.save_uploaded_files [txt_upload; exe_upload] "data/s1" world0 = (Err e, w').
Proof.
  destruct (save_fails_on_unsupported "data/s1" [exe_upload; txt_upload] world0)
    as [_ Hfirst];
    [exact stdlib_logging_no_warrning | apply Exists_cons_hd; reflexivity |].
  destruct (save_fails_on_unsupported "data/s1" [txt_upload; exe_upload] world0)
    as [Hlater _];
    [exact stdlib_logging_no_warrning
    | apply Exists_cons_tl, Exists_cons_hd; reflexivity |].
  destruct (Hfirst exe_upload [txt_upload]) as [Herr Hfiles];
    [reflexivity | reflexivity | reflexivity |].
  split; [reflexivity |]. split; [exact Herr |]. split; [exact Hfiles | exact Hlater].
Defined.

Lemma save_returns_None_witness :
  (forall v w',
      FileIO.save_uploaded_files [txt_upload; pdf_upload] "data/s1" world0 = (Ok v, w') ->
      v = None)
  /\ exists saved w',
       FileIO.save_uploaded_files [txt_upload; pdf_upload] "data/s1" world0 = (Ok None, w')
       /\ length saved = 2
       /\ Forall (fun p => is_Some (files w' !! p)) saved.
Proof.
  destruct (save_returns_None [txt_upload; pdf_upload] "data/s1" world0) as [Honly Hruns].
  split; [exact Honly |].
  destruct Hruns as (saved & w' & Hrun & _ & Hlen & Hfiles);
    [reflexivity | repeat constructor |].
  exists saved, w'. split; [exact Hrun |]. split; [exact Hlen | exact Hfiles].
Defined.

(** The two files of that batch, as they land on disk. *)
Example save_two_files :
  map fst (map_to_list (files (snd
    (FileIO.save_uploaded_files [txt_upload; pdf_upload] "data/s1" world0))))
  ≡ₚ ["data/s1/my_doc_0f2a9c.txt"; "data/s1/paper_1f2a9c.pdf"].
Proof. vm_compute. reflexivity. Qed.

(** C10 as stated fails: on a batch with an object that offers nothing to
    read from, [save_uploaded_files] does not return [None], it raises. *)
Lemma save_unreadable_raises :
  supported mute_upload = true
  /\ fst (FileIO.save_uploaded_files [mute_upload] "data/s1" world0) <> Ok None
  /\ fst (FileIO.save_uploaded_files [mute_upload] "data/s1" world0)
     = Err (ProjectException (Wrapped
         (ValueError "Unsupported uploaded file object; no readable interface"))).
Proof.
  repeat split; vm_compute; discriminate.
Qed.

(** *** load_retriever_from_faiss *)

Lemma load_retriever_search_kwargs_witness :
  exists r o' w',
    Retrieval.load_retriever_from_faiss "faiss_index/s1" (NInt 5) "index" "mmr"
      (NInt 20) (NFloat (1 # 2)) None (rag_unbound, world_indexed)
    = (Ok r, (o', w'))
    /\ search_type r = "mmr"
    /\ search_kwargs r = {[ "k" := NInt 5 ]}
    /\ search_kwargs r !! "fetch_k" = None
    /\ DataIngestion.retriver_search_kwargs (NInt 5) "mmr" (NInt 20) (NFloat (1 # 2))
       !! "fetch_k" = Some (NInt 20).
Proof.
  destruct (Retrieval.load_retriever_from_faiss "faiss_index/s1" (NInt 5) "index" "mmr"
              (NInt 20) (NFloat (1 # 2)) None (rag_unbound, world_indexed))
    as [[r|e] [o' w']] eqn:Hrun.
  - destruct (load_retriever_search_kwargs _ _ _ _ _ _ _ _ _ _ _ Hrun)
      as (Ht & Hk & Hf & _ & _ & Hb).
    exists r, o', w'. repeat split; assumption.
  - vm_compute in Hrun. discriminate.
Defined.

End Concrete.

(** * Further properties *)

(** ** The shape of a SHA-256 hex digest *)

Section DigestShape.
Import Sha256 Vocab.
Local Open Scope Z_scope.

Lemma be_bytes_length (n : nat) (x : Z) : length (be_bytes n x) = n.
Proof. unfold be_bytes. now rewrite length_map, length_rev, length_seq. Qed.









End DigestShape.

(** ** Fingerprints: the two kinds, rows of one source *)

Section FingerprintMore.
Import Py DataIngestion Spec Vocab.

Lemma all_chars_app (p : ascii -> bool) (a b : string) :
  all_chars p (a +:+ b) = all_chars p a && all_chars p b.
Proof. induction a as [|c a IH]; simpl; [reflexivity | now rewrite IH, andb_assoc]. Qed.

Lemma all_chars_impl (p q : ascii -> bool) (s : string) :
  (forall c, p c = true -> q c = true) -> all_chars p s = true -> all_chars q s = true.
Proof.
  intros Hpq. induction s as [|c s IH]; simpl; [reflexivity |].
  intros [Hc Hs]%andb_true_iff. now rewrite (Hpq c Hc), IH.
Qed.



(** An empty [file_path] is still a key. *)
Example fingerprint_empty_file_path :
  _fingerprint "The sky is blue." {[ "file_path" := VStr "" ]} = "::".
Proof. reflexivity. Qed.


(** X2: under one source, rows with different integer row ids, or with
    different string row ids, get different fingerprints, whatever their
    text. *)
Theorem fingerprint_rows_distinct (text text' : string) (md md' : gmap string PyVal) :
  key_value md = key_value md' ->
  key_value md <> VNone ->
  (forall a b : Z, md !! "raw_id" = Some (VInt a) -> md' !! "raw_id" = Some (VInt b) ->
     a <> b -> _fingerprint text md <> _fingerprint text' md')
  /\ (forall a b : string, md !! "raw_id" = Some (VStr a) -> md' !! "raw_id" = Some (VStr b) ->
        a <> b -> _fingerprint text md <> _fingerprint text' md').
Proof.
  intros Hsame Hk.
  assert (Hinj : raw_id_text md <> raw_id_text md' ->
                 _fingerprint text md <> _fingerprint text' md').
  { intros Hne Heq.
    rewrite (fingerprint_keyed text md (key_value md) eq_refl Hk) in Heq.
    rewrite (fingerprint_keyed text' md' (key_value md)) in Heq;
      [| now rewrite Hsame | exact Hk].
    apply String.app_inj in Heq. apply (String.app_inj "::") in Heq. contradiction. }
  split; intros a b Ha Hb Hne; apply Hinj; unfold raw_id_text; rewrite Ha, Hb; simpl.
  - intros Heq. apply Hne. now apply pretty_Z_inj.
  - exact Hne.
Qed.

End FingerprintMore.

(** ** The dedup loop of add_documents (lines 176-181) *)

Section DedupLoop.
Import Py DataIngestion Spec Vocab.
Context {X : External}.

Lemma add_loop_cons_seen (d : Document) (rest acc : list Document) (m : FaissManager)
    (w : World) (ledger : gmap string bool) :
  _meta m !! "raws" = Some ledger ->
  is_Some (ledger !! fp d) ->
  add_loop (d :: rest) acc (m, w) = add_loop rest acc (m, w).
Proof.
  intros Hl Hin. cbn [add_loop]. unfold bind at 1, self. cbn [fst snd].
  rewrite Hl. fold (fp d). now rewrite bool_decide_eq_true_2.
Qed.

Lemma add_loop_cons_new (d : Document) (rest acc : list Document) (m : FaissManager)
    (w : World) (ledger : gmap string bool) :
  _meta m !! "raws" = Some ledger ->
  ledger !! fp d = None ->
  add_loop (d :: rest) acc (m, w)
  = add_loop rest (acc ++ [d])%list
      (set_meta (<["raws" := <[fp d := true]> ledger]> (_meta m)) m, w).
Proof.
  intros Hl Hnew. cbn [add_loop]. unfold bind at 1, self. cbn [fst snd].
  rewrite Hl. fold (fp d).
  rewrite bool_decide_eq_false_2 by (rewrite Hnew; intros [? ?]; discriminate).
  reflexivity.
Qed.

Lemma same_but_meta_set (m : FaissManager) (d : gmap string (gmap string bool)) :
  same_but_meta m (set_meta d m).
Proof. repeat split. Qed.

Lemma add_loop_no_raws (d : Document) (rest acc : list Document) (m : FaissManager)
    (w : World) :
  _meta m !! "raws" = None ->
  add_loop (d :: rest) acc (m, w) = (Err (KeyError "raws"), (m, w)).
Proof.
  intros Hl. cbn [add_loop]. unfold bind at 1, self. cbn [fst snd]. now rewrite Hl.
Qed.

(** X3: on a ledger without the entry "raws" - the ledger [{"rows": {}}]
    every manager starts from has none - the loop raises [KeyError] at the
    first chunk and changes nothing; on an empty batch it returns at once. *)
Theorem add_loop_needs_raws (docs acc : list Document) (m : FaissManager) (w : World) :
  _meta m !! "raws" = None ->
  (docs <> [] -> add_loop docs acc (m, w) = (Err (KeyError "raws"), (m, w)))
  /\ add_loop [] acc (m, w) = (Ok acc, (m, w))
  /\ empty_meta !! "raws" = None.
Proof.
  intros Hl. repeat split.
  intros Hne. destruct docs as [|d rest]; [contradiction |].
  now apply add_loop_no_raws.
Qed.

(** One run of the loop, from any accumulator. *)
Lemma add_loop_run (docs : list Document) :
  forall (acc : list Document) (m : FaissManager) (w : World) (ledger : gmap string bool),
    _meta m !! "raws" = Some ledger ->
    exists (new : list Document) (ledger' : gmap string bool) (m' : FaissManager),
      add_loop docs acc (m, w) = (Ok (acc ++ new)%list, (m', w))
      /\ same_but_meta m m'
      /\ _meta m' = <["raws" := ledger']> (_meta m)
      /\ new `sublist_of` docs
      /\ NoDup (map fp new)
      /\ (forall d, d ∈ new -> ledger !! fp d = None)
      /\ dom ledger' = dom ledger ∪ list_to_set (map fp new)
      /\ (forall d, d ∈ docs -> fp d ∈ dom ledger').
Proof.
  induction docs as [|d rest IH]; intros acc m w ledger Hl.
  - exists [], ledger, m. cbn [add_loop]. unfold ret. rewrite app_nil_r.
    repeat split; try reflexivity.
    + now rewrite insert_id.
    + constructor.
    + intros d Hd. inversion Hd.
    + cbn. now rewrite union_empty_r_L.
    + intros d Hd. inversion Hd.
  - destruct (ledger !! fp d) as [b|] eqn:Hd.
    + rewrite (add_loop_cons_seen d rest acc m w ledger Hl) by eauto.
      destruct (IH acc m w ledger Hl)
        as (new & ledger' & m' & Hrun & Hsame & Hmeta & Hsub & Hnd & Hfresh & Hdom & Hall).
      exists new, ledger', m'. repeat split; try assumption; try apply Hsame.
      * now apply sublist_cons.
      * intros d' [->|Hin]%elem_of_cons; [| now apply Hall].
        rewrite Hdom. apply elem_of_union_l, elem_of_dom. eauto.
    + rewrite (add_loop_cons_new d rest acc m w ledger Hl Hd).
      destruct (IH (acc ++ [d])%list
                   (set_meta (<["raws" := <[fp d := true]> ledger]> (_meta m)) m) w
                   (<[fp d := true]> ledger))
        as (new & ledger' & m' & Hrun & Hsame & Hmeta & Hsub & Hnd & Hfresh & Hdom & Hall).
      { cbn. apply lookup_insert_eq. }
      exists (d :: new), ledger', m'.
      assert (Hnotin : fp d ∉ map fp new).
      { intros (d' & Heq & Hin)%list_elem_of_fmap.
        specialize (Hfresh d' Hin). rewrite <- Heq, lookup_insert_eq in Hfresh.
        discriminate. }
      repeat split; try apply Hsame.
      * rewrite Hrun. now rewrite <- app_assoc.
      * rewrite Hmeta. cbn. apply insert_insert_eq.
      * now apply sublist_skip.
      * cbn. constructor; assumption.
      * intros d' [->|Hin]%elem_of_cons; [exact Hd |].
        specialize (Hfresh d' Hin).
        apply lookup_insert_None in Hfresh. apply Hfresh.
      * rewrite Hdom, dom_insert_L. cbn.
        rewrite (comm_L (∪) {[fp d]} (dom ledger)). now rewrite <- (assoc_L (∪)).
      * intros d' [->|Hin]%elem_of_cons; [| now apply Hall].
        rewrite Hdom, dom_insert_L.
        apply elem_of_union_l, elem_of_union_l, elem_of_singleton. reflexivity.
Qed.

(** A batch whose fingerprints are all in the ledger selects nothing. *)
Lemma add_loop_all_seen (docs : list Document) :
  forall (acc : list Document) (m : FaissManager) (w : World) (ledger : gmap string bool),
    _meta m !! "raws" = Some ledger ->
    (forall d, d ∈ docs -> fp d ∈ dom ledger) ->
    add_loop docs acc (m, w) = (Ok acc, (m, w)).
Proof.
  induction docs as [|d rest IH]; intros acc m w ledger Hl Hall; [reflexivity |].
  rewrite (add_loop_cons_seen d rest acc m w ledger Hl).
  - apply (IH acc m w ledger Hl). intros d' Hd'. apply Hall. now right.
  - apply elem_of_dom, Hall. now left.
Qed.

(** X4: on a ledger that has the entry "raws", the loop selects a
    sub-sequence of the batch whose fingerprints are pairwise different
    and were not in the ledger; afterwards the ledger holds what it held
    before plus exactly the fingerprints of the selected chunks, which
    covers every chunk of the batch. Nothing else of the manager and
    nothing of the world changes. *)
Theorem add_loop_selects_new (docs : list Document) (m : FaissManager) (w : World)
    (ledger : gmap string bool) :
  _meta m !! "raws" = Some ledger ->
  exists (new : list Document) (ledger' : gmap string bool) (m' : FaissManager),
    add_loop docs [] (m, w) = (Ok new, (m', w))
    /\ same_but_meta m m'
    /\ _meta m' = <["raws" := ledger']> (_meta m)
    /\ new `sublist_of` docs
    /\ NoDup (map fp new)
    /\ (forall d, d ∈ new -> ledger !! fp d = None)
    /\ dom ledger' = dom ledger ∪ list_to_set (map fp new)
    /\ (forall d, d ∈ docs -> fp d ∈ dom ledger').
Proof.
  intros Hl. destruct (add_loop_run docs [] m w ledger Hl) as (new & l' & m' & H).
  exists new, l', m'. exact H.
Qed.

(** X5: the loop is idempotent: run a second time over the same batch,
    on the state the first run left, it selects nothing and changes
    nothing. *)
Theorem add_loop_second_run (docs new : list Document) (m m' : FaissManager) (w w' : World) :
  add_loop docs [] (m, w) = (Ok new, (m', w')) ->
  add_loop docs [] (m', w') = (Ok [], (m', w')).
Proof.
  intros Hrun. destruct docs as [|d rest]; [reflexivity |].
  destruct (_meta m !! "raws") as [ledger|] eqn:Hl.
  - destruct (add_loop_run (d :: rest) [] m w ledger Hl)
      as (new0 & ledger' & m0 & Hrun0 & _ & Hmeta & _ & _ & _ & _ & Hall).
    rewrite Hrun in Hrun0. injection Hrun0 as -> -> ->.
    apply (add_loop_all_seen (d :: rest) [] m0 w ledger'); [| exact Hall].
    rewrite Hmeta. apply lookup_insert_eq.
  - rewrite (add_loop_no_raws d rest [] m w Hl) in Hrun. discriminate.
Qed.

(** X6: chunks of one source without a row id all share one fingerprint,
    so of a batch of such chunks the loop selects the first and drops the
    others, however their texts differ. *)
Theorem add_loop_one_source_keeps_first (s : string) (d : Document) (rest : list Document)
    (m : FaissManager) (w : World) (ledger : gmap string bool) :
  s <> "" ->
  Forall (fun d' => metadata d' !! "source" = Some (VStr s)
                    /\ metadata d' !! "raw_id" = None) (d :: rest) ->
  _meta m !! "raws" = Some ledger ->
  ledger !! (s +:+ "::") = None ->
  Forall (fun d' => fp d' = s +:+ "::") (d :: rest)
  /\ exists m', add_loop (d :: rest) [] (m, w) = (Ok [d], (m', w)).
Proof.
  intros Hs Hall Hl Hfresh.
  assert (Hfp : Forall (fun d' => fp d' = s +:+ "::") (d :: rest)).
  { eapply Forall_impl; [exact Hall |]. intros d' [Hsrc Hrid]. unfold fp.
    rewrite (fingerprint_keyed (page_content d') (metadata d') (VStr s)).
    - unfold raw_id_text. now rewrite Hrid.
    - unfold py_or, dict_get. rewrite Hsrc. simpl.
      destruct (String.eqb_spec s ""); [contradiction | reflexivity].
    - discriminate. }
  split; [exact Hfp |].
  inversion Hfp as [|? ? Hd Hrest]; subst.
  rewrite (add_loop_cons_new d rest [] m w ledger Hl) by (now rewrite Hd).
  eexists. apply (add_loop_all_seen rest _ _ w (<[fp d := true]> ledger)).
  - cbn. apply lookup_insert_eq.
  - intros d' Hd'. rewrite dom_insert_L.
    rewrite Forall_forall in Hrest. rewrite (Hrest d' Hd'), Hd.
    apply elem_of_union_l, elem_of_singleton. reflexivity.
Qed.

End DedupLoop.

(** ** FaissManager: failed calls, a second load_or_create, construction *)

(** Case analysis on the innermost [match] of a hypothesis. *)
Ltac case_inner H :=
  match type of H with
  | context [match ?x with _ => _ end] =>
      lazymatch x with
      | context [match _ with _ => _ end] => fail
      | _ => destruct x eqn:?
      end
  end.

Section ManagerMore.
Import Py DataIngestion Spec Vocab.
Context {L : Logger} {X : External}.

(** X7: a failure of the library inside [load_or_create] - of
    [FAISS.load_local] when the artifacts are there, of [FAISS.from_texts]
    when they are not - reaches the caller as it is, neither wrapped nor
    logged, and before anything was assigned or written: manager and
    world are as before the call. *)
Theorem load_or_create_failure_unchanged (texts : option (list string))
    (metadatas : option (list (gmap string PyVal))) (m : FaissManager) (w : World)
    (e : Exn) :
  (_exists m w = true ->
   fst (load_local (index_dir m) (emb m) "index" w) = Err e ->
   load_or_create texts metadatas (m, w) = (Err e, (m, w)))
  /\ (forall (t : string) (ts : list string),
        _exists m w = false -> texts = Some (t :: ts) ->
        from_texts (t :: ts) (emb m) (default [] metadatas) = Err e ->
        load_or_create texts metadatas (m, w) = (Err e, (m, w))).
Proof.
  split.
  - intros Hex Hload.
    assert (Hw : snd (load_local (index_dir m) (emb m) "index" w) = w).
    { unfold load_local, bind, get, lift_res, raise.
      repeat case_match; reflexivity. }
    assert (Hl : load_local (index_dir m) (emb m) "index" w = (Err e, w)).
    { destruct (load_local (index_dir m) (emb m) "index" w) as [r w1].
      cbn [fst snd] in *. now subst. }
    unfold load_or_create, bind, self, on_snd, get. simpl. rewrite Hex.
    cbn [fst snd]. now rewrite Hl.
  - intros t ts Hex -> Hfrom.
    unfold load_or_create, bind, self, on_snd, get, lift_res. simpl.
    rewrite Hex. simpl in Hfrom. now rewrite Hfrom.
Qed.

(** X8: once [load_or_create] has created an index, a second call - with
    whatever texts - takes the loading branch: it returns the index the
    library reads back from the two artifacts and leaves the disk as it
    is. *)
Theorem load_or_create_twice (m : FaissManager) (w : World) (t : string)
    (ts : list string) (metadatas : option (list (gmap string PyVal)))
    (texts' : option (list string)) (metadatas' : option (list (gmap string PyVal)))
    (v v2 : VS) :
  _exists m w = false ->
  from_texts (t :: ts) (emb m) (default [] metadatas) = Ok v ->
  load (fst (dump v)) (snd (dump v)) (emb m) = Ok v2 ->
  exists m1 w1,
    load_or_create (Some (t :: ts)) metadatas (m, w) = (Ok v, (m1, w1))
    /\ load_or_create texts' metadatas' (m1, w1) = (Ok v2, (set_vs (Some v2) m1, w1)).
Proof.
  intros Hex Hfrom Hload.
  exists (set_vs (Some v) m), (snd (save_local v (index_dir m) w)).
  destruct (save_local_files v (index_dir m) w) as (_ & Hf & Hp & _).
  split.
  - unfold load_or_create, bind, self, on_snd, get, lift_res, update_self, modify, ret.
    simpl. rewrite Hex. simpl in Hfrom. rewrite Hfrom. reflexivity.
  - unfold load_or_create, bind, self, on_snd, get, update_self, modify, ret.
    cbn [fst snd].
    rewrite (exists_of_files (set_vs (Some v) m) _ _ _ Hf Hp).
    cbn [index_dir set_vs emb].
    rewrite (load_local_index _ _ _ _ _ Hf Hp), Hload. reflexivity.
Qed.

(** X9: given a model loader, the constructor creates the index directory
    and then raises [AttributeError] for [model_loader], whatever the
    directory holds; a manager is never returned. *)
Theorem FaissManager_init_AttributeError (dir : string) (ml : ModelLoader) (w : World) :
  DataIngestion.__init__ dir (Some ml) w
  = (Err (AttributeError "model_loader"), set_dirs (fun d => {[dir]} ∪ d) w)
  /\ isdir (snd (DataIngestion.__init__ dir (Some ml) w)) dir = true
  /\ forall (o : option ModelLoader) (m : FaissManager) (w' : World),
       DataIngestion.__init__ dir o w <> (Ok m, w').
Proof.
  split; [reflexivity | split].
  - unfold isdir. apply bool_decide_eq_true_2. cbn.
    apply elem_of_union_l, elem_of_singleton. reflexivity.
  - intros o m w' H.
    destruct (FaissManager_init_raises dir o w) as (e & w1 & He). congruence.
Qed.

End ManagerMore.

(** ** save_uploaded_files: what it leaves on disk *)

Section SaveMore.
Import FileIO Spec Vocab.
Context {L : Logger}.

Lemma keeps_files_refl (w : World) : keeps_files w w.
Proof. split; [auto | reflexivity]. Qed.

Lemma keeps_files_trans (w1 w2 w3 : World) :
  keeps_files w1 w2 -> keeps_files w2 w3 -> keeps_files w1 w3.
Proof. intros [Hf1 Hd1] [Hf2 Hd2]. split; [auto | etransitivity; eassumption]. Qed.

Lemma keeps_files_log (method text : string) (e : option Exn) (w : World) :
  keeps_files w (snd (log_call method text e w)).
Proof.
  unfold log_call. destruct (log_has method); [| apply keeps_files_refl].
  split; [auto | reflexivity].
Qed.

Lemma keeps_files_insert (p : string) (data : list Z) (w : World) :
  keeps_files w (set_files (fun f => <[p := data]> f) w).
Proof.
  split; [| reflexivity]. intros q Hq. cbn.
  destruct (decide (p = q)) as [->|Hne];
    [rewrite lookup_insert_eq; eauto | now rewrite lookup_insert_ne].
Qed.

Lemma keeps_files_write_upload (uf : Uploaded) (out : string) (w : World) :
  keeps_files w (snd (write_upload uf out w)).
Proof.
  unfold write_upload, write, modify, raise.
  destruct (uf_file_read uf), (uf_read uf), (uf_getbuffer uf); cbn;
    first [apply keeps_files_insert | apply keeps_files_refl].
Qed.

Lemma keeps_files_bind {A B} (c : M World A) (k : A -> M World B) (w : World) :
  keeps_files w (snd (c w)) ->
  (forall a w1, keeps_files w1 (snd (k a w1))) ->
  keeps_files w (snd (bind c k w)).
Proof.
  intros Hc Hk. unfold bind. destruct (c w) as [[a|e] w1]; cbn in *; [| exact Hc].
  eapply keeps_files_trans; [exact Hc | apply Hk].
Qed.

Lemma keeps_files_save_loop (dir : string) (ufs : list Uploaded) :
  forall saved w, keeps_files w (snd (save_loop dir ufs saved w)).
Proof.
  induction ufs as [|uf rest IH]; intros saved w; cbn [save_loop].
  - apply keeps_files_refl.
  - destruct (negb _).
    + apply keeps_files_bind; [apply keeps_files_log | intros; apply IH].
    + apply keeps_files_bind.
      { split; [auto | reflexivity]. }
      intros h w1. apply keeps_files_bind; [apply keeps_files_insert |].
      intros _ w2. apply keeps_files_bind; [apply keeps_files_write_upload |].
      intros _ w3. apply keeps_files_bind; [apply keeps_files_log |].
      intros _ w4. apply IH.
Qed.

(** X10: whatever the batch and however the call ends, no file or
    directory that was on disk has gone; and when the call returns, the
    target directory exists. *)
Theorem save_keeps_files (ufs : list Uploaded) (dir : string) (w : World) :
  keeps_files w (snd (save_uploaded_files ufs dir w))
  /\ (forall v w', save_uploaded_files ufs dir w = (Ok v, w') -> isdir w' dir = true).
Proof.
  assert (Hbody : keeps_files (set_dirs (fun d => {[dir]} ∪ d) w)
                    (snd (save_uploaded_files ufs dir w))).
  { unfold save_uploaded_files, try_except, bind at 1, mkdir, modify.
    pose proof (keeps_files_save_loop dir ufs [] (set_dirs (fun d => {[dir]} ∪ d) w)) as Hl.
    unfold bind at 1.
    destruct (save_loop dir ufs [] _) as [[saved|e] w1]; cbn in *; [exact Hl |].
    eapply keeps_files_trans; [exact Hl |].
    apply keeps_files_bind; [apply keeps_files_log | intros; apply keeps_files_refl]. }
  split.
  - eapply keeps_files_trans; [| exact Hbody].
    split; [auto | cbn; apply union_subseteq_r].
  - intros v w' Hrun. rewrite Hrun in Hbody. cbn [snd] in Hbody.
    unfold isdir. apply bool_decide_eq_true_2. apply Hbody. cbn.
    apply elem_of_union_l, elem_of_singleton. reflexivity.
Qed.

Lemma all_chars_map_string (p : ascii -> bool) (f : ascii -> ascii) (s : string) :
  (forall c, p (f c) = true) -> all_chars p (PathLib.map_string f s) = true.
Proof. intros Hf. induction s as [|c s IH]; simpl; [reflexivity | now rewrite Hf, IH]. Qed.

Lemma map_string_compose (f g : ascii -> ascii) (s : string) :
  PathLib.map_string f (PathLib.map_string g s) = PathLib.map_string (fun c => f (g c)) s.
Proof. induction s as [|c s IH]; simpl; [reflexivity | now rewrite IH]. Qed.

Lemma safe_lower_is_name_char (c : ascii) :
  is_name_char (PathLib.lower_char (if PathLib.safe_char c then c else "_"%char)) = true.
Proof. destruct c as [[] [] [] [] [] [] [] []]; vm_compute; reflexivity. Qed.

Lemma name_char_not_slash (c : ascii) : is_name_char c = true -> not_slash c = true.
Proof. destruct c as [[] [] [] [] [] [] [] []]; vm_compute; congruence. Qed.

Lemma hex_char_not_slash (c : ascii) : is_hex_char c = true -> not_slash c = true.
Proof. destruct c as [[] [] [] [] [] [] [] []]; vm_compute; congruence. Qed.

Lemma all_chars_substring (p : ascii -> bool) (s : string) :
  all_chars p s = true -> forall n m, all_chars p (substring n m s) = true.
Proof.
  induction s as [|c s IH]; intros Hs n m.
  - destruct n, m; reflexivity.
  - simpl in Hs. apply andb_true_iff in Hs as [Hc Hs].
    destruct n as [|n]; destruct m as [|m]; simpl; try reflexivity.
    + now rewrite Hc, IH.
    + now apply IH.
    + now apply IH.
Qed.

Lemma supported_extension_no_slash (ext : string) :
  ext ∈ SUPPORTED_EXTENSIONS -> all_chars not_slash ext = true.
Proof.
  intros Hin.
  assert (Hall : Forall (fun e => all_chars not_slash e = true) SUPPORTED_EXTENSIONS)
    by (repeat constructor).
  rewrite Forall_forall in Hall. now apply Hall.
Qed.

Lemma get_map_string (f : ascii -> ascii) (s : string) (i : nat) :
  String.get i (PathLib.map_string f s) = option_map f (String.get i s).
Proof.
  revert i. induction s as [|c s IH]; intros [|i]; simpl; try reflexivity. apply IH.
Qed.

Lemma length_map_string (f : ascii -> ascii) (s : string) :
  String.length (PathLib.map_string f s) = String.length s.
Proof. induction s as [|c s IH]; simpl; [reflexivity | now rewrite IH]. Qed.

Lemma name_char_kept (c : ascii) :
  is_name_char c = true ->
  PathLib.lower_char (if PathLib.safe_char c then c else "_"%char) = c.
Proof. destruct c as [[] [] [] [] [] [] [] []]; vm_compute; congruence. Qed.

(** X11: the name a supported upload is saved under is the stem of the
    uploaded name, cleaned, then an underscore, the first six characters
    of the random string, and the extension of the uploaded name in lower
    case. The cleaned stem is as long as the stem, holds lowercase
    letters, digits, [_] and [-] only, and has every such character of
    the stem where it was. With a hexadecimal random string the saved
    name holds no [/], whatever the uploaded name was, so the file lands
    in the target directory itself. *)
Theorem saved_name_safe (name h : string) :
  PathLib.lower (PathLib.suffix name) ∈ SUPPORTED_EXTENSIONS ->
  exists stem,
    saved_name name h = stem +:+ "_" +:+ substring 0 6 h +:+ PathLib.lower (PathLib.suffix name)
    /\ String.length stem = String.length (PathLib.stem name)
    /\ all_chars is_name_char stem = true
    /\ (forall i c, String.get i (PathLib.stem name) = Some c ->
          is_name_char c = true -> String.get i stem = Some c)
    /\ (all_chars is_hex_char h = true -> all_chars not_slash (saved_name name h) = true).
Proof.
  intros Hext.
  exists (PathLib.lower (PathLib.sanitize (PathLib.stem name))).
  assert (Hstem : all_chars is_name_char
                    (PathLib.lower (PathLib.sanitize (PathLib.stem name))) = true).
  { unfold PathLib.lower, PathLib.sanitize. rewrite map_string_compose.
    apply all_chars_map_string, safe_lower_is_name_char. }
  split; [reflexivity |]. split; [| split; [exact Hstem | split]].
  - unfold PathLib.lower, PathLib.sanitize. now rewrite !length_map_string.
  - intros i c Hget Hc. unfold PathLib.lower, PathLib.sanitize.
    rewrite map_string_compose, get_map_string, Hget. cbn [option_map].
    now rewrite (name_char_kept c Hc).
  - intros Hh. unfold saved_name. rewrite !all_chars_app.
    rewrite (all_chars_impl _ _ _ name_char_not_slash Hstem).
    rewrite (supported_extension_no_slash _ Hext).
    unfold hex6.
    rewrite (all_chars_substring _ _ (all_chars_impl _ _ _ hex_char_not_slash Hh)).
    reflexivity.
Qed.

Lemma write_upload_bytes (uf : Uploaded) (out : string) (w : World) :
  readable uf = true ->
  write_upload uf out w = (Ok tt, set_files (fun f => <[out := upload_bytes uf]> f) w).
Proof.
  unfold readable, write_upload, upload_bytes, write, modify.
  destruct (uf_file_read uf), (uf_read uf), (uf_getbuffer uf); intros Hr;
    try discriminate; reflexivity.
Qed.

Lemma save_loop_good (dir : string) (ufs : list Uploaded) :
  log_has "info" = true ->
  Forall (fun uf => supported uf = true /\ readable uf = true) ufs ->
  forall saved w,
    exists w',
      save_loop dir ufs saved w
      = (Ok (saved ++ expected_paths dir (uuids w) (uuid_next w) ufs)%list, w')
      /\ files w'
         = written (files w)
             (zip (expected_paths dir (uuids w) (uuid_next w) ufs) (map upload_bytes ufs))
      /\ uuid_next w' = uuid_next w + length ufs
      /\ uuids w' = uuids w
      /\ dirs w' = dirs w.
Proof.
  intros Hlog. induction ufs as [|uf rest IH]; intros Hall saved w.
  - exists w. cbn. unfold ret. rewrite app_nil_r. repeat split; lia.
  - inversion Hall as [|? ? [Hs Hr] Hrest]; subst.
    cbn [save_loop]. unfold supported in Hs. rewrite Hs. cbn [negb].
    unfold bind at 1, uuid4_hex at 1.
    unfold bind at 1, open_wb at 1, modify at 1.
    unfold bind at 1. rewrite (write_upload_bytes uf _ _ Hr).
    unfold bind at 1. rewrite log_call_ok by exact Hlog.
    match goal with
    | |- context [save_loop dir rest ?sv ?w4] =>
        destruct (IH Hrest sv w4) as (w' & Hloop & Hfiles & Hnext & Huu & Hdirs)
    end.
    exists w'. cbn in Hloop, Hfiles, Hnext, Huu, Hdirs.
    split; [| split; [| split; [| split]]].
    + rewrite Hloop. cbn [expected_paths]. now rewrite <- app_assoc.
    + rewrite Hfiles. cbn [expected_paths map zip zip_with written foldl fst snd].
      unfold written. now rewrite insert_insert_eq.
    + rewrite Hnext. cbn. lia.
    + exact Huu.
    + exact Hdirs.
Qed.

Lemma save_batch_run (ufs : list Uploaded) (dir : string) (w : World) :
  log_has "info" = true ->
  Forall (fun uf => supported uf = true /\ readable uf = true) ufs ->
  exists w',
    save_uploaded_files ufs dir w = (Ok None, w')
    /\ files w'
       = written (files w)
           (zip (expected_paths dir (uuids w) (uuid_next w) ufs) (map upload_bytes ufs))
    /\ uuid_next w' = uuid_next w + length ufs.
Proof.
  intros Hlog Hall.
  destruct (save_loop_good dir ufs Hlog Hall [] (set_dirs (fun d => {[dir]} ∪ d) w))
    as (w' & Hloop & Hfiles & Hnext & _ & _).
  exists w'. cbn in Hloop, Hfiles, Hnext.
  repeat split; try assumption.
  unfold save_uploaded_files, try_except, bind, mkdir, modify, ret. now rewrite Hloop.
Qed.

(** X12: a batch of supported, readable uploads is saved in order, one
    uuid per upload: the [i]-th upload is written, with the bytes it
    gives, at [target_dir / saved_name] taken with the [i]-th next uuid;
    the files afterwards are the old files with exactly these writes,
    the target directory exists, no directory has gone, and [None] is
    returned. *)
Theorem save_good_batch (ufs : list Uploaded) (dir : string) (w : World) :
  log_has "info" = true ->
  Forall (fun uf => supported uf = true /\ readable uf = true) ufs ->
  exists w',
    save_uploaded_files ufs dir w = (Ok None, w')
    /\ files w'
       = written (files w)
           (zip (expected_paths dir (uuids w) (uuid_next w) ufs) (map upload_bytes ufs))
    /\ uuid_next w' = uuid_next w + length ufs
    /\ dir ∈ dirs w' /\ dirs w ⊆ dirs w'.
Proof.
  intros Hlog Hall.
  destruct (save_loop_good dir ufs Hlog Hall [] (set_dirs (fun d => {[dir]} ∪ d) w))
    as (w' & Hloop & Hfiles & Hnext & _ & Hdirs).
  exists w'. cbn in Hloop, Hfiles, Hnext, Hdirs.
  split; [| split; [exact Hfiles | split; [exact Hnext | rewrite Hdirs; split]]].
  - unfold save_uploaded_files, try_except, bind, mkdir, modify, ret. now rewrite Hloop.
  - apply elem_of_union_l, elem_of_singleton. reflexivity.
  - apply union_subseteq_r.
Qed.

(** X13: an upload with a supported name and nothing to read from makes
    the save fail with the wrapped [ValueError], after its output file
    has been created: an empty file stays behind under the name chosen
    for it, and the rest of the batch is not looked at. *)
Theorem save_unreadable_leaves_empty_file (uf : Uploaded) (rest : list Uploaded)
    (dir : string) (w : World) :
  supported uf = true ->
  readable uf = false ->
  log_has "error" = true ->
  fst (save_uploaded_files (uf :: rest) dir w)
  = Err (ProjectException (Wrapped
      (ValueError "Unsupported uploaded file object; no readable interface")))
  /\ files (snd (save_uploaded_files (uf :: rest) dir w))
     = <[PathLib.join dir (saved_name (upload_name uf) (uuids w (uuid_next w))) := []]>
         (files w)
  /\ uuid_next (snd (save_uploaded_files (uf :: rest) dir w)) = S (uuid_next w).
Proof.
  intros Hs Hr Herr.
  unfold save_uploaded_files, try_except, bind at 1, mkdir, modify.
  cbn [save_loop]. unfold supported in Hs. rewrite Hs. cbn [negb].
  unfold bind, uuid4_hex, open_wb, modify, write_upload, raise.
  unfold readable in Hr.
  destruct (uf_file_read uf), (uf_read uf), (uf_getbuffer uf); try discriminate.
  cbn. rewrite log_call_ok by exact Herr. cbn. repeat split.
Qed.

(** X14: an upload wrapped in [FastAPIFileAdapter] is saved under its
    file name with all the bytes of the file; one whose file name is
    missing or empty is taken as "file", which has no extension and so is
    not supported. *)
Theorem save_adapted_upload (uf : Adapter.UploadFile) (dir : string) (w : World) :
  (supported (Adapter.FastAPIFileAdapter uf) = true ->
   log_has "info" = true ->
   exists w',
     save_uploaded_files [Adapter.FastAPIFileAdapter uf] dir w = (Ok None, w')
     /\ files w'
        = <[PathLib.join dir
              (saved_name (Adapter.adapter_name uf) (uuids w (uuid_next w)))
            := Adapter.up_content uf]> (files w))
  /\ (Adapter.up_filename uf = None \/ Adapter.up_filename uf = Some "" ->
      upload_name (Adapter.FastAPIFileAdapter uf) = "file"
      /\ supported (Adapter.FastAPIFileAdapter uf) = false).
Proof.
  split.
  - intros Hs Hlog.
    destruct (save_batch_run [Adapter.FastAPIFileAdapter uf] dir w Hlog)
      as (w' & Hrun & Hfiles & _); [repeat constructor; exact Hs |].
    exists w'. split; [exact Hrun | exact Hfiles].
  - intros [Hn|Hn]; unfold supported, upload_name, Adapter.FastAPIFileAdapter,
      Adapter.adapter_name; cbn; rewrite Hn; split; reflexivity.
Qed.

End SaveMore.

(** ** load_documents *)

Section LoadMore.
Import DocumentOps Spec Vocab.
Context {L : Logger} {X : External}.

Lemma load_loop_run (f : string -> list Document) (paths : list string) :
  log_has "warning" = true ->
  (forall p, p ∈ paths -> loadable p = true ->
     loader_load (PathLib.lower (PathLib.suffix p)) p = Ok (f p)) ->
  forall docs w,
    load_loop paths docs w
    = (Ok (docs ++ flat_map f (List.filter loadable paths))%list,
       set_logs (fun l => (l ++ map skipped
                             (List.filter (fun p => negb (loadable p)) paths))%list) w).
Proof.
  intros Hwarn. induction paths as [|p rest IH]; intros Hload docs w.
  - destruct w. cbn. unfold ret, set_logs. cbn. now rewrite !app_nil_r.
  - cbn [load_loop List.filter]. fold (loadable p).
    destruct (loadable p) eqn:Hp; cbn [negb].
    + unfold bind at 1, lift_res. rewrite (Hload p) by (assumption || now left).
      rewrite IH by (intros q Hq; apply Hload; now right).
      cbn [flat_map]. now rewrite app_assoc.
    + unfold bind at 1. rewrite log_call_ok by exact Hwarn.
      rewrite IH by (intros q Hq; apply Hload; now right).
      cbn [map]. unfold logged, set_logs. cbn. now rewrite <- app_assoc.
Qed.

(** X15: [load_documents] reads the paths in order through the loader of
    their extension, skips every other path with one warning and without
    failing, logs how many documents it read - and returns [None]: the
    documents are not handed to the caller. *)
Theorem load_documents_reads_then_drops (f : string -> list Document) (paths : list string)
    (w : World) :
  log_has "warning" = true ->
  log_has "info" = true ->
  (forall p, p ∈ paths -> loadable p = true ->
     loader_load (PathLib.lower (PathLib.suffix p)) p = Ok (f p)) ->
  fst (load_loop paths [] w) = Ok (flat_map f (List.filter loadable paths))
  /\ load_documents (Some paths) w
     = (Ok None,
        set_logs (fun l =>
          (l ++ map skipped (List.filter (fun p => negb (loadable p)) paths)
             ++ [LogRec "info"
                   (pretty (length (flat_map f (List.filter loadable paths)))
                    +:+ " Documents loaded") None])%list) w).
Proof.
  intros Hwarn Hinfo Hload.
  pose proof (load_loop_run f paths Hwarn Hload [] w) as Hrun. cbn [app] in Hrun.
  split; [now rewrite Hrun |].
  unfold load_documents, try_except, bind. rewrite Hrun.
  rewrite log_call_ok by exact Hinfo.
  unfold ret, logged, set_logs. cbn. now rewrite <- app_assoc.
Qed.

End LoadMore.

(** ** _format_docs *)

Section FormatMore.
Import Format.

Lemma str_join_cons (sep x y : string) (l : list string) :
  str_join sep (x :: y :: l) = x +:+ sep +:+ str_join sep (y :: l).
Proof. reflexivity. Qed.

Lemma append_assoc (a b c : string) : (a +:+ b) +:+ c = a +:+ (b +:+ c).
Proof.
  induction a as [|x a IH]; [reflexivity |].
  change (String x ((a +:+ b) +:+ c) = String x (a +:+ (b +:+ c))). now rewrite IH.
Qed.

Lemma str_join_app (sep : string) (a b : list string) :
  a <> [] -> b <> [] ->
  str_join sep (a ++ b) = str_join sep a +:+ sep +:+ str_join sep b.
Proof.
  intros Ha Hb. induction a as [|x [|y a] IH]; [contradiction | |].
  - destruct b as [|z b]; [contradiction | reflexivity].
  - change ((x :: y :: a) ++ b)%list with (x :: y :: (a ++ b))%list.
    rewrite !str_join_cons.
    change (y :: (a ++ b))%list with ((y :: a) ++ b)%list.
    rewrite IH by discriminate. now rewrite !append_assoc.
Qed.

(** X16: [_format_docs] is the texts in the order given, with one blank
    line between two neighbours and none at either end: nothing for an
    empty list, the text itself for one document, and for two non-empty
    lists put together the two results with a blank line between them. *)
Theorem format_docs_concat (a b : list DocLike) :
  _format_docs [] = ""
  /\ (forall d, _format_docs [d] = shown_text d)
  /\ (a <> [] -> b <> [] ->
      _format_docs (a ++ b) = _format_docs a +:+ blank_line +:+ _format_docs b).
Proof.
  repeat split. intros Ha Hb. unfold _format_docs. rewrite map_app.
  apply str_join_app; intros Hnil; apply map_eq_nil in Hnil; contradiction.
Qed.

End FormatMore.

(** ** ConversationalRAG: what invoke returns and leaves, loading a retriever *)

(** Case analysis on the innermost [match] of the goal. *)
Ltac case_inner_goal :=
  match goal with
  | |- context [match ?x with _ => _ end] =>
      lazymatch x with
      | context [match _ with _ => _ end] => fail
      | _ => destruct x eqn:?
      end
  end.

Section ChainMore.
Import Py Retrieval Spec Vocab.
Context {L : Logger} {X : External}.

Lemma invoke_chain_none (o : ConversationalRAG) (w : World) (u : string)
    (h : option (list string)) :
  chain o = None ->
  log_has "error" = true ->
  invoke u h (o, w)
  = (Err generic_invoke_error,
     (o, logged (LogRec "error" "Failed to invoke ConversationalRAG " (Some unbound_error)) w)).
Proof.
  intros Hc Herr.
  unfold invoke, try_except, bind, self, raise, on_snd. simpl.
  rewrite Hc. simpl. rewrite log_call_ok by exact Herr. reflexivity.
Qed.

(** X17: an answer that [invoke] returns is never empty and never longer
    than 4096 characters: it is the fallback sentence, or the whole chain
    result as a string, which then passed the length check. This holds
    for every logger and every chain. *)
Theorem invoke_answer_bounds (o : ConversationalRAG) (w : World) (u : string)
    (h : option (list string)) (a : string) :
  fst (invoke u h (o, w)) = Ok a ->
  1 <= String.length a <= 4096
  /\ (a = fallback_answer
      \/ exists run v, chain o = Some run
                       /\ run (MkPayload u (default [] h)) = Ok v /\ a = py_str v).
Proof.
  intros H.
  destruct (chain o) as [run|] eqn:Hc.
  - destruct (run (MkPayload u (default [] h))) as [v|e] eqn:Hrun.
    + destruct (truthy v) eqn:Hv.
      * destruct (invoke_never_truncates o w u h run v a Hc Hrun Hv H) as [-> Hlen].
        split; [exact Hlen | right; eauto].
      * destruct (invoke u h (o, w)) as [r s'] eqn:Hinv. cbn in H. subst r.
        apply try_except_ok_inv in Hinv; [| intros; apply log_then_raise_snd].
        unfold bind at 1, self in Hinv. cbn [fst snd] in Hinv. rewrite Hc in Hinv.
        unfold bind at 1, lift_res in Hinv. rewrite Hrun, Hv in Hinv. cbn [negb] in Hinv.
        apply bind_ok_inv in Hinv as (u0 & s1 & _ & Hret).
        unfold ret in Hret. injection Hret as <- _.
        split; [cbn; lia | now left].
    + destruct (invoke u h (o, w)) as [r s'] eqn:Hinv. cbn in H. subst r.
      apply try_except_ok_inv in Hinv; [| intros; apply log_then_raise_snd].
      unfold bind at 1, self in Hinv. cbn [fst snd] in Hinv. rewrite Hc in Hinv.
      unfold bind at 1, lift_res in Hinv. rewrite Hrun in Hinv. discriminate.
  - destruct (invoke u h (o, w)) as [r s'] eqn:Hinv. cbn in H. subst r.
    apply try_except_ok_inv in Hinv; [| intros; apply log_then_raise_snd].
    unfold bind at 1, self in Hinv. cbn [fst snd] in Hinv. rewrite Hc in Hinv.
    discriminate.
Qed.

(** X18: [invoke] never changes the instance and touches the world only
    by adding log lines; with a logger that has [error], every failure of
    [invoke] - unbound chain, failing chain, invalid answer, failing log
    call - reaches the caller as the same generic error. *)
Theorem invoke_frame (o : ConversationalRAG) (w : World) (u : string)
    (h : option (list string)) :
  fst (snd (invoke u h (o, w))) = o
  /\ only_logs w (snd (snd (invoke u h (o, w))))
  /\ (log_has "error" = true ->
      forall e, fst (invoke u h (o, w)) = Err e -> e = generic_invoke_error).
Proof.
  unfold invoke, try_except_validation, Models.ChatAnswer, log_call.
  unfold try_except, bind, self, raise, ret, lift_res, on_snd, modify.
  cbn [fst snd].
  repeat (case_inner_goal; cbn [fst snd negb]).
  all: split; [reflexivity | split].
  all: try (unfold only_logs, set_logs; cbn; repeat split;
            first [ exists []; now rewrite app_nil_r
                  | eexists; rewrite <- ?app_assoc; reflexivity ]).
  all: intros Herr ex Hex; first [congruence | now injection Hex as <-].
Qed.

Lemma build_lcel_chain_sets_chain (o o' : ConversationalRAG) (w w' : World) (u : unit) :
  _build_lcel_chain (o, w) = (Ok u, (o', w')) ->
  exists r c, retriever o = Some r /\ compose_chain (llm o) r = Ok c
              /\ chain o' = Some c /\ llm o' = llm o /\ only_logs w w'.
Proof.
  intros H. apply try_except_ok_inv in H; [| intros; apply log_then_raise_snd].
  unfold bind, self, raise, lift_res, update_self, modify, on_snd, log_call in H.
  cbn [fst snd] in H.
  destruct (retriever o) as [r|] eqn:Hr; [| discriminate].
  destruct (compose_chain (llm o) r) as [c|e] eqn:Hcomp; [| discriminate].
  cbn [fst snd] in H.
  destruct (log_has "info"); cbn in H; [| discriminate].
  injection H as _ <- <-. exists r, c. repeat split; try assumption.
  unfold set_logs; cbn. eexists; reflexivity.
Qed.

(** X19: when the index directory does not exist, [load_retriever_from_faiss]
    fails with the wrapped [FileNotFoundError] that names the path; the
    instance stays as it was and nothing but the error line is logged. *)
Theorem load_retriever_missing_dir (index_path index_name search_type : string)
    (k fetch_k lambda_mult : Num) (kw : option (gmap string Num))
    (o : ConversationalRAG) (w : World) :
  isdir w index_path = false ->
  log_has "error" = true ->
  load_retriever_from_faiss index_path k index_name search_type fetch_k lambda_mult kw (o, w)
  = (Err (ProjectException (Wrapped
       (FileNotFoundError ("FAISS index directory not found: " +:+ index_path)))),
     (o, logged (LogRec "error" "Failed to load retriever from FAISS "
                   (Some (FileNotFoundError
                            ("FAISS index directory not found: " +:+ index_path)))) w)).
Proof.
  intros Hdir Herr.
  unfold load_retriever_from_faiss, try_except, bind, on_snd, get, raise.
  cbn [fst snd]. rewrite Hdir. cbn [negb fst snd].
  rewrite log_call_ok by exact Herr. reflexivity.
Qed.

(** X20: a call of [load_retriever_from_faiss] that succeeds has bound the
    retriever it returns and assembled the chain over it and the
    instance's model, so [invoke] is open from then on; the retriever has
    the requested search type, and search parameters passed by the caller
    are used as they are, in place of [k], [fetch_k] and [lambda_mult].
    The disk is not written. *)
Theorem load_retriever_binds (index_path index_name search_type : string)
    (k fetch_k lambda_mult : Num) (kw : option (gmap string Num))
    (o o' : ConversationalRAG) (w w' : World) (r : Retriever VS) :
  load_retriever_from_faiss index_path k index_name search_type fetch_k lambda_mult kw (o, w)
  = (Ok r, (o', w')) ->
  retriever o' = Some r
  /\ (exists c, chain o' = Some c /\ compose_chain (llm o) r = Ok c)
  /\ Lib.search_type r = search_type
  /\ (forall custom, kw = Some custom -> search_kwargs r = custom)
  /\ isdir w index_path = true
  /\ files w' = files w.
Proof.
  intros H. apply try_except_ok_inv in H; [| intros; apply log_then_raise_snd].
  apply bind_ok_inv in H as (w0 & s1 & Hget & H).
  unfold on_snd, get in Hget. cbn in Hget. injection Hget as <- <-.
  apply bind_ok_inv in H as (u1 & s2 & Hdir & H).
  destruct (isdir w index_path) eqn:Hisdir; [| discriminate].
  cbn in Hdir. unfold ret in Hdir. injection Hdir as _ <-.
  apply bind_ok_inv in H as (ml & s3 & Hml & H).
  unfold lift_res in Hml. injection Hml as _ <-.
  apply bind_ok_inv in H as (e & s4 & Hemb & H).
  unfold lift_res in Hemb. injection Hemb as _ <-.
  apply bind_ok_inv in H as (vstore & s5 & Hload & H).
  assert (Hs5 : s5 = (o, w)).
  { unfold on_snd, load_local, bind, get, lift_res, raise in Hload. cbn [fst snd] in Hload.
    repeat (case_inner Hload; cbn [fst snd] in Hload); try discriminate;
      now injection Hload as _ <-. }
  subst s5.
  apply bind_ok_inv in H as (u2 & s6 & Hset & H).
  unfold update_self, modify in Hset. injection Hset as _ <-. cbn [fst snd] in H.
  apply bind_ok_inv in H as (u3 & [o7 w7] & Hbuild & H).
  apply bind_ok_inv in H as (u4 & s8 & Hlog & H).
  unfold ret in H. injection H as <- ->.
  destruct (build_lcel_chain_keeps_retriever _ _ _ _ _ Hbuild) as [Hret _].
  destruct (build_lcel_chain_sets_chain _ _ _ _ _ Hbuild)
    as (r0 & c & Hr0 & Hcomp & Hchain & _ & Hlogs7).
  cbn in Hr0. injection Hr0 as <-. cbn in Hcomp.
  unfold on_snd, log_call in Hlog. cbn [fst snd] in Hlog.
  destruct (log_has "info"); cbn in Hlog; [| discriminate].
  injection Hlog as <- <-.
  repeat split.
  - exact Hret.
  - exists c. split; assumption.
  - intros custom ->. reflexivity.
  - subst w'. cbn. apply Hlogs7.
Qed.

(** X21: an instance constructed without a retriever has no chain, and
    [invoke] on it fails with the generic error in whatever world it is
    called. *)
Theorem init_then_invoke_fails (sid : option string) (w w1 w2 : World)
    (o : ConversationalRAG) (u : string) (h : option (list string)) :
  Retrieval.__init__ sid None w = (Ok o, w1) ->
  log_has "error" = true ->
  chain o = None /\ retriever o = None /\ session_id o = sid
  /\ fst (invoke u h (o, w2)) = Err generic_invoke_error.
Proof.
  intros Hinit Herr.
  destruct (init_without_retriever sid w w1 o Hinit) as [Hc Hr].
  repeat split; try assumption.
  - apply try_except_ok_inv in Hinit; [| intros; apply log_then_raise].
    apply bind_ok_inv in Hinit as (l & w3 & _ & Hinit).
    apply bind_ok_inv in Hinit as (o1 & w4 & Ho & Hinit).
    apply bind_ok_inv in Hinit as (u0 & w5 & _ & Hinit).
    unfold ret in Hinit, Ho. cbn in Ho. injection Ho as <- _. now injection Hinit as <- _.
  - now rewrite (invoke_chain_none o w2 u h Hc Herr).
Qed.

(** X22: [_load_llm] passes [session_id] as a keyword argument to
    [log.info]. With a logger whose [info] is missing or does not take
    keyword arguments, [_load_llm] fails even when the model was loaded,
    and so does every construction of a [ConversationalRAG], with the
    "LLM loading error" wrapped once more. *)
Theorem init_fails_on_keyword_logging (sid : option string) (r : option (Retriever VS))
    (w : World) :
  log_has "error" = true ->
  log_has "info" = false \/ log_kwargs = false ->
  fst (_load_llm sid w)
  = Err (ProjectException (Msg "LLM loading error in ConversationalRAG"))
  /\ fst (Retrieval.__init__ sid r w)
     = Err (ProjectException (Wrapped
         (ProjectException (Msg "LLM loading error in ConversationalRAG")))).
Proof.
  intros Herr Hkw.
  assert (Hllm : exists w', _load_llm sid w
                 = (Err (ProjectException (Msg "LLM loading error in ConversationalRAG")), w')).
  { unfold _load_llm, try_except, bind, lift_res, raise, ret, log_call_kw.
    destruct new_model_loader as [ml|e]; cbn.
    - destruct (load_llm ml) as [l|e]; cbn.
      + destruct Hkw as [Hi|Hk].
        * rewrite Hi. cbn. rewrite log_call_ok by exact Herr. eauto.
        * rewrite Hk. destruct (log_has "info"); cbn;
            rewrite log_call_ok by exact Herr; eauto.
      + rewrite log_call_ok by exact Herr. eauto.
    - rewrite log_call_ok by exact Herr. eauto. }
  destruct Hllm as (w' & Hllm). split; [now rewrite Hllm |].
  unfold Retrieval.__init__, try_except, bind at 1. rewrite Hllm.
  unfold bind, raise. cbn. now rewrite log_call_ok by exact Herr.
Qed.

End ChainMore.

(** ** model_loader.py: API keys, embeddings, chat model *)

Section ModelLoaderMore.
Import Py ModelLoaderPy Spec Vocab.
Context {L : Logger} {P : Platform}.

Lemma on_snd_log_ok {S} (method text : string) (e : option Exn) (x : S) (w : World) :
  log_has method = true ->
  on_snd (log_call method text e) (x, w) = (Ok tt, (x, logged (LogRec method text e) w)).
Proof. intros H. unfold on_snd. cbn [fst snd]. now rewrite log_call_ok. Qed.

(** The run of [ApiKeyManage()] when the variable holds something that
    is not a JSON object. *)
Lemma ApiKeyManage_plain_run (env : gmap string string) (w : World) (raw : string) :
  env !! "MISTRAL_API_KEY" = Some raw ->
  raw <> "" ->
  (forall d, json_loads raw <> JObject d) ->
  usual_logger L ->
  ApiKeyManage (env, w)
  = (Ok (<["MISTRAL_API_KEY" := VStr raw]> ∅),
     (env,
      logged (LogRec "info" "API keys loaded" None)
        (logged (LogRec "info" "Loaded MISTRAL_API_KEY from individual env var" None)
           (logged (LogRec "warning" "Failed to parse API KEYS as JSON" None) w)))).
Proof.
  intros Hraw Hne Hjson (Hinfo & Hwarn & Herr).
  assert (Hset : set_and_nonempty (Some raw) = true).
  { cbn. destruct (String.eqb_spec raw ""); [contradiction | reflexivity]. }
  unfold ApiKeyManage. unfold bind at 1, getenv at 1. cbn [fst snd]. rewrite Hraw.
  unfold bind at 1, keys_from_json. rewrite Hset.
  change (default "" (Some raw)) with raw.
  destruct (json_loads raw) as [| |d] eqn:Hj; [ | | now destruct (Hjson d) ].
  all: unfold bind at 1; rewrite on_snd_log_ok by exact Hwarn; unfold ret at 1.
  all: unfold bind at 1; cbn [keys_from_env REQUIRED_KEYS].
  all: unfold dict_get at 1; rewrite lookup_empty; cbn [default truthy negb].
  all: unfold bind at 1, getenv at 1; cbn [fst snd]; rewrite Hraw, Hset;
    change (default "" (Some raw)) with raw.
  all: unfold bind at 1; rewrite on_snd_log_ok by exact Hinfo; unfold ret at 1.
  all: cbn [List.filter REQUIRED_KEYS]; unfold dict_get; rewrite lookup_insert_eq.
  all: cbn [default]; change (truthy (id (VStr raw))) with (negb (String.eqb raw ""));
    cbn in Hset; rewrite Hset; cbn [negb].
  all: unfold bind; now rewrite on_snd_log_ok by exact Hinfo.
Qed.

(** X23: without a non-empty [MISTRAL_API_KEY] in the environment,
    [ApiKeyManage()] logs the missing key and raises; the environment is
    left alone. *)
Theorem ApiKeyManage_needs_key (env : gmap string string) (w : World) :
  set_and_nonempty (env !! "MISTRAL_API_KEY") = false ->
  log_has "error" = true ->
  ApiKeyManage (env, w)
  = (Err (ProjectException (Msg "Missing  ['MISTRAL_API_KEY'] API KEY")),
     (env, logged (LogRec "error" "missing required API keys ['MISTRAL_API_KEY']" None) w)).
Proof.
  intros Hraw Herr.
  unfold ApiKeyManage. unfold bind at 1, getenv at 1. cbn [fst snd].
  unfold bind at 1, keys_from_json. rewrite Hraw. unfold ret at 1.
  unfold bind at 1. cbn [keys_from_env REQUIRED_KEYS].
  unfold dict_get at 1. rewrite lookup_empty. cbn [default truthy negb].
  unfold bind at 1, getenv at 1. cbn [fst snd]. rewrite Hraw. unfold ret at 1.
  cbn [List.filter REQUIRED_KEYS]. unfold dict_get. rewrite lookup_empty.
  cbn [default truthy negb].
  unfold bind, raise. now rewrite on_snd_log_ok by exact Herr.
Qed.

(** X24: a value of [MISTRAL_API_KEY] that is not a JSON object - the
    usual bare key - is accepted as the key itself, after a warning that
    it could not be parsed; [get] then returns it. *)
Theorem ApiKeyManage_plain_key (env : gmap string string) (w : World) (raw : string) :
  env !! "MISTRAL_API_KEY" = Some raw ->
  raw <> "" ->
  (forall d, json_loads raw <> JObject d) ->
  usual_logger L ->
  exists keys w',
    ApiKeyManage (env, w) = (Ok keys, (env, w'))
    /\ api_key_get keys "MISTRAL_API_KEY" = Ok (VStr raw)
    /\ LogRec "warning" "Failed to parse API KEYS as JSON" None ∈ logs w'.
Proof.
  intros Hraw Hne Hjson Hlog.
  rewrite (ApiKeyManage_plain_run env w raw Hraw Hne Hjson Hlog).
  eexists _, _. split; [reflexivity | split].
  - unfold api_key_get, dict_get. rewrite lookup_insert_eq. cbn.
    destruct (String.eqb_spec raw ""); [contradiction | reflexivity].
  - cbn. apply list_elem_of_In, in_or_app. left. apply in_or_app. left.
    apply in_or_app. right. now left.
Qed.

(** What a successful [ApiKeyManage()] tells. *)
Lemma ApiKeyManage_ok_inv (env env' : gmap string string) (w w' : World)
    (keys : gmap string PyVal) :
  ApiKeyManage (env, w) = (Ok keys, (env', w')) ->
  (exists v, api_key_get keys "MISTRAL_API_KEY" = Ok v /\ truthy v = true)
  /\ set_and_nonempty (env !! "MISTRAL_API_KEY") = true
  /\ env' = env.
Proof.
  intros H. unfold ApiKeyManage in H.
  apply bind_ok_inv in H as (raw & s1 & Hget & H).
  unfold getenv in Hget. cbn [fst snd] in Hget. injection Hget as <- <-.
  apply bind_ok_inv in H as (k1 & [env1 w1] & Hjson & H).
  assert (Henv1 : env1 = env).
  { unfold keys_from_json, try_except, bind, on_snd, ret in Hjson. cbn [fst snd] in Hjson.
    repeat (case_inner Hjson; cbn [fst snd] in Hjson); try discriminate;
      now injection Hjson as _ <- _. }
  subst env1.
  apply bind_ok_inv in H as (k2 & [env2 w2] & Henvk & H).
  cbn [keys_from_env REQUIRED_KEYS] in Henvk.
  cbn [List.filter REQUIRED_KEYS] in H.
  destruct (truthy (dict_get k2 "MISTRAL_API_KEY")) eqn:Hk2; cbn [negb] in H.
  2: { unfold bind, raise in H. destruct (on_snd _ _) as [[[]|e] s]; discriminate. }
  apply bind_ok_inv in H as (u & s3 & Hlog & H).
  unfold ret in H. injection H as <- ->.
  unfold on_snd in Hlog. cbn [fst snd] in Hlog.
  destruct (log_call _ _ _ w2) as [r3 w3]. injection Hlog as _ <- _.
  assert (Hfin : env2 = env /\ set_and_nonempty (env !! "MISTRAL_API_KEY") = true).
  { destruct (truthy (dict_get k1 "MISTRAL_API_KEY")) eqn:Hk1; cbn [negb] in Henvk.
    - unfold ret in Henvk. injection Henvk as <- <- <-. split; [reflexivity |].
      unfold keys_from_json in Hjson.
      destruct (set_and_nonempty (env !! "MISTRAL_API_KEY")); [reflexivity |].
      unfold ret in Hjson. injection Hjson as <- _.
      unfold dict_get in Hk1. rewrite lookup_empty in Hk1. discriminate.
    - unfold bind at 1, getenv at 1 in Henvk. cbn [fst snd] in Henvk.
      destruct (set_and_nonempty (env !! "MISTRAL_API_KEY")) eqn:Hs.
      + apply bind_ok_inv in Henvk as (u1 & [env3 w3'] & Hl & Hr).
        unfold ret in Hr. injection Hr as _ <- _.
        unfold on_snd in Hl. cbn [fst snd] in Hl.
        destruct (log_call _ _ _ w1) as [r4 w4]. injection Hl as _ <- _. auto.
      + unfold ret in Henvk. injection Henvk as <- _ _. congruence. }
  destruct Hfin as [-> Hset]. repeat split; try assumption.
  exists (dict_get k2 "MISTRAL_API_KEY"). split; [| exact Hk2].
  unfold api_key_get. now rewrite Hk2.
Qed.

(** X25: whatever the logger and the JSON parser do, a construction of
    [ApiKeyManage] that succeeds has a truthy [MISTRAL_API_KEY], so [get]
    on it cannot raise [KeyError]; the variable was set and non-empty; and
    the environment is unchanged. *)
Theorem ApiKeyManage_success_has_key (env env' : gmap string string) (w w' : World)
    (keys : gmap string PyVal) :
  ApiKeyManage (env, w) = (Ok keys, (env', w')) ->
  (exists v, api_key_get keys "MISTRAL_API_KEY" = Ok v /\ truthy v = true)
  /\ set_and_nonempty (env !! "MISTRAL_API_KEY") = true
  /\ env' = env.
Proof. apply ApiKeyManage_ok_inv. Qed.

(** X26: [load_embeddings] does not raise when the logger has [error]:
    a missing configuration entry, a missing key or a failing client only
    makes it return [None], and the last line of the log is then the
    error line "Error loading embedding model". It returns a client only
    if the client was built from the configured model name and the
    stored key, and the log then ends with the info line. Nothing but
    the log changes. *)
Theorem load_embeddings_swallows (self : ModelLoader) (env : gmap string string) (w : World) :
  log_has "error" = true ->
  exists r w',
    load_embeddings self (env, w) = (Ok r, (env, w'))
    /\ (forall e, r = Some e ->
          exists d model key,
            cfg_embedding_model (config self) = Some d
            /\ d !! "model_name" = Some model
            /\ api_key_get (api_key_mgt self) "MISTRAL_API_KEY" = Ok key
            /\ MistralAIEmbeddings model key = Ok e)
    /\ (cfg_embedding_model (config self) = None -> r = None)
    /\ files w' = files w /\ dirs w' = dirs w
    /\ (r = None ->
        logs w' = (logs w ++ [LogRec "error" "Error loading embedding model" None])%list
        \/ logs w' = (logs w ++ [LogRec "info" "Loading embedding model" None;
                                 LogRec "error" "Error loading embedding model" None])%list)
    /\ (forall e, r = Some e ->
          logs w' = (logs w ++ [LogRec "info" "Loading embedding model" None])%list).
Proof.
  intros Herr.
  unfold load_embeddings, try_except, bind, raise, ret, lift_res, on_snd, log_call.
  rewrite Herr. cbn [fst snd].
  destruct (cfg_embedding_model (config self)) as [d|] eqn:Hcfg; cbn [fst snd].
  2: { eexists _, _. split; [reflexivity |]. cbn.
       repeat split; try discriminate; auto. }
  destruct (d !! "model_name") as [model|] eqn:Hmodel; cbn [fst snd].
  2: { eexists _, _. split; [reflexivity |]. cbn.
       repeat split; try discriminate; auto. }
  destruct (log_has "info"); cbn [fst snd modify].
  2: { eexists _, _. split; [reflexivity |]. cbn.
       repeat split; try discriminate; auto. }
  destruct (api_key_get (api_key_mgt self) "MISTRAL_API_KEY") as [key|e] eqn:Hkey;
    cbn [fst snd].
  2: { eexists _, _. split; [reflexivity |]. cbn. rewrite <- app_assoc.
       repeat split; try discriminate; auto. }
  destruct (MistralAIEmbeddings model key) as [e|e] eqn:Hemb; cbn [fst snd].
  2: { eexists _, _. split; [reflexivity |]. cbn. rewrite <- app_assoc.
       repeat split; try discriminate; auto. }
  eexists _, _. split; [reflexivity |]. cbn.
  repeat split; try discriminate; auto.
  intros e' [= <-]. exists d, model, key. auto.
Qed.

(** X27: [load_llm] picks the configuration entry named by
    [LLM_PROVIDER], or "mistral" when the variable is unset. It raises
    [ValueError] when there is no such entry, and when the entry's
    [provider] is anything but "mistral"; otherwise it builds the Mistral
    client from the entry and the stored key. *)
Theorem load_llm_provider (self : ModelLoader) (env : gmap string string) (w : World)
    (block : gmap string (gmap string PyVal)) :
  cfg_llm (config self) = Some block ->
  usual_logger L ->
  let provider_key := default "mistral" (env !! "LLM_PROVIDER") in
  (block !! provider_key = None ->
   fst (load_llm self (env, w))
   = Err (ValueError ("LLM provider '" +:+ provider_key +:+ "' not found in config")))
  /\ (forall entry, block !! provider_key = Some entry ->
        dict_get entry "provider" <> VStr "mistral" ->
        fst (load_llm self (env, w))
        = Err (ValueError ("Unsupported LLM provider: "
                           +:+ py_str (dict_get entry "provider"))))
  /\ (forall entry key, block !! provider_key = Some entry ->
        dict_get entry "provider" = VStr "mistral" ->
        api_key_get (api_key_mgt self) "MISTRAL_API_KEY" = Ok key ->
        fst (load_llm self (env, w))
        = ChatMistralAI (dict_get entry "model_name") key
            (entry !! "temperature") (entry !! "max_output_tokens")).
Proof.
  intros Hcfg (Hinfo & Hwarn & Herr) provider_key. subst provider_key.
  unfold load_llm. rewrite Hcfg.
  split; [| split];
    [ intros Hnone | intros entry Hentry Hprov | intros entry key Hentry Hprov Hkey ];
    unfold bind at 1, getenv at 1; cbn [fst snd]; cbv zeta.
  - rewrite Hnone.
    unfold bind, raise.
    now rewrite on_snd_log_ok by exact Herr.
  - rewrite Hentry.
    unfold bind at 1. rewrite on_snd_log_ok by exact Hinfo.
    destruct (dict_get entry "provider") as [| | |s] eqn:Hp;
      try (unfold bind, raise; now rewrite on_snd_log_ok by exact Herr).
    assert (Hs : s <> "mistral") by congruence.
    destruct s as [|c0 s]; [unfold bind, raise; now rewrite on_snd_log_ok by exact Herr |].
    repeat match goal with
           | |- context [match ?c with Ascii _ _ _ _ _ _ _ _ => _ end] =>
               destruct c as [[] [] [] [] [] [] [] []]
           | |- context [match ?x with EmptyString => _ | String _ _ => _ end] =>
               destruct x
           end;
      try (unfold bind, raise; now rewrite on_snd_log_ok by exact Herr).
    now destruct Hs.
  - rewrite Hentry.
    unfold bind at 1. rewrite on_snd_log_ok by exact Hinfo. rewrite Hprov.
    unfold bind, lift_res. rewrite Hkey. now destruct (ChatMistralAI _ _ _ _).
Qed.

(** Computations that leave the environment variables alone. *)
Lemma keeps_env_ret {A} (a : A) : keeps_env (ret a).
Proof. now intros s. Qed.

Lemma keeps_env_raise {A} (e : Exn) : keeps_env (raise (A := A) e).
Proof. now intros s. Qed.

Lemma keeps_env_lift_res {A} (r : Res A) : keeps_env (lift_res r).
Proof. now intros s. Qed.

Lemma keeps_env_getenv (k : string) : keeps_env (getenv k).
Proof. now intros s. Qed.

Lemma keeps_env_on_snd {A} (c : M World A) : keeps_env (on_snd c).
Proof. intros s. unfold on_snd. now destruct (c (snd s)). Qed.

Lemma keeps_env_bind {A B} (c : M _ A) (k : A -> M _ B) :
  keeps_env c -> (forall a, keeps_env (k a)) -> keeps_env (bind c k).
Proof.
  intros Hc Hk s. unfold bind. specialize (Hc s).
  destruct (c s) as [[a|e] s1]; cbn [fst snd] in *; [| exact Hc].
  now rewrite Hk.
Qed.

Lemma keeps_env_try_except {A} (c : M _ A) (h : Exn -> M _ A) :
  keeps_env c -> (forall e, keeps_env (h e)) -> keeps_env (try_except c h).
Proof.
  intros Hc Hh s. unfold try_except. specialize (Hc s).
  destruct (c s) as [[a|e] s1]; cbn [fst snd] in *; [exact Hc |].
  now rewrite Hh.
Qed.

Lemma keeps_env_keys_from_env (keys : list string) (api_keys : gmap string PyVal) :
  keeps_env (keys_from_env keys api_keys).
Proof.
  revert api_keys. induction keys as [|key rest IH]; intros api_keys.
  - apply keeps_env_ret.
  - cbn [keys_from_env]. destruct (negb _); [| apply IH].
    apply keeps_env_bind; [apply keeps_env_getenv |]. intros v.
    destruct (set_and_nonempty v); [| apply IH].
    apply keeps_env_bind; [apply keeps_env_on_snd | intros _; apply IH].
Qed.

Lemma keeps_env_ApiKeyManage : keeps_env ApiKeyManage.
Proof.
  unfold ApiKeyManage.
  apply keeps_env_bind; [apply keeps_env_getenv |]. intros raw.
  apply keeps_env_bind.
  { unfold keys_from_json. destruct (set_and_nonempty raw); [| apply keeps_env_ret].
    destruct (json_loads _).
    1,2: apply keeps_env_bind; [apply keeps_env_on_snd | intros _; apply keeps_env_ret].
    apply keeps_env_try_except; [| intros _];
      (apply keeps_env_bind; [apply keeps_env_on_snd | intros _; apply keeps_env_ret]). }
  intros k1. apply keeps_env_bind; [apply keeps_env_keys_from_env |]. intros k2.
  destruct (List.filter _ _).
  - apply keeps_env_bind; [apply keeps_env_on_snd | intros _; apply keeps_env_ret].
  - apply keeps_env_bind; [apply keeps_env_on_snd | intros _; apply keeps_env_raise].
Qed.

(** X30: [ModelLoader()] reads the [.env] file unless [ENV] says
    production, in any letter case: whether it returns or raises, the
    environment afterwards is the old one in production mode and else
    the old one with the variables of [.env] it did not have. So in
    production mode a key that is only in [.env] is of no use: without a
    non-empty [MISTRAL_API_KEY] in the environment the construction does
    not return a loader. *)
Theorem ModelLoader_init_env (env : gmap string string) (w : World) :
  fst (snd (ModelLoaderPy.__init__ (env, w)))
  = (if production env then env else env ∪ dotenv)
  /\ (production env = true ->
      set_and_nonempty (env !! "MISTRAL_API_KEY") = false ->
      forall ml, fst (ModelLoaderPy.__init__ (env, w)) <> Ok ml).
Proof.
  assert (Hrest : keeps_env
            (keys <- ApiKeyManage ;;
             cfg <- lift_res load_config ;;
             on_snd (log_call "info" "YAML config loaded" None) ;;
             ret (MkModelLoader keys cfg))).
  { apply keeps_env_bind; [apply keeps_env_ApiKeyManage |]. intros keys.
    apply keeps_env_bind; [apply keeps_env_lift_res |]. intros cfg.
    apply keeps_env_bind; [apply keeps_env_on_snd | intros _; apply keeps_env_ret]. }
  unfold ModelLoaderPy.__init__, production.
  split; [| intros Hmode Hkey ml].
  1: destruct (String.eqb _ "production") eqn:Hmode.
  all: unfold bind at 1, getenv at 1; cbn [fst snd]; rewrite Hmode; cbn [negb].
  - unfold bind at 1. unfold on_snd at 1. cbn [fst snd].
    destruct (log_call _ _ _ w) as [[[]|e] w1]; [| reflexivity].
    now rewrite Hrest.
  - unfold bind at 1, bind at 1, load_dotenv, modify. cbn [fst snd].
    unfold on_snd at 1. cbn [fst snd].
    destruct (log_call _ _ _ w) as [[[]|e] w1]; [| reflexivity].
    now rewrite Hrest.
  - unfold bind at 1. unfold on_snd at 1. cbn [fst snd].
    destruct (log_call _ _ _ w) as [[[]|e] w1]; [| discriminate].
    unfold bind at 1.
    destruct (ApiKeyManage (env, w1)) as [[keys|e] [env2 w2]] eqn:Hk; [| discriminate].
    apply ApiKeyManage_ok_inv in Hk as (_ & Hset & _). congruence.
Qed.

(** Computations that only append to the log. *)
Lemma only_logs_refl (w : World) : only_logs w w.
Proof. repeat split. exists []. now rewrite app_nil_r. Qed.

Lemma only_logs_trans (w1 w2 w3 : World) :
  only_logs w1 w2 -> only_logs w2 w3 -> only_logs w1 w3.
Proof.
  intros (Hf & Hd & Hu & Hn & l & Hl) (Hf' & Hd' & Hu' & Hn' & l' & Hl').
  repeat split; try congruence.
  exists (l ++ l')%list. now rewrite Hl', Hl, app_assoc.
Qed.

Lemma logs_only_ret {A} (a : A) : logs_only (ret a).
Proof. intros s. apply only_logs_refl. Qed.

Lemma logs_only_raise {A} (e : Exn) : logs_only (raise (A := A) e).
Proof. intros s. apply only_logs_refl. Qed.

Lemma logs_only_lift_res {A} (r : Res A) : logs_only (lift_res r).
Proof. intros s. apply only_logs_refl. Qed.

Lemma logs_only_getenv (k : string) : logs_only (getenv k).
Proof. intros s. apply only_logs_refl. Qed.

Lemma logs_only_load_dotenv : logs_only load_dotenv.
Proof. intros s. apply only_logs_refl. Qed.

Lemma logs_only_log (method text : string) (e : option Exn) :
  logs_only (on_snd (log_call method text e)).
Proof.
  intros s. unfold on_snd, log_call, modify, raise.
  destruct (log_has method); cbn [fst snd]; [| apply only_logs_refl].
  repeat split. now exists [LogRec method text e].
Qed.

Lemma logs_only_bind {A B} (c : M _ A) (k : A -> M _ B) :
  logs_only c -> (forall a, logs_only (k a)) -> logs_only (bind c k).
Proof.
  intros Hc Hk s. unfold bind. specialize (Hc s).
  destruct (c s) as [[a|e] s1]; cbn [fst snd] in *; [| exact Hc].
  eapply only_logs_trans; [exact Hc | apply Hk].
Qed.

Lemma logs_only_try_except {A} (c : M _ A) (h : Exn -> M _ A) :
  logs_only c -> (forall e, logs_only (h e)) -> logs_only (try_except c h).
Proof.
  intros Hc Hh s. unfold try_except. specialize (Hc s).
  destruct (c s) as [[a|e] s1]; cbn [fst snd] in *; [exact Hc |].
  eapply only_logs_trans; [exact Hc | apply Hh].
Qed.

Lemma logs_only_keys_from_env (keys : list string) (api_keys : gmap string PyVal) :
  logs_only (keys_from_env keys api_keys).
Proof.
  revert api_keys. induction keys as [|key rest IH]; intros api_keys.
  - apply logs_only_ret.
  - cbn [keys_from_env]. destruct (negb _); [| apply IH].
    apply logs_only_bind; [apply logs_only_getenv |]. intros v.
    destruct (set_and_nonempty v); [| apply IH].
    apply logs_only_bind; [apply logs_only_log | intros _; apply IH].
Qed.

Lemma logs_only_ApiKeyManage : logs_only ApiKeyManage.
Proof.
  unfold ApiKeyManage.
  apply logs_only_bind; [apply logs_only_getenv |]. intros raw.
  apply logs_only_bind.
  { unfold keys_from_json. destruct (set_and_nonempty raw); [| apply logs_only_ret].
    destruct (json_loads _).
    1,2: apply logs_only_bind; [apply logs_only_log | intros _; apply logs_only_ret].
    apply logs_only_try_except; [| intros _];
      (apply logs_only_bind; [apply logs_only_log | intros _; apply logs_only_ret]). }
  intros k1. apply logs_only_bind; [apply logs_only_keys_from_env |]. intros k2.
  destruct (List.filter _ _).
  - apply logs_only_bind; [apply logs_only_log | intros _; apply logs_only_ret].
  - apply logs_only_bind; [apply logs_only_log | intros _; apply logs_only_raise].
Qed.

Lemma logs_only_ModelLoader : logs_only ModelLoaderPy.__init__.
Proof.
  unfold ModelLoaderPy.__init__.
  apply logs_only_bind; [apply logs_only_getenv |]. intros mode.
  apply logs_only_bind.
  { destruct (negb _); [| apply logs_only_log].
    apply logs_only_bind; [apply logs_only_load_dotenv | intros _; apply logs_only_log]. }
  intros _. apply logs_only_bind; [apply logs_only_ApiKeyManage |]. intros keys.
  apply logs_only_bind; [apply logs_only_lift_res |]. intros cfg.
  apply logs_only_bind; [apply logs_only_log | intros _; apply logs_only_ret].
Qed.

End ModelLoaderMore.

(** ** data_ingestion.py: ChatIngestor.__init__ *)

Section IngestorInitMore.
Import Py ModelLoaderPy IngestorInit Spec Vocab.
Context {L : Logger} {P : Platform}.

Lemma split_slash_plain (s cur : string) :
  all_chars not_slash s = true -> PathLib.split_slash s cur = [cur +:+ s].
Proof.
  revert cur. induction s as [|c s IH]; intros cur Hs.
  - cbn. f_equal. induction cur as [|a cur IHc]; [reflexivity |].
    change (String a cur = String a (cur +:+ "")). now rewrite <- IHc.
  - cbn in Hs. apply andb_true_iff in Hs as [Hc Hs].
    cbn [PathLib.split_slash]. unfold not_slash in Hc.
    destruct (Ascii.eqb c "/"); [discriminate |].
    rewrite (IH _ Hs). f_equal.
    clear. induction cur as [|a cur IHc]; [reflexivity |].
    change (String a ((cur +:+ String c "") +:+ s) = String a (cur +:+ String c s)).
    now rewrite IHc.
Qed.

Lemma split_slash_join (base child cur : string) :
  all_chars not_slash child = true ->
  PathLib.split_slash (PathLib.join base child) cur
  = (PathLib.split_slash base cur ++ [child])%list.
Proof.
  intros Hc. unfold PathLib.join. revert cur.
  induction base as [|a base IH]; intros cur.
  - change (PathLib.split_slash (String "/" child) cur = [cur; child]).
    cbn [PathLib.split_slash]. change (Ascii.eqb "/" "/") with true. cbn iota.
    now rewrite (split_slash_plain child "" Hc).
  - change (PathLib.split_slash (String a (base +:+ "/" +:+ child)) cur
            = (PathLib.split_slash (String a base) cur ++ [child])%list).
    cbn [PathLib.split_slash]. destruct (Ascii.eqb a "/"); cbn [app]; now rewrite IH.
Qed.

(** A plain name under a normal path gives a normal path. *)
Lemma normal_path_join (base child : string) :
  normal_path base = true -> plain_name child = true ->
  normal_path (PathLib.join base child) = true.
Proof.
  intros Hb Hc. unfold normal_path in *.
  assert (Hs : all_chars not_slash child = true).
  { unfold plain_name in Hc. now apply andb_true_iff in Hc as [_ Hc]. }
  rewrite (split_slash_join base child "" Hs), forallb_app, Hb. cbn. now rewrite Hc.
Qed.

Lemma generated_id_plain (ts h : string) :
  all_chars not_slash ts = true -> all_chars not_slash h = true ->
  plain_name ("session_" +:+ ts +:+ "_" +:+ substring 0 8 h) = true.
Proof.
  intros Hts Hh. unfold plain_name.
  change ("session_" +:+ ts +:+ "_" +:+ substring 0 8 h)
    with (String "s" ("ession_" +:+ ts +:+ "_" +:+ substring 0 8 h)).
  cbn [String.eqb all_chars].
  change (Ascii.eqb "s" ".") with false. cbn [negb andb].
  change (not_slash "s") with true. cbn [andb].
  rewrite !all_chars_app, Hts, (all_chars_substring _ _ Hh). reflexivity.
Qed.

(** X28: a [ChatIngestor] that was constructed keeps a non-empty session
    id it was given and otherwise makes one from the time stamp and the
    first eight digits of a fresh uuid. For bases that are relative paths
    in normal form, a given id that is one plain path component, and a
    time stamp and uuid without a slash: with session directories the two
    working directories are the sub-directories of the two bases named by
    the session id, without them they are the bases; they are again
    paths in normal form; all of them exist afterwards; no uuid but that
    of the session id was drawn and nothing that was on the disk is
    lost. *)
Theorem ChatIngestor_init_dirs (ts tb fb : string) (usd : bool) (sid : option string)
    (env env' : gmap string string) (w w' : World) (obj : ChatIngestorObj) :
  IngestorInit.__init__ ts tb fb usd sid (env, w) = (Ok obj, (env', w')) ->
  normal_path tb = true -> normal_path fb = true ->
  (forall s, sid = Some s -> s <> "" -> plain_name s = true) ->
  all_chars not_slash ts = true ->
  all_chars not_slash (uuids w (uuid_next w)) = true ->
  session_id obj
  = (if set_and_nonempty sid then default "" sid
     else "session_" +:+ ts +:+ "_" +:+ substring 0 8 (uuids w (uuid_next w)))
  /\ plain_name (session_id obj) = true
  /\ user_session obj = usd
  /\ temp_dir obj = (if usd then PathLib.join tb (session_id obj) else tb)
  /\ faiss_dir obj = (if usd then PathLib.join fb (session_id obj) else fb)
  /\ normal_path (temp_dir obj) = true /\ normal_path (faiss_dir obj) = true
  /\ temp_base obj = tb /\ fasiss_base obj = fb
  /\ tb ∈ dirs w' /\ fb ∈ dirs w' /\ temp_dir obj ∈ dirs w' /\ faiss_dir obj ∈ dirs w'
  /\ uuid_next w' = (if set_and_nonempty sid then uuid_next w else S (uuid_next w))
  /\ keeps_files w w'.
Proof.
  intros H Htb Hfb Hgiven Hts Huu.
  apply try_except_ok_inv in H; [| intros e s0; apply log_then_raise_snd].
  apply bind_ok_inv in H as (ml & [env1 w1] & Hml & H).
  pose proof (logs_only_ModelLoader (env, w)) as Hw1. rewrite Hml in Hw1.
  cbn [fst snd] in Hw1. destruct Hw1 as (Hf1 & Hd1 & Hu1 & Hn1 & _).
  apply bind_ok_inv in H as (s & [env2 w2] & Hsid & H).
  assert (Hs : s = (if set_and_nonempty sid then default "" sid
                    else "session_" +:+ ts +:+ "_" +:+ substring 0 8 (uuids w (uuid_next w)))
               /\ plain_name s = true
               /\ files w2 = files w /\ dirs w2 = dirs w
               /\ uuid_next w2
                  = (if set_and_nonempty sid then uuid_next w else S (uuid_next w))).
  { assert (Hgen : forall r s2,
               on_snd (generate_sesstion_id ts) (env1, w1) = (Ok r, (env2, s2)) ->
               r = "session_" +:+ ts +:+ "_" +:+ substring 0 8 (uuids w (uuid_next w))
               /\ plain_name r = true
               /\ files s2 = files w /\ dirs s2 = dirs w
               /\ uuid_next s2 = S (uuid_next w)).
    { intros r s2 Hrun.
      unfold on_snd, generate_sesstion_id, bind, uuid4_hex, ret in Hrun.
      cbn [fst snd] in Hrun. injection Hrun as <- _ <-. cbn [files dirs uuid_next].
      rewrite Hu1, Hn1. repeat split; try assumption.
      now apply generated_id_plain. }
    destruct sid as [given|]; cbn [set_and_nonempty default] in *.
    - destruct (String.eqb_spec given ""); cbn [negb].
      + now apply Hgen.
      + unfold ret in Hsid. injection Hsid as <- _ <-.
        repeat split; try assumption. now apply (Hgiven given).
    - now apply Hgen. }
  destruct Hs as (Hs & Hplain & Hf2 & Hd2 & Hn2).
  unfold bind, on_snd, mkdir, modify, _resolve_dir, ret in H. cbn [fst snd] in H.
  destruct usd; unfold bind, mkdir, modify, ret in H; cbn [fst snd] in H.
  all: destruct (log_call _ _ _ _) as [[[]|e] w3] eqn:Hlog; [| discriminate].
  all: injection H as <- _ <-.
  all: unfold log_call in Hlog; destruct (log_has "info"); [| discriminate].
  all: unfold modify in Hlog; injection Hlog as <-.
  all: cbn [session_id user_session temp_dir faiss_dir temp_base fasiss_base].
  all: repeat split; try exact Hs; try exact Hplain; try exact Hn2; try reflexivity;
    try assumption; try (now apply normal_path_join).
  all: try (cbn [dirs set_logs set_dirs]; rewrite Hd2;
            repeat first [ apply elem_of_union_l, elem_of_singleton; reflexivity
                         | apply elem_of_union_r ]; fail).
  all: try (cbn [files set_logs set_dirs]; rewrite Hf2; tauto).
  all: cbn [dirs set_logs set_dirs]; rewrite Hd2; intros q Hq;
    repeat apply elem_of_union_r; exact Hq.
Qed.

(** X29: when the logger has [error], every failure of the construction
    reaches the caller as a [ProjectException] that wraps the original
    exception; when it is [ModelLoader()] that failed, the construction
    adds one error line to what [ModelLoader()] had logged, and nothing
    else happened: no directory was made, no file written and no uuid
    drawn. *)
Theorem ChatIngestor_init_failure (ts tb fb : string) (usd : bool) (sid : option string)
    (env : gmap string string) (w : World) :
  log_has "error" = true ->
  (forall ex, fst (IngestorInit.__init__ ts tb fb usd sid (env, w)) = Err ex ->
     exists e, ex = ProjectException (Wrapped e))
  /\ (forall e env1 w1, ModelLoaderPy.__init__ (env, w) = (Err e, (env1, w1)) ->
       IngestorInit.__init__ ts tb fb usd sid (env, w)
       = (Err (ProjectException (Wrapped e)),
          (env1, logged (LogRec "error" "Failed to initialize ChatIngestor " (Some e)) w1))
       /\ only_logs w w1).
Proof.
  intros Herr. split.
  - intros ex. unfold IngestorInit.__init__, try_except.
    destruct (bind _ _ (env, w)) as [[o|e] [env1 w1]]; [discriminate |].
    unfold bind, raise. rewrite on_snd_log_ok by exact Herr. cbn.
    intros [= <-]. eauto.
  - intros e env1 w1 He. split.
    + unfold IngestorInit.__init__, try_except.
      unfold bind at 1. rewrite He.
      unfold bind, raise. now rewrite on_snd_log_ok by exact Herr.
    + pose proof (logs_only_ModelLoader (env, w)) as Hw1. now rewrite He in Hw1.
Qed.

End IngestorInitMore.
(** * The further properties on concrete runs *)

Section ConcreteMore.
Import Py Spec Toy Cases Vocab.
Local Existing Instance Toy.external.
Local Existing Instance stdlib_logging.

(** *** Fingerprints and the ledger *)


Lemma fingerprint_rows_distinct_witness :
  key_value row1 = key_value row2
  /\ DataIngestion._fingerprint "a,b" row1 <> DataIngestion._fingerprint "a,b" row2.
Proof.
  split; [reflexivity |].
  destruct (fingerprint_rows_distinct "a,b" "a,b" row1 row2) as [H _];
    [reflexivity | vm_compute; discriminate |].
  apply (H 1%Z 2%Z); [reflexivity | reflexivity | lia].
Defined.

Lemma add_loop_needs_raws_witness :
  DataIngestion._meta manager0 !! "raws" = None
  /\ DataIngestion.add_loop [sky_doc] [] (manager0, world0)
     = (Err (KeyError "raws"), (manager0, world0)).
Proof.
  split; [reflexivity |].
  destruct (add_loop_needs_raws [sky_doc] [] manager0 world0) as [H _];
    [reflexivity |].
  apply H. discriminate.
Defined.

Lemma add_loop_selects_new_witness :
  exists new (ledger' : gmap string bool) m',
    DataIngestion.add_loop [page1; sky_doc; page2] [] (manager_raws, world0)
    = (Ok new, (m', world0))
    /\ new `sublist_of` [page1; sky_doc; page2]
    /\ NoDup (map fp new)
    /\ dom ledger' = (list_to_set (map fp new) : gset string).
Proof.
  destruct (add_loop_selects_new [page1; sky_doc; page2] manager_raws world0 ∅)
    as (new & ledger' & m' & Hrun & _ & _ & Hsub & Hnd & _ & Hdom & _);
    [reflexivity |].
  exists new, ledger', m'. repeat split; try assumption.
  rewrite Hdom, dom_empty_L. apply (left_id_L ∅ (∪)).
Defined.

Lemma add_loop_second_run_witness :
  fst (DataIngestion.add_loop [page1; page2] [] (manager_raws, world0)) = Ok [page1]
  /\ DataIngestion.add_loop [page1; page2] []
       (snd (DataIngestion.add_loop [page1; page2] [] (manager_raws, world0)))
     = (Ok [], snd (DataIngestion.add_loop [page1; page2] [] (manager_raws, world0))).
Proof.
  split; [vm_compute; reflexivity |].
  destruct (DataIngestion.add_loop [page1; page2] [] (manager_raws, world0))
    as [[new|e] [m' w']] eqn:Hrun.
  - exact (add_loop_second_run _ _ _ _ _ _ Hrun).
  - vm_compute in Hrun. discriminate.
Defined.

Lemma add_loop_one_source_keeps_first_witness :
  fp page1 = fp page2
  /\ exists m', DataIngestion.add_loop [page1; page2] [] (manager_raws, world0)
                = (Ok [page1], (m', world0)).
Proof.
  destruct (add_loop_one_source_keeps_first "report.pdf" page1 [page2] manager_raws world0 ∅)
    as [Hfp Hrun];
    [discriminate | repeat constructor | reflexivity | reflexivity |].
  split; [| exact Hrun].
  apply Forall_cons in Hfp as [H1 Hfp]. apply Forall_cons in Hfp as [H2 _].
  now rewrite H1, H2.
Defined.

(** *** FaissManager.load_or_create *)

Lemma load_or_create_failure_unchanged_witness :
  DataIngestion._exists manager0 world_no_files = true
  /\ DataIngestion.load_or_create None None (manager0, world_no_files)
     = (Err (LibraryError "could not open index file"), (manager0, world_no_files))
  /\ DataIngestion.load_or_create (Some ["The sky is blue."]) None (manager0, world0)
     = (Err (ValueError "texts and metadatas must be the same length"), (manager0, world0)).
Proof.
  destruct (load_or_create_failure_unchanged None None manager0 world_no_files
              (LibraryError "could not open index file")) as [Hload _].
  destruct (load_or_create_failure_unchanged (Some ["The sky is blue."]) None manager0
              world0 (ValueError "texts and metadatas must be the same length"))
    as [_ Hfrom].
  split; [reflexivity |]. split.
  - apply Hload; reflexivity.
  - apply (Hfrom "The sky is blue." []); reflexivity.
Defined.

Lemma load_or_create_twice_witness :
  exists m1 w1,
    DataIngestion.load_or_create (Some ["The sky is blue."]) (Some [metadata sky_doc])
      (manager0, world0)
    = (Ok sky_index, (m1, w1))
    /\ DataIngestion.load_or_create (Some ["Grass is green."]) None (m1, w1)
       = (Ok sky_index, (DataIngestion.set_vs (Some sky_index) m1, w1)).
Proof.
  apply (load_or_create_twice manager0 world0 "The sky is blue." []
           (Some [metadata sky_doc]) (Some ["Grass is green."]) None sky_index sky_index);
    reflexivity.
Defined.

(** *** save_uploaded_files, FastAPIFileAdapter, load_documents *)

Lemma saved_name_safe_witness :
  FileIO.saved_name "My Doc.TXT" (uuids world0 0) = "my_doc_0f2a9c.txt"
  /\ all_chars not_slash (FileIO.saved_name "My Doc.TXT" (uuids world0 0)) = true
  /\ all_chars not_slash (FileIO.saved_name "a/b/../Q3 report.Pdf" (uuids world0 1)) = true.
Proof.
  destruct (saved_name_safe "My Doc.TXT" (uuids world0 0))
    as (stem & Hname & _ & _ & _ & Hsafe);
    [apply (bool_decide_unpack _); reflexivity |].
  destruct (saved_name_safe "a/b/../Q3 report.Pdf" (uuids world0 1))
    as (stem' & _ & _ & _ & _ & Hsafe');
    [apply (bool_decide_unpack _); reflexivity |].
  split; [reflexivity |]. split; [apply Hsafe | apply Hsafe']; reflexivity.
Defined.

Lemma save_keeps_files_witness :
  is_Some (files (snd (FileIO.save_uploaded_files [exe_upload] "faiss_index/s1"
                         world_indexed))
           !! "faiss_index/s1/index.faiss")
  /\ exists w',
       FileIO.save_uploaded_files [txt_upload] "data/s1" world0 = (Ok None, w')
       /\ isdir w' "data/s1" = true.
Proof.
  destruct (save_keeps_files [exe_upload] "faiss_index/s1" world_indexed) as [[Hkeep _] _].
  destruct (save_keeps_files [txt_upload] "data/s1" world0) as [_ Hdir].
  split; [apply Hkeep; vm_compute; eauto |].
  destruct (FileIO.save_uploaded_files [txt_upload] "data/s1" world0) as [[v|e] w'] eqn:Hrun.
  - exists w'. split; [| exact (Hdir v w' eq_refl)].
    vm_compute in Hrun. injection Hrun as <- _. reflexivity.
  - vm_compute in Hrun. discriminate.
Defined.

Lemma save_good_batch_witness :
  exists w',
    FileIO.save_uploaded_files [txt_upload; pdf_upload] "data/s1" world0 = (Ok None, w')
    /\ files w'
       = <["data/s1/paper_1f2a9c.pdf" := [37; 80; 68; 70]%Z]>
           (<["data/s1/my_doc_0f2a9c.txt" := encode_utf8 "The sky is blue."]> ∅)
    /\ uuid_next w' = 2.
Proof.
  destruct (save_good_batch [txt_upload; pdf_upload] "data/s1" world0)
    as (w' & Hrun & Hfiles & Hnext & _);
    [reflexivity | repeat constructor |].
  exists w'. split; [exact Hrun |]. split; [| exact Hnext].
  rewrite Hfiles. reflexivity.
Defined.

Lemma save_unreadable_leaves_empty_file_witness :
  files (snd (FileIO.save_uploaded_files [mute_upload; txt_upload] "data/s1" world0))
  = <["data/s1/sample_0f2a9c.txt" := []]> ∅
  /\ uuid_next (snd (FileIO.save_uploaded_files [mute_upload; txt_upload] "data/s1" world0))
     = 1.
Proof.
  destruct (save_unreadable_leaves_empty_file mute_upload [txt_upload] "data/s1" world0)
    as (_ & Hfiles & Hnext);
    [reflexivity | reflexivity | reflexivity |].
  split; [| exact Hnext].
  rewrite Hfiles. reflexivity.
Defined.

Lemma save_adapted_upload_witness :
  (exists w',
     FileIO.save_uploaded_files [Adapter.FastAPIFileAdapter named_upload] "data/s1" world0
     = (Ok None, w')
     /\ files w' = <["data/s1/notes_0f2a9c.txt" := [104; 105]%Z]> ∅)
  /\ supported (Adapter.FastAPIFileAdapter nameless_upload) = false.
Proof.
  destruct (save_adapted_upload named_upload "data/s1" world0) as [Hsave _].
  destruct (save_adapted_upload nameless_upload "data/s1" world0) as [_ Hnone].
  split.
  - destruct Hsave as (w' & Hrun & Hfiles); [reflexivity | reflexivity |].
    exists w'. split; [exact Hrun |]. rewrite Hfiles. reflexivity.
  - apply Hnone. left. reflexivity.
Defined.

Lemma load_documents_reads_then_drops_witness :
  fst (DocumentOps.load_loop ["a.txt"; "b.exe"; "c.PDF"] [] world0)
  = Ok (one_doc "a.txt" ++ one_doc "c.PDF")%list
  /\ fst (DocumentOps.load_documents (Some ["a.txt"; "b.exe"; "c.PDF"]) world0) = Ok None
  /\ logs (snd (DocumentOps.load_documents (Some ["a.txt"; "b.exe"; "c.PDF"]) world0))
     = [skipped "b.exe"; LogRec "info" "2 Documents loaded" None].
Proof.
  destruct (load_documents_reads_then_drops one_doc ["a.txt"; "b.exe"; "c.PDF"] world0)
    as [Hloop Hrun]; [reflexivity | reflexivity | intros p _ _; reflexivity |].
  split; [exact Hloop |]. rewrite Hrun. split; reflexivity.
Defined.

(** *** ConversationalRAG *)

Lemma format_docs_concat_witness :
  Format._format_docs [Format.IsDoc sky_doc; Format.Other "Grass is green."]
  = "The sky is blue." +:+ Format.blank_line +:+ "Grass is green.".
Proof.
  destruct (format_docs_concat [Format.IsDoc sky_doc] [Format.Other "Grass is green."])
    as (_ & _ & H).
  apply H; discriminate.
Defined.

Lemma invoke_answer_bounds_witness :
  1 <= String.length "The sky is blue." <= 4096.
Proof.
  destruct (invoke_answer_bounds (rag_answering (VStr "The sky is blue.")) world0
              "What color is the sky?" None "The sky is blue.") as [H _];
    [reflexivity | exact H].
Defined.

Lemma invoke_frame_witness :
  fst (snd (Retrieval.invoke "What color is the sky?" None (rag_unbound, world0)))
  = rag_unbound
  /\ files (snd (snd (Retrieval.invoke "What color is the sky?" None (rag_unbound, world0))))
     = files world0
  /\ fst (Retrieval.invoke "What color is the sky?" None (rag_unbound, world0))
     = Err generic_invoke_error.
Proof.
  destruct (invoke_frame rag_unbound world0 "What color is the sky?" None)
    as (Hobj & (Hfiles & _) & Herr).
  split; [exact Hobj |]. split; [exact Hfiles |].
  destruct (fst (Retrieval.invoke "What color is the sky?" None (rag_unbound, world0)))
    as [a|e] eqn:Hrun.
  - vm_compute in Hrun. discriminate.
  - f_equal. apply Herr; reflexivity.
Defined.

Lemma load_retriever_missing_dir_witness :
  isdir world0 "faiss_index/s2" = false
  /\ fst (Retrieval.load_retriever_from_faiss "faiss_index/s2" (NInt 5) "index"
            "similarity" (NInt 20) (NFloat (1 # 2)) None (rag_unbound, world0))
     = Err (ProjectException (Wrapped
         (FileNotFoundError "FAISS index directory not found: faiss_index/s2"))).
Proof.
  split; [reflexivity |].
  rewrite (load_retriever_missing_dir "faiss_index/s2" "index" "similarity"
             (NInt 5) (NInt 20) (NFloat (1 # 2)) None rag_unbound world0);
    reflexivity.
Defined.

Lemma load_retriever_binds_witness :
  exists r o' w',
    Retrieval.load_retriever_from_faiss "faiss_index/s1" (NInt 5) "index" "similarity"
      (NInt 20) (NFloat (1 # 2)) (Some {[ "k" := NInt 3 ]}) (rag_unbound, world_indexed)
    = (Ok r, (o', w'))
    /\ Retrieval.retriever o' = Some r
    /\ is_Some (Retrieval.chain o')
    /\ search_kwargs r = {[ "k" := NInt 3 ]}.
Proof.
  destruct (Retrieval.load_retriever_from_faiss "faiss_index/s1" (NInt 5) "index"
              "similarity" (NInt 20) (NFloat (1 # 2)) (Some {[ "k" := NInt 3 ]})
              (rag_unbound, world_indexed))
    as [[r|e] [o' w']] eqn:Hrun.
  - destruct (load_retriever_binds _ _ _ _ _ _ _ _ _ _ _ _ Hrun)
      as (Hr & (c & Hc & _) & _ & Hkw & _ & _).
    exists r, o', w'. split; [reflexivity |]. split; [exact Hr |].
    split; [rewrite Hc; eauto | apply Hkw; reflexivity].
  - vm_compute in Hrun. discriminate.
Defined.

Lemma init_fails_on_keyword_logging_witness :
  log_kwargs = false
  /\ fst (Retrieval.__init__ (Some "s1") None world0)
     = Err (ProjectException (Wrapped
         (ProjectException (Msg "LLM loading error in ConversationalRAG")))).
Proof.
  split; [reflexivity |].
  destruct (init_fails_on_keyword_logging (Some "s1") None world0) as [_ H];
    [reflexivity | right; reflexivity | exact H].
Defined.

End ConcreteMore.

Section ConcreteKeyword.
Import Py Spec Toy Cases Vocab.
Local Existing Instance Toy.external.
Local Existing Instance keyword_logging.

Lemma init_then_invoke_fails_witness :
  exists o w1,
    Retrieval.__init__ (Some "s1") None world0 = (Ok o, w1)
    /\ Retrieval.chain o = None
    /\ fst (Retrieval.invoke "What color is the sky?" None (o, w1))
       = Err generic_invoke_error.
Proof.
  destruct (Retrieval.__init__ (Some "s1") None world0) as [[o|e] w1] eqn:Hrun.
  - destruct (init_then_invoke_fails (Some "s1") world0 w1 w1 o
                "What color is the sky?" None Hrun) as (Hc & _ & _ & H);
      [reflexivity |].
    exists o, w1. split; [reflexivity |]. split; [exact Hc | exact H].
  - vm_compute in Hrun. discriminate.
Defined.

End ConcreteKeyword.

Section ConcreteLoader.
Import Py Spec Toy Cases Vocab ModelLoaderPy.
Local Existing Instance stdlib_logging.
Local Existing Instance Cases.platform.

Lemma ApiKeyManage_needs_key_witness :
  fst (ApiKeyManage (env_production, world0))
  = Err (ProjectException (Msg "Missing  ['MISTRAL_API_KEY'] API KEY"))
  /\ fst (snd (ApiKeyManage (env_production, world0))) = env_production.
Proof.
  rewrite (ApiKeyManage_needs_key env_production world0); [| reflexivity | reflexivity].
  split; reflexivity.
Defined.

Lemma ApiKeyManage_plain_key_witness :
  exists keys w',
    ApiKeyManage (env_key, world0) = (Ok keys, (env_key, w'))
    /\ api_key_get keys "MISTRAL_API_KEY" = Ok (VStr "sk-plain").
Proof.
  destruct (ApiKeyManage_plain_key env_key world0 "sk-plain")
    as (keys & w' & Hrun & Hget & _);
    [reflexivity | discriminate | intros d; vm_compute; discriminate
    | exact stdlib_logging_usual |].
  exists keys, w'. split; [exact Hrun | exact Hget].
Defined.

Lemma ApiKeyManage_success_has_key_witness :
  exists keys v,
    fst (ApiKeyManage (env_key, world0)) = Ok keys
    /\ api_key_get keys "MISTRAL_API_KEY" = Ok v /\ truthy v = true.
Proof.
  destruct (ApiKeyManage (env_key, world0)) as [[keys|e] [env' w']] eqn:Hrun.
  - destruct (ApiKeyManage_success_has_key _ _ _ _ _ Hrun) as ((v & Hget & Hv) & _ & _).
    exists keys, v. split; [reflexivity |]. split; [exact Hget | exact Hv].
  - vm_compute in Hrun. discriminate.
Defined.

Lemma load_embeddings_swallows_witness :
  fst (load_embeddings (MkModelLoader ∅ config0) (env_key, world0)) = Ok None
  /\ logs (snd (snd (load_embeddings (MkModelLoader ∅ config0) (env_key, world0))))
     = [LogRec "info" "Loading embedding model" None;
        LogRec "error" "Error loading embedding model" None]
  /\ fst (load_embeddings loader0 (env_key, world0)) = Ok (Some "mistral-embed").
Proof.
  destruct (load_embeddings_swallows (MkModelLoader ∅ config0) env_key world0)
    as (r & w' & Hrun & Hsome & _ & _ & _ & Hnone & _); [reflexivity |].
  destruct (load_embeddings_swallows loader0 env_key world0)
    as (r1 & w1 & Hrun1 & Hsome1 & _); [reflexivity |].
  rewrite Hrun, Hrun1. cbn [fst snd].
  destruct r as [e|].
  - destruct (Hsome e eq_refl) as (d & model & key & _ & _ & Hkey & _).
    vm_compute in Hkey. discriminate.
  - split; [reflexivity |]. split.
    + destruct (Hnone eq_refl) as [Hl | Hl]; rewrite Hl; [| reflexivity].
      vm_compute in Hrun. injection Hrun as <-. vm_compute in Hl. discriminate.
    + destruct r1 as [e1|].
      * destruct (Hsome1 e1 eq_refl) as (d & model & key & Hcfg & Hmodel & _ & Hemb).
        vm_compute in Hcfg. injection Hcfg as <-.
        vm_compute in Hmodel. injection Hmodel as <-.
        vm_compute in Hemb. injection Hemb as <-. reflexivity.
      * vm_compute in Hrun1. discriminate.
Defined.

Lemma load_llm_provider_witness :
  fst (load_llm loader0 (env_other, world0))
  = Err (ValueError "LLM provider 'openai' not found in config")
  /\ fst (load_llm loader0 (env_groq, world0))
     = Err (ValueError "Unsupported LLM provider: groq")
  /\ fst (load_llm loader0 (env_key, world0)) = Ok "mistral-small-latest".
Proof.
  pose (block := default ∅ (cfg_llm config0)).
  destruct (load_llm_provider loader0 env_other world0 block) as (Hnone & _ & _);
    [reflexivity | exact stdlib_logging_usual |].
  destruct (load_llm_provider loader0 env_groq world0 block) as (_ & Hother & _);
    [reflexivity | exact stdlib_logging_usual |].
  destruct (load_llm_provider loader0 env_key world0 block) as (_ & _ & Hmistral);
    [reflexivity | exact stdlib_logging_usual |].
  split; [| split].
  - apply Hnone. reflexivity.
  - rewrite (Hother {[ "provider" := VStr "groq"; "model_name" := VStr "llama3-8b" ]});
      [reflexivity | reflexivity | vm_compute; discriminate].
  - rewrite (Hmistral {[ "provider" := VStr "mistral";
                         "model_name" := VStr "mistral-small-latest";
                         "temperature" := VInt 0 ]} (VStr "sk-plain"));
      reflexivity.
Defined.

Lemma ModelLoader_init_env_witness :
  production env_production = true
  /\ fst (snd (ModelLoaderPy.__init__ (env_production, world0))) = env_production
  /\ (forall ml, fst (ModelLoaderPy.__init__ (env_production, world0)) <> Ok ml)
  /\ fst (snd (ModelLoaderPy.__init__ (∅, world0))) = dotenv.
Proof.
  destruct (ModelLoader_init_env env_production world0) as [Henv Hfail].
  destruct (ModelLoader_init_env ∅ world0) as [Hlocal _].
  split; [reflexivity |]. split; [exact Henv |].
  split; [apply Hfail; reflexivity |].
  rewrite Hlocal. reflexivity.
Defined.

End ConcreteLoader.

Section ConcreteIngestor.
Import Py Spec Toy Cases Vocab.
Local Existing Instance stdlib_logging.
Local Existing Instance Cases.platform.

Lemma ChatIngestor_init_dirs_witness :
  exists obj env' w',
    IngestorInit.__init__ "20251026_103848" "data" "faiss_index" true None
      (env_key, world0) = (Ok obj, (env', w'))
    /\ IngestorInit.session_id obj = "session_20251026_103848_0f2a9c07"
    /\ IngestorInit.faiss_dir obj = "faiss_index/session_20251026_103848_0f2a9c07"
    /\ IngestorInit.faiss_dir obj ∈ dirs w'
    /\ uuid_next w' = 1.
Proof.
  destruct (IngestorInit.__init__ "20251026_103848" "data" "faiss_index" true None
              (env_key, world0)) as [[obj|e] [env' w']] eqn:Hrun.
  - destruct (ChatIngestor_init_dirs _ _ _ _ _ _ _ _ _ _ Hrun)
      as (Hsid & _ & _ & _ & Hfaiss & _ & _ & _ & _ & _ & _ & _ & Hin & Hnext & _);
      [reflexivity | reflexivity | discriminate | reflexivity | reflexivity |].
    exists obj, env', w'. split; [reflexivity |]. split; [exact Hsid |].
    split; [rewrite Hfaiss, Hsid; reflexivity |]. split; [exact Hin | exact Hnext].
  - vm_compute in Hrun. discriminate.
Defined.

Lemma ChatIngestor_init_failure_witness :
  fst (IngestorInit.__init__ "20251026_103848" "data" "faiss_index" true None
         (env_production, world0))
  = Err (ProjectException (Wrapped
      (ProjectException (Msg "Missing  ['MISTRAL_API_KEY'] API KEY"))))
  /\ dirs (snd (snd (IngestorInit.__init__ "20251026_103848" "data" "faiss_index" true None
                       (env_production, world0)))) = ∅
  /\ logs (snd (snd (IngestorInit.__init__ "20251026_103848" "data" "faiss_index" true None
                       (env_production, world0))))
     = [LogRec "info" "Running in PRODUCION mode." None;
        LogRec "error" "missing required API keys ['MISTRAL_API_KEY']" None;
        LogRec "error" "Failed to initialize ChatIngestor "
          (Some (ProjectException (Msg "Missing  ['MISTRAL_API_KEY'] API KEY")))].
Proof.
  destruct (ChatIngestor_init_failure "20251026_103848" "data" "faiss_index" true None
              env_production world0) as [_ H]; [reflexivity |].
  destruct (H (ProjectException (Msg "Missing  ['MISTRAL_API_KEY'] API KEY"))
              env_production
              (logged (LogRec "error" "missing required API keys ['MISTRAL_API_KEY']" None)
                 (logged (LogRec "info" "Running in PRODUCION mode." None) world0)))
    as [Hrun _]; [reflexivity |].
  rewrite Hrun. repeat split.
Defined.

End ConcreteIngestor.
